(** * Image Text Editor: the Flask server [server.py]

    A shallow embedding of the request handlers of [server.py]
    ([extract_text], [update_image], [download_file]) and of the helpers
    they call ([hex_to_rgb], [get_font]), with the properties the
    specification states about them.

    - Python values that arrive through JSON are modelled by [pyval]; a
      Python exception is the [Err] case of [result].  A handler takes the
      decoded request (the JSON body, the uploaded file, the name in the
      URL) and returns its response together with what it did to the
      upload folder.
    - The drawing surface of Pillow is modelled by the sequence of drawing
      calls that were accepted on it, an image by the operations that
      produced it.  Pixels are not modelled.
    - What the operating system and the libraries decide (which files
      exist, which fonts load, which drawing calls raise, how text is
      measured, what the OCR engine reports) is collected in the record
      [World]; the handlers are functions of a world, and every theorem
      holds for every world.
    - Strings are strings of 8-bit characters, the code points up to
      U+00FF: blanks and digits are those of that range, and a character
      beyond it has no counterpart here.  [os.path] is the POSIX one.
    - [print] writes to standard output and raises [UnicodeEncodeError]
      for text the stream cannot encode.  The server starts only where the
      stream encodes the marks the program itself prints
      ([setup_tesseract] prints one on every path), so the two calls that
      print text of the request are the ones that can raise: line 146 in
      [get_font] and line 392 in the loop over the blocks.  The world says
      for which of their messages [print] raises; the other calls are left
      out, except that the line printed for a block is what the loop over
      the blocks returns for it. *)

From Stdlib Require Import ZArith QArith List String Ascii Bool Lia DecimalString.
Import ListNotations.

Local Open Scope string_scope.
Local Open Scope list_scope.
Local Open Scope Z_scope.

(* ================================================================== *)
(** ** Exceptions and the result type *)

Inductive exn : Type :=
| KeyError (key : string)
| IndexError
| TypeError
| ValueError
| AttributeError
| OverflowError
| UnicodeEncodeError
| OSError
| PillowError.

Inductive result (A : Type) : Type :=
| Ok (a : A)
| Err (e : exn).

Arguments Ok {A} a.
Arguments Err {A} e.

Definition rbind {A B} (r : result A) (k : A -> result B) : result B :=
  match r with
  | Ok a => k a
  | Err e => Err e
  end.

Definition of_option {A} (o : option A) (e : exn) : result A :=
  match o with
  | Some a => Ok a
  | None => Err e
  end.

(** A computation that threads a state [St] and may raise.  The state
    reached when the exception was raised is kept: what was written before
    the failure stays written. *)
Definition M (St A : Type) : Type := St -> result A * St.

Definition ret {St A} (a : A) : M St A := fun s => (Ok a, s).

Definition bind {St A B} (m : M St A) (k : A -> M St B) : M St B :=
  fun s =>
    match m s with
    | (Ok a, s') => k a s'
    | (Err e, s') => (Err e, s')
    end.

Definition raise {St A} (e : exn) : M St A := fun s => (Err e, s).

Definition lift {St A} (r : result A) : M St A := fun s => (r, s).

(** [try: body except Exception as e: handler(e)] *)
Definition try_except {St A} (body : M St A) (handler : exn -> M St A) : M St A :=
  fun s =>
    match body s with
    | (Ok a, s') => (Ok a, s')
    | (Err e, s') => handler e s'
    end.

Definition emit {St} (x : St -> St) : M St unit := fun s => (Ok tt, x s).

Declare Scope py_scope.
Delimit Scope py_scope with py.
Notation "x <- m ;; k" := (bind m (fun x => k))
  (at level 61, m at next level, right associativity) : py_scope.
Notation "m ;;; k" := (bind m (fun _ => k))
  (at level 61, right associativity) : py_scope.
Notation "x <~ r ;; k" := (rbind r (fun x => k))
  (at level 61, r at next level, right associativity) : py_scope.

(** [for idx, x in enumerate(xs): body(idx, x)], collecting what each
    iteration returns.  An exception that leaves [body] ends the loop. *)
Fixpoint for_enumerate {St A B} (idx : nat) (xs : list A)
         (body : nat -> A -> M St B) : M St (list B) :=
  match xs with
  | [] => ret []
  | x :: rest =>
      (b <- body idx x ;;
       bs <- for_enumerate (S idx) rest body ;;
       ret (b :: bs))%py
  end.

(* ================================================================== *)
(** ** Python strings *)

Module Str.

Definition chars (s : string) : list ascii := list_ascii_of_string s.
Definition of_chars (l : list ascii) : string := string_of_list_ascii l.

Definition code (c : ascii) : Z := Z.of_nat (nat_of_ascii c).

Definition between (lo hi : Z) (c : ascii) : bool :=
  (lo <=? code c) && (code c <=? hi).

(** [str.isspace] up to U+00FF: TAB..CR, FS..US, the blank, NEL (U+0085)
    and the no-break space (U+00A0).  These are the characters [strip]
    and [split] take for blanks. *)
Definition isspace (c : ascii) : bool :=
  between 9 13 c || between 28 32 c || between 133 133 c || between 160 160 c.

Definition is_char (a c : ascii) : bool := Ascii.eqb a c.

Fixpoint drop_while (p : ascii -> bool) (l : list ascii) : list ascii :=
  match l with
  | [] => []
  | c :: r => if p c then drop_while p r else l
  end.

Definition lstrip_by (p : ascii -> bool) (s : string) : string :=
  of_chars (drop_while p (chars s)).

Definition strip_by (p : ascii -> bool) (s : string) : string :=
  of_chars (rev (drop_while p (rev (drop_while p (chars s))))).

(** [s.lstrip('#')] *)
Definition lstrip_hash (s : string) : string := lstrip_by (is_char "#") s.

(** [s.strip()] *)
Definition strip (s : string) : string := strip_by isspace s.

(** [s[i:j]] for [0 <= i <= j] *)
Definition slice (i j : nat) (s : string) : string :=
  of_chars (firstn (j - i) (skipn i (chars s))).

(** [s.split()]: the maximal runs of non-blank characters. *)
Fixpoint split_ws_aux (cur : list ascii) (l : list ascii) : list (list ascii) :=
  match l with
  | [] => match cur with [] => [] | _ => [rev cur] end
  | c :: r =>
      if isspace c
      then match cur with
           | [] => split_ws_aux [] r
           | _ => rev cur :: split_ws_aux [] r
           end
      else split_ws_aux (c :: cur) r
  end.

Definition split_ws (l : list ascii) : list (list ascii) := split_ws_aux [] l.

(** [sep.join(parts)] *)
Fixpoint join (sep : list ascii) (parts : list (list ascii)) : list ascii :=
  match parts with
  | [] => []
  | [p] => p
  | p :: rest => p ++ sep ++ join sep rest
  end.

(** [s.replace(a, b)] for one-character [a] and [b]. *)
Definition replace_char (a b : ascii) (l : list ascii) : list ascii :=
  map (fun c => if Ascii.eqb c a then b else c) l.

Definition nonempty (s : string) : bool :=
  match s with EmptyString => false | _ => true end.

Definition starts_with_char (a : ascii) (s : string) : bool :=
  match s with String c _ => Ascii.eqb c a | EmptyString => false end.

Definition ends_with_char (a : ascii) (s : string) : bool :=
  match rev (chars s) with c :: _ => Ascii.eqb c a | [] => false end.

End Str.

(* ================================================================== *)
(** ** Python values, as [json] delivers them *)

Inductive pyfloat : Type :=
| FNan
| FInf (negative : bool)
| FFin (q : Q).

#[warnings="-register-all"]
Inductive pyval : Type :=
| PNone
| PBool (b : bool)
| PInt (z : Z)
| PFloat (f : pyfloat)
| PStr (s : string)
| PList (items : list pyval)
| PDict (items : list (string * pyval)).

Module Py.

(** Truth value of an object, as [if x:] and [not x] test it. *)
Definition truthy (v : pyval) : bool :=
  match v with
  | PNone => false
  | PBool b => b
  | PInt z => negb (z =? 0)
  | PFloat (FFin q) => negb (Qnum q =? 0)
  | PFloat _ => true
  | PStr s => Str.nonempty s
  | PList l => match l with [] => false | _ => true end
  | PDict d => match d with [] => false | _ => true end
  end.

Fixpoint assoc {A} (d : list (string * A)) (k : string) : option A :=
  match d with
  | [] => None
  | (k', v) :: rest => if String.eqb k' k then Some v else assoc rest k
  end.

(** [d.get(k, default)] on a [dict] with [str] keys. *)
Definition dict_get {A} (d : list (string * A)) (k : string) (default : A) : A :=
  match assoc d k with
  | Some v => v
  | None => default
  end.

(** [obj[k]] with a [str] key [k]. *)
Definition subscript (obj : pyval) (k : string) : result pyval :=
  match obj with
  | PDict d => of_option (assoc d k) (KeyError k)
  | _ => Err TypeError
  end.

(** [obj.get(k, default)] *)
Definition get (obj : pyval) (k : string) (default : pyval) : result pyval :=
  match obj with
  | PDict d => Ok (dict_get d k default)
  | _ => Err AttributeError
  end.

(** Value of a digit in bases up to 36. *)
Definition digit_value (c : ascii) : option Z :=
  if Str.between 48 57 c then Some (Str.code c - 48)
  else if Str.between 97 122 c then Some (Str.code c - 97 + 10)
  else if Str.between 65 90 c then Some (Str.code c - 65 + 10)
  else None.

(** The digits of an integer literal, single underscores allowed between
    digits.  Returns the value, whether a digit was read, and the rest. *)
Fixpoint scan_digits (base : Z) (prev_us seen : bool) (acc : Z)
         (l : list ascii) : option (Z * bool * list ascii) :=
  let finish := if prev_us then None else Some (acc, seen, l) in
  match l with
  | [] => finish
  | c :: r =>
      if Str.is_char "_" c
      then if prev_us then None else scan_digits base true seen acc r
      else match digit_value c with
           | Some d =>
               if d <? base
               then scan_digits base false true (acc * base + d) r
               else finish
           | None => finish
           end
  end.

Definition skip_prefix16 (l : list ascii) : list ascii :=
  match l with
  | "0"%char :: x :: r =>
      if Str.is_char "x" x || Str.is_char "X" x
      then match r with
           | "_"%char :: r' => r'
           | _ => r
           end
      else l
  | _ => l
  end.

(** The blanks [int] allows around a literal: C's [isspace] (TAB..CR and
    the blank) and, of the characters that are not ASCII, the blanks of
    [str.isspace].  The separators FS..US are none of them. *)
Definition isblank (c : ascii) : bool :=
  Str.between 9 13 c || Str.between 32 32 c
  || Str.between 133 133 c || Str.between 160 160 c.

(** [sys.get_int_max_str_digits()], as the interpreter sets it. *)
Definition max_str_digits : Z := 4300.

(** The digits between the start [l] of a literal and its end [rest]. *)
Definition count_digits (l rest : list ascii) : Z :=
  Z.of_nat (List.length
              (filter (fun c => negb (Str.is_char "_" c))
                      (firstn (List.length l - List.length rest) l))).

(** [int(s, base)] for [base] 10 or 16: blanks, a sign, for base 16 an
    optional [0x], the digits, blanks.  In base 10 a literal of more than
    [max_str_digits] digits is refused; base 16 has no such limit. *)
Definition int_of_str (base : Z) (s : string) : result Z :=
  let l := Str.drop_while isblank (Str.chars s) in
  let '(sign, l) :=
    match l with
    | "+"%char :: r => (1, r)
    | "-"%char :: r => (-1, r)
    | _ => (1, l)
    end in
  let l := if base =? 16 then skip_prefix16 l else l in
  match l with
  | "_"%char :: _ => Err ValueError
  | _ =>
      match scan_digits base false false 0 l with
      | Some (v, true, rest) =>
          match Str.drop_while isblank rest with
          | [] =>
              if negb (base =? 16) && (max_str_digits <? count_digits l rest)
              then Err ValueError
              else Ok (sign * v)
          | _ => Err ValueError
          end
      | _ => Err ValueError
      end
  end.

(** [int(x)] *)
Definition int (v : pyval) : result Z :=
  match v with
  | PInt z => Ok z
  | PBool b => Ok (if b then 1 else 0)
  | PFloat (FFin q) => Ok (Z.quot (Qnum q) (Zpos (Qden q)))
  | PFloat FNan => Err ValueError
  | PFloat (FInf _) => Err OverflowError
  | PStr s => int_of_str 10 s
  | PNone | PList _ | PDict _ => Err TypeError
  end.

(** Whether [hash(x)] is defined: lists and dicts cannot be dict keys. *)
Definition hashable (v : pyval) : bool :=
  match v with
  | PList _ | PDict _ => false
  | _ => true
  end.

End Py.

(* ================================================================== *)
(** ** [os.path] (POSIX flavour, as in the production container) *)

Module OsPath.

Fixpoint after_last (sep : ascii) (cur l : list ascii) : list ascii :=
  match l with
  | [] => rev cur
  | c :: r =>
      if Ascii.eqb c sep then after_last sep [] r
      else after_last sep (c :: cur) r
  end.

(** [os.path.basename(p)]: what follows the last slash. *)
Definition basename (p : string) : string :=
  Str.of_chars (after_last "/" [] (Str.chars p)).

(** [os.path.join(a, b)] *)
Definition join (a b : string) : string :=
  if Str.starts_with_char "/" b then b
  else if negb (Str.nonempty a) || Str.ends_with_char "/" a then a ++ b
  else a ++ "/" ++ b.

End OsPath.

(* ================================================================== *)
(** ** [werkzeug.utils.secure_filename] *)

Module Werkzeug.

(** The class [A-Za-z0-9_.-]; every other character is deleted. *)
Definition keep (c : ascii) : bool :=
  Str.between 65 90 c || Str.between 97 122 c || Str.between 48 57 c
  || Str.is_char "_" c || Str.is_char "." c || Str.is_char "-" c.

Definition dot_or_underscore (c : ascii) : bool :=
  Str.is_char "." c || Str.is_char "_" c.

(** [normalize] stands for [unicodedata.normalize("NFKD", .)] followed by
    [encode("ascii", "ignore")].  Then: the separator becomes a blank,
    runs of blanks become one underscore, characters outside the class
    are deleted, dots and underscores are stripped at both ends. *)
Definition secure_filename (normalize : string -> string)
           (filename : string) : string :=
  let l := Str.chars (normalize filename) in
  let l := Str.replace_char "/" " " l in
  let l := Str.join ["_"%char] (Str.split_ws l) in
  let l := filter keep l in
  Str.strip_by dot_or_underscore (Str.of_chars l).

End Werkzeug.

(* ================================================================== *)
(** ** Pillow: fonts, drawing calls, images *)

Inductive font : Type :=
| TrueType (path : string) (size : Z)       (* ImageFont.truetype(path, size) *)
| DefaultFont.                              (* ImageFont.load_default() *)

Definition rgb : Type := (Z * Z * Z)%type.
Definition rgba : Type := (Z * Z * Z * Z)%type.
Definition box : Type := (Z * Z * Z * Z)%type.

(** [rgb + (a,)] *)
Definition with_alpha (c : rgb) (a : Z) : rgba :=
  let '(r, g, b) := c in (r, g, b, a).

Inductive draw_cmd : Type :=
| Rectangle (xy : box) (fill : rgba)
| Text (x y : Z) (text : string) (fill : rgba) (f : font)
| Line (x0 y0 x1 y1 : Z) (fill : rgba) (width : Z).

Inductive mode : Type :=
| RGB
| RGBA
| L
| OtherMode (name : string).

Definition mode_eqb (a b : mode) : bool :=
  match a, b with
  | RGB, RGB | RGBA, RGBA | L, L => true
  | OtherMode x, OtherMode y => String.eqb x y
  | _, _ => false
  end.

Record raw_image : Type := {
  raw_mode : mode;
  raw_size : Z * Z;
  raw_data : list Z
}.

Inductive image : Type :=
| Decoded (r : raw_image)                                (* Image.open *)
| Converted (m : mode) (i : image)                       (* i.convert(m) *)
| Enhanced (factor : Q) (i : image)                      (* Contrast(i).enhance *)
| Canvas (m : mode) (size : Z * Z) (color : rgba)
         (drawn : list draw_cmd)                         (* Image.new, then draws *)
| Composite (base over : image).                         (* Image.alpha_composite *)

Fixpoint mode_of (i : image) : mode :=
  match i with
  | Decoded r => raw_mode r
  | Converted m _ => m
  | Enhanced _ i => mode_of i
  | Canvas m _ _ _ => m
  | Composite base _ => mode_of base
  end.

Fixpoint size_of (i : image) : Z * Z :=
  match i with
  | Decoded r => raw_size r
  | Converted _ i => size_of i
  | Enhanced _ i => size_of i
  | Canvas _ s _ _ => s
  | Composite base _ => size_of base
  end.

Definition has_alpha (i : image) : bool := mode_eqb (mode_of i) RGBA.

Definition size_eqb (a b : Z * Z) : bool :=
  (fst a =? fst b) && (snd a =? snd b).

(** [Image.alpha_composite(a, b)]: both images RGBA and of one size. *)
Definition alpha_composite (a b : image) : result image :=
  if mode_eqb (mode_of a) RGBA && mode_eqb (mode_of b) RGBA
     && size_eqb (size_of a) (size_of b)
  then Ok (Composite a b)
  else Err ValueError.

(** ["data:image/png;base64," + b64encode(PNG bytes of img)] *)
Inductive data_url : Type :=
| PngDataUrl (img : image).

(* ================================================================== *)
(** ** The OCR engine's table and the text blocks *)

(** [pytesseract.image_to_data(..., output_type=DICT)]: one list per
    column.  A cell is an [int] where the engine's cell parsed as a number
    and the raw [str] otherwise. *)
Record ocr_data : Type := {
  col_level : list pyval;
  col_left : list pyval;
  col_top : list pyval;
  col_width : list pyval;
  col_height : list pyval;
  col_conf : list pyval;
  col_text : list pyval
}.

Record TextBlock : Type := {
  text : string;
  x : Z;
  y : Z;
  width : Z;
  height : Z;
  confidence : pyfloat;
  fontSize : Z;
  fontFamily : string;
  bold : bool;
  italic : bool;
  underline : bool;
  textColor : string;
  backgroundColor : string;
  backgroundTransparent : bool
}.

(* ================================================================== *)
(** ** The world outside the program *)

(** The two printed lines that carry text of the request. *)
Inductive message : Type :=
| FontFallback (font_family : pyval)   (* Could not load {font_family}, ... *)
| BlockDone (text : string).            (* Block {idx+1}: '{text[:30]}...' *)

Record World : Type := {
  (** [os.path.exists] on a path, and on a file descriptor ([None]: the
      number does not fit a descriptor and the call raises) *)
  fs_exists : string -> bool;
  fd_exists : Z -> option bool;
  (** whether [ImageFont.truetype(path, size)] returns *)
  truetype_ok : string -> Z -> bool;
  (** whether a drawing call raises instead of drawing *)
  draw_raises : draw_cmd -> bool;
  (** [draw.textbbox((x, y), text, font=f)], [None] when it raises *)
  textbbox : Z -> Z -> string -> font -> option box;
  (** [Image.open(path)], [None] when it raises *)
  open_image : string -> option raw_image;
  (** what [image.save(path, quality=95)] raises ([ValueError] for a file
      extension no format is registered for, [OSError] when the file cannot
      be written), [None] when it returns *)
  save_error : string -> image -> option exn;
  (** whether [file.save(path)] of an upload returns *)
  upload_save_ok : string -> bool;
  (** the working directory, against which [os.path.exists], [Image.open],
      [file.save] and [image.save] resolve a relative path *)
  cwd : string;
  (** [app.root_path], against which [send_file] resolves a relative path *)
  app_root : string;
  (** whether [send_file] returns for the file it resolved *)
  send_file_ok : string -> bool;
  (** whether [print] of a message raises [UnicodeEncodeError] *)
  print_raises : message -> bool;
  (** [str(x)] for floats, lists and dicts *)
  py_repr : pyval -> string;
  (** [float(s)] for a string, [None] when it raises *)
  float_of_str : string -> option pyfloat;
  (** NFKD normalisation followed by the ASCII encoding *)
  nfkd_ascii : string -> string;
  (** the module-level [tesseract_available] *)
  tesseract_available : bool;
  (** [pytesseract.image_to_data], [None] when it raises *)
  image_to_data : image -> option ocr_data;
  (** whether the PNG encoder writes an image of a mode other than RGB,
      RGBA and L *)
  png_mode_ok : string -> bool
}.

(** Whether [image.save(path, quality=95)] returns. *)
Definition save_ok (w : World) (path : string) (img : image) : bool :=
  match save_error w path img with
  | None => true
  | Some _ => false
  end.

(** The file a path names for the calls that resolve it against the
    working directory. *)
Definition in_cwd (w : World) (path : string) : string :=
  OsPath.join (cwd w) path.

(** The file [send_file] serves for a path: Flask resolves a relative path
    against the root path of the application. *)
Definition served_file (w : World) (path : string) : string :=
  OsPath.join (app_root w) path.

(** [print(...)] of one of the two messages. *)
Definition print {St} (w : World) (m : message) : M St unit :=
  if print_raises w m then raise UnicodeEncodeError else ret tt.

(* ================================================================== *)
(** ** [server.py] *)

Definition UPLOAD_FOLDER : string := "uploads".

Definition secure_filename (w : World) (filename : string) : string :=
  Werkzeug.secure_filename (nfkd_ascii w) filename.

(** [str(x)] *)
Definition py_str (w : World) (v : pyval) : string :=
  match v with
  | PStr s => s
  | PNone => "None"
  | PBool true => "True"
  | PBool false => "False"
  | PInt z => NilZero.string_of_int (Z.to_int z)
  | _ => py_repr w v
  end.

(** [float(x)] *)
Definition py_float (w : World) (v : pyval) : result pyfloat :=
  match v with
  | PFloat f => Ok f
  | PInt z => Ok (FFin (inject_Z z))
  | PBool b => Ok (FFin (inject_Z (if b then 1 else 0)))
  | PStr s => of_option (float_of_str w s) ValueError
  | PNone | PList _ | PDict _ => Err TypeError
  end.

(** *** Helper functions *)

(** [hex_to_rgb]: the leading [#]s are removed, then the slices [0:2],
    [2:4] and [4:6] are read in base 16. *)
Definition hex_to_rgb (hex_color : pyval) : result rgb :=
  match hex_color with
  | PStr s =>
      let hex_color := Str.lstrip_hash s in
      (r <~ Py.int_of_str 16 (Str.slice 0 2 hex_color) ;;
       g <~ Py.int_of_str 16 (Str.slice 2 4 hex_color) ;;
       b <~ Py.int_of_str 16 (Str.slice 4 6 hex_color) ;;
       Ok (r, g, b))%py
  | _ => Err AttributeError
  end.

(** [p if cond else None] *)
Definition when (cond : bool) (p : string) : option string :=
  if cond then Some p else None.

Definition linux_fonts (bold italic : bool) : list (string * list (option string)) :=
  [ ("Arial",
     [ Some "/usr/share/fonts/truetype/liberation/LiberationSans-Regular.ttf";
       when bold "/usr/share/fonts/truetype/liberation/LiberationSans-Bold.ttf";
       when italic "/usr/share/fonts/truetype/liberation/LiberationSans-Italic.ttf" ]);
    ("Times New Roman",
     [ Some "/usr/share/fonts/truetype/liberation/LiberationSerif-Regular.ttf";
       when bold "/usr/share/fonts/truetype/liberation/LiberationSerif-Bold.ttf" ]);
    ("Courier New",
     [ Some "/usr/share/fonts/truetype/liberation/LiberationMono-Regular.ttf";
       when bold "/usr/share/fonts/truetype/liberation/LiberationMono-Bold.ttf" ]) ].

Definition windows_fonts (bold italic : bool) : list (string * list (option string)) :=
  [ ("Arial",
     [ Some "C:/Windows/Fonts/arial.ttf";
       when bold "C:/Windows/Fonts/arialbd.ttf";
       when italic "C:/Windows/Fonts/ariali.ttf" ]);
    ("Times New Roman",
     [ Some "C:/Windows/Fonts/times.ttf";
       when bold "C:/Windows/Fonts/timesbd.ttf";
       when italic "C:/Windows/Fonts/timesi.ttf" ]);
    ("Courier New",
     [ Some "C:/Windows/Fonts/cour.ttf";
       when bold "C:/Windows/Fonts/courbd.ttf" ]);
    ("Comic Sans MS", [ Some "C:/Windows/Fonts/comic.ttf" ]);
    ("Verdana", [ Some "C:/Windows/Fonts/verdana.ttf" ]);
    ("Georgia", [ Some "C:/Windows/Fonts/georgia.ttf" ]) ].

(** [fonts.get(font_family, fonts.get('Arial', []))]: the key must be
    hashable; a key that is not a string is no key of the table. *)
Definition font_paths (fonts : list (string * list (option string)))
           (font_family : pyval) : result (list (option string)) :=
  let arial := Py.dict_get fonts "Arial" [] in
  match font_family with
  | PStr name => Ok (Py.dict_get fonts name arial)
  | _ => if Py.hashable font_family then Ok arial else Err TypeError
  end.

(** The loop over the candidate paths: the first path that is set, exists
    and loads is returned; a path that fails to load is passed over. *)
Fixpoint try_paths (w : World) (paths : list (option string)) (font_size : Z)
  : option font :=
  match paths with
  | [] => None
  | None :: rest => try_paths w rest font_size
  | Some path :: rest =>
      if Str.nonempty path && fs_exists w path
      then if truetype_ok w path font_size
           then Some (TrueType path font_size)
           else try_paths w rest font_size
      else try_paths w rest font_size
  end.

(** [get_font]: the Linux candidates, then the Windows candidates, then,
    behind the [print] of line 146, which no [try] guards, the default
    font. *)
Definition get_font (w : World) (font_family : pyval) (font_size : Z)
           (bold italic : pyval) : result font :=
  let lf := linux_fonts (Py.truthy bold) (Py.truthy italic) in
  let wf := windows_fonts (Py.truthy bold) (Py.truthy italic) in
  (paths <~ font_paths lf font_family ;;
   match try_paths w paths font_size with
   | Some f => Ok f
   | None =>
       paths <~ font_paths wf font_family ;;
       match try_paths w paths font_size with
       | Some f => Ok f
       | None =>
           if print_raises w (FontFallback font_family)
           then Err UnicodeEncodeError
           else Ok DefaultFont
       end
   end)%py.

(** *** Responses *)

(** The last case is the response [send_file(path, as_attachment=True,
    download_name=...)] builds: it carries the path the handler passed, and
    the file it streams is [served_file] of that path. *)
Inductive body : Type :=
| JError (error : string)
| JErrorHelp (error help : string)
| JTraceback (e : exn)                 (* error: str(e), traceback: ... *)
| JErrorOf (e : exn)                   (* error: str(e) *)
| JExtracted (text_blocks : list TextBlock) (full_text : string)
             (image_base64 : data_url) (image_path : string)
| JEdited (success : bool) (edited_image : data_url) (filename : string)
| Attachment (path download_name : string).

Record response : Type := {
  status : Z;
  payload : body
}.

(** What a handler did to the upload folder. *)
Inductive io : Type :=
| StoredUpload (path : string)
| OpenedImage (path : string)
| SavedImage (path : string) (img : image).

Definition Handler (A : Type) : Type := M (list io) A.

Definition record (e : io) : Handler unit := emit (fun t => t ++ [e]).

(** The [except Exception as e] at the request boundary. *)
Definition at_boundary (h : Handler response) : response * list io :=
  match h [] with
  | (Ok r, t) => (r, t)
  | (Err e, t) => ({| status := 500; payload := JTraceback e |}, t)
  end.

(** [img.save(buffered, format="PNG")] *)
Definition png_writable (w : World) (img : image) : bool :=
  match mode_of img with
  | RGB | RGBA | L => true
  | OtherMode name => png_mode_ok w name
  end.

(** *** [/extract_text] *)

(** [request.files['image']]: the name the client sent and what
    [Image.open] makes of the bytes ([None]: it raises). *)
Record upload : Type := {
  up_filename : string;
  up_decoded : option raw_image
}.

Definition column (c : list pyval) (i : nat) : result pyval :=
  of_option (nth_error c i) IndexError.

Definition int_at (c : list pyval) (i : nat) : result Z :=
  (v <~ column c i ;; Py.int v)%py.

(** One turn of the loop over the rows: the block of row [i], if its text
    is kept. *)
Definition extract_row (w : World) (data : ocr_data) (i : nat)
  : result (option TextBlock) :=
  (text <~ column (col_text data) i ;;
   if Py.truthy text && Str.nonempty (Str.strip (py_str w text))
   then
     bx <~ int_at (col_left data) i ;;
     by_ <~ int_at (col_top data) i ;;
     bw <~ int_at (col_width data) i ;;
     bh <~ int_at (col_height data) i ;;
     conf <~ (v <~ column (col_conf data) i ;; py_float w v) ;;
     Ok (Some {| text := Str.strip (py_str w text);
                 x := bx;
                 y := by_;
                 width := bw;
                 height := bh;
                 confidence := conf;
                 fontSize := 20;
                 fontFamily := "Arial";
                 bold := false;
                 italic := false;
                 underline := false;
                 textColor := "#000000";
                 backgroundColor := "#FFFFFF";
                 backgroundTransparent := true |})
   else Ok None)%py.

Fixpoint extract_rows (w : World) (data : ocr_data) (rows : list nat)
  : result (list TextBlock) :=
  match rows with
  | [] => Ok []
  | i :: rest =>
      (b <~ extract_row w data i ;;
       bs <~ extract_rows w data rest ;;
       Ok (match b with Some b => b :: bs | None => bs end))%py
  end.

(** [for i in range(len(data['level'])): ...] *)
Definition extract_blocks (w : World) (data : ocr_data) : result (list TextBlock) :=
  extract_rows w data (seq 0 (List.length (col_level data))).

Definition extract_text (w : World) (files_image : option upload)
  : response * list io :=
  at_boundary
    (if negb (tesseract_available w)
     then ret {| status := 500;
                 payload := JErrorHelp "Tesseract OCR is not configured properly"
                                       "Please check /debug endpoint for details" |}
     else
       match files_image with
       | None => ret {| status := 400; payload := JError "No image uploaded" |}
       | Some file =>
           if negb (Str.nonempty (up_filename file))
           then ret {| status := 400; payload := JError "No file selected" |}
           else
             let filename := secure_filename w (up_filename file) in
             let image_path := OsPath.join UPLOAD_FOLDER filename in
             ((if upload_save_ok w image_path
               then record (StoredUpload image_path)
               else raise OSError) ;;;
              raw <- lift (of_option (up_decoded file) PillowError) ;;
              record (OpenedImage image_path) ;;;
              let image := Decoded raw in
              let image :=
                match mode_of image with
                | RGB | L => image
                | _ => Converted RGB image
                end in
              let image_enhanced := Enhanced (3 # 2) image in
              let image_gray := Converted L image_enhanced in
              data <- lift (of_option (image_to_data w image_gray) OSError) ;;
              text_blocks <- lift (extract_blocks w data) ;;
              record (OpenedImage image_path) ;;;
              (if png_writable w (Decoded raw) then ret tt else raise OSError) ;;;
              ret {| status := 200;
                     payload := JExtracted text_blocks
                                  (String.concat " " (map text text_blocks))
                                  (PngDataUrl (Decoded raw))
                                  image_path |})%py
       end).

(** *** [/update_image] *)

(** The local variables of one turn of the loop over the blocks, up to
    the loaded font. *)
Record block_vars : Type := {
  v_x : Z;
  v_y : Z;
  v_w : Z;
  v_h : Z;
  v_text : string;
  v_font_size : Z;
  v_font_family : pyval;
  v_bold : pyval;
  v_italic : pyval;
  v_underline : pyval;
  v_text_color : pyval;
  v_bg_color : pyval;
  v_bg_transparent : pyval;
  v_font : font
}.

(** [int(block[k])] *)
Definition int_item (block : pyval) (k : string) : result Z :=
  (v <~ Py.subscript block k ;; Py.int v)%py.

Definition read_block (w : World) (block : pyval) : result block_vars :=
  (bx <~ int_item block "x" ;;
   by_ <~ int_item block "y" ;;
   bw <~ int_item block "width" ;;
   bh <~ int_item block "height" ;;
   text <~ Py.subscript block "text" ;;
   font_size <~ (v <~ Py.get block "fontSize" (PInt 20) ;; Py.int v) ;;
   font_family <~ Py.get block "fontFamily" (PStr "Arial") ;;
   bold <~ Py.get block "bold" (PBool false) ;;
   italic <~ Py.get block "italic" (PBool false) ;;
   underline <~ Py.get block "underline" (PBool false) ;;
   text_color <~ Py.get block "textColor" (PStr "#000000") ;;
   bg_color <~ Py.get block "backgroundColor" (PStr "#FFFFFF") ;;
   bg_transparent <~ Py.get block "backgroundTransparent" (PBool true) ;;
   font <~ get_font w font_family font_size bold italic ;;
   Ok {| v_x := bx; v_y := by_; v_w := bw; v_h := bh;
         v_text := py_str w text;
         v_font_size := font_size;
         v_font_family := font_family;
         v_bold := bold;
         v_italic := italic;
         v_underline := underline;
         v_text_color := text_color;
         v_bg_color := bg_color;
         v_bg_transparent := bg_transparent;
         v_font := font |})%py.

(** The overlay under construction: the drawing calls accepted so far. *)
Definition Draw (A : Type) : Type := M (list draw_cmd) A.

Definition draw (w : World) (c : draw_cmd) : Draw unit :=
  fun drawn =>
    if draw_raises w c then (Err PillowError, drawn)
    else (Ok tt, drawn ++ [c]).

(** [[x-2, y-2, x+w+2, y+h+2]] *)
Definition cover_box (v : block_vars) : box :=
  (v_x v - 2, v_y v - 2, v_x v + v_w v + 2, v_y v + v_h v + 2).

(** "Draw background" *)
Definition draw_background (w : World) (v : block_vars) : Draw unit :=
  if negb (Py.truthy (v_bg_transparent v))
  then
    (bg_rgb <- lift (hex_to_rgb (v_bg_color v)) ;;
     draw w (Rectangle (cover_box v) (with_alpha bg_rgb 255)))%py
  else
    draw w (Rectangle (cover_box v) (255, 255, 255, 200)).

(** "Draw text" *)
Definition draw_text (w : World) (v : block_vars) : Draw rgb :=
  (text_rgb <- lift (hex_to_rgb (v_text_color v)) ;;
   draw w (Text (v_x v) (v_y v) (v_text v) (with_alpha text_rgb 255) (v_font v)) ;;;
   ret text_rgb)%py.

(** "Draw underline": measuring and drawing sit in a [try] whose [except]
    passes. *)
Definition draw_underline (w : World) (v : block_vars) (text_rgb : rgb) : Draw unit :=
  if Py.truthy (v_underline v)
  then
    try_except
      (text_bbox <- lift (of_option (textbbox w (v_x v) (v_y v) (v_text v) (v_font v))
                                    PillowError) ;;
       let '(_, _, bbox_right, bbox_bottom) := text_bbox in
       let underline_y := bbox_bottom + 1 in
       draw w (Line (v_x v) underline_y bbox_right underline_y
                    (with_alpha text_rgb 255) 2))%py
      (fun _ => ret tt)
  else ret tt.

(** The body of the inner [try], down to the [print] of line 392 that
    ends it.  The number of the block is left out of the message: digits
    print on every stream. *)
Definition render_block (w : World) (block : pyval) : Draw unit :=
  (v <- lift (read_block w block) ;;
   draw_background w v ;;;
   text_rgb <- draw_text w v ;;
   draw_underline w v text_rgb ;;;
   print w (BlockDone (Str.slice 0 30 (v_text v))))%py.

(** The line printed for a block: a check mark or a cross with the error. *)
Inductive outcome : Type :=
| Rendered
| Skipped (block_err : exn).

(** One turn of the loop: the body in its [try], the [except Exception]
    that prints the error and goes on.  What the [except] prints is
    [str(block_err)], the interpreter's message, in which text of the
    request is quoted with escapes: that [print] is not one of the two
    that can raise. *)
Definition try_block (w : World) (idx : nat) (block : pyval) : Draw outcome :=
  try_except (render_block w block ;;; ret Rendered)%py
             (fun block_err => ret (Skipped block_err)).

(** [for idx, block in enumerate(text_blocks): ...] *)
Definition process_blocks (w : World) (text_blocks : list pyval)
  : Draw (list outcome) :=
  for_enumerate 0%nat text_blocks (try_block w).

(** [os.path.exists(p)] *)
Definition path_exists (w : World) (p : pyval) : result bool :=
  match p with
  | PStr s => Ok (fs_exists w s)
  | PInt z => of_option (fd_exists w z) OverflowError
  | PBool b => of_option (fd_exists w (if b then 1 else 0)) OverflowError
  | _ => Err TypeError
  end.

(** The items [len] counts and [enumerate] yields. *)
Definition py_iter (v : pyval) : result (list pyval) :=
  match v with
  | PList l => Ok l
  | PStr s => Ok (map (fun c => PStr (String c EmptyString)) (Str.chars s))
  | PDict d => Ok (map (fun kv => PStr (fst kv)) d)
  | _ => Err TypeError
  end.

Definition output_name (w : World) (image_path : string) : string :=
  "edited_" ++ secure_filename w (OsPath.basename image_path).

Definition update_image (w : World) (request_json : pyval) : response * list io :=
  at_boundary
    (image_path <- lift (Py.get request_json "image_path" PNone) ;;
     text_blocks <- lift (Py.get request_json "text_blocks" PNone) ;;
     if negb (Py.truthy image_path) || negb (Py.truthy text_blocks)
     then ret {| status := 400; payload := JError "Missing required data" |}
     else
       found <- lift (path_exists w image_path) ;;
       if negb found
       then ret {| status := 404; payload := JError "Original image not found" |}
       else
         path <- lift (match image_path with
                       | PStr s => Ok s
                       | _ => Err AttributeError
                       end) ;;
         raw <- lift (of_option (open_image w path) PillowError) ;;
         record (OpenedImage path) ;;;
         let image := Decoded raw in
         let image :=
           if mode_eqb (mode_of image) RGBA then image
           else Converted RGBA image in
         blocks <- lift (py_iter text_blocks) ;;
         match process_blocks w blocks [] with
         | (Err e, _) => raise e
         | (Ok _, drawn) =>
             let overlay := Canvas RGBA (size_of image) (255, 255, 255, 0) drawn in
             image <- lift (alpha_composite image overlay) ;;
             let image := Converted RGB image in
             let output_filename := output_name w path in
             let output_path := OsPath.join UPLOAD_FOLDER output_filename in
             match save_error w output_path image with
             | None => record (SavedImage output_path image)
             | Some e => raise e
             end ;;;
             (if png_writable w image then ret tt else raise OSError) ;;;
             ret {| status := 200;
                    payload := JEdited true (PngDataUrl image) output_filename |}
         end)%py.

(** *** [/download/<path:filename>] *)

(** [os.path.exists] probes the path under the working directory;
    [send_file] is passed the same path and serves [served_file] of it. *)
Definition download_file (w : World) (filename : string) : response :=
  let filename := secure_filename w filename in
  let file_path := OsPath.join UPLOAD_FOLDER filename in
  if fs_exists w file_path
  then
    if send_file_ok w (served_file w file_path)
    then {| status := 200; payload := Attachment file_path filename |}
    else {| status := 500; payload := JErrorOf OSError |}
  else {| status := 404; payload := JError "File not found" |}.

(* ================================================================== *)
(** ** Vocabulary of the statements *)

(** The JSON body of an edit request. *)
Definition edit_request (image_path : string) (text_blocks : list pyval) : pyval :=
  PDict [("image_path", PStr image_path); ("text_blocks", PList text_blocks)].

(** The line the loop prints for a block whose body ended with [r]. *)
Definition outcome_of {A} (r : result A) : outcome :=
  match r with
  | Ok _ => Rendered
  | Err e => Skipped e
  end.

(** The fill of the covering rectangle of a block. *)
Definition cover_fill (v : block_vars) : result rgba :=
  if Py.truthy (v_bg_transparent v)
  then Ok (255, 255, 255, 200)
  else (c <~ hex_to_rgb (v_bg_color v) ;; Ok (with_alpha c 255))%py.

(** The base image as the handler composes on it. *)
Definition rgba_base (raw : raw_image) : image :=
  if mode_eqb (raw_mode raw) RGBA then Decoded raw
  else Converted RGBA (Decoded raw).

(** The overlay, composited on the base, flattened. *)
Definition composed (raw : raw_image) (drawn : list draw_cmd) : image :=
  Converted RGB
    (Composite (rgba_base raw)
               (Canvas RGBA (raw_size raw) (255, 255, 255, 0) drawn)).

(** The paths of a candidate list that are set. *)
Fixpoint set_paths (paths : list (option string)) : list string :=
  match paths with
  | [] => []
  | Some p :: rest => p :: set_paths rest
  | None :: rest => set_paths rest
  end.

(** A path that exists and that [truetype] loads at a size. *)
Definition loadable (w : World) (font_size : Z) (path : string) : bool :=
  Str.nonempty path && fs_exists w path && truetype_ok w path font_size.

(** The candidates of a family in a table, Arial's for an unknown one. *)
Definition candidates (fonts : list (string * list (option string)))
           (family : string) : list (option string) :=
  match Py.assoc fonts family with
  | Some paths => paths
  | None => Py.dict_get fonts "Arial" []
  end.

(** What the handler does once the path is known to exist: everything
    after the two validations. *)
Definition edit_existing (w : World) (path : string) (text_blocks : pyval)
  : response * list io :=
  match open_image w path with
  | None => ({| status := 500; payload := JTraceback PillowError |}, [])
  | Some raw =>
      match py_iter text_blocks with
      | Err e => ({| status := 500; payload := JTraceback e |}, [OpenedImage path])
      | Ok blocks =>
          let img := composed raw (snd (process_blocks w blocks [])) in
          let out := OsPath.join UPLOAD_FOLDER (output_name w path) in
          match save_error w out img with
          | None =>
              ({| status := 200;
                  payload := JEdited true (PngDataUrl img) (output_name w path) |},
               [OpenedImage path; SavedImage out img])
          | Some e =>
              ({| status := 500; payload := JTraceback e |}, [OpenedImage path])
          end
      end
  end.

(** How the body of a block ends once its calls are drawn: with the
    [print] of its line. *)
Definition block_printed (w : World) (v : block_vars) : result unit :=
  if print_raises w (BlockDone (Str.slice 0 30 (v_text v)))
  then Err UnicodeEncodeError
  else Ok tt.

(** What the underline step adds to the overlay. *)
Definition underline_cmds (w : World) (v : block_vars) (text_rgb : rgb)
  : list draw_cmd :=
  if Py.truthy (v_underline v)
  then match textbbox w (v_x v) (v_y v) (v_text v) (v_font v) with
       | Some (_, _, bbox_right, bbox_bottom) =>
           let line := Line (v_x v) (bbox_bottom + 1) bbox_right (bbox_bottom + 1)
                            (with_alpha text_rgb 255) 2 in
           if draw_raises w line then [] else [line]
       | None => []
       end
  else [].

(** The characters [strip_by] keeps, as a list. *)
Definition stripped (p : ascii -> bool) (l : list ascii) : list ascii :=
  rev (Str.drop_while p (rev (Str.drop_while p l))).

(** *** Sample worlds and requests *)

Definition sample_raw : raw_image :=
  {| raw_mode := RGB; raw_size := (100, 50); raw_data := [] |}.

(** A container with the Liberation fonts installed and one uploaded
    picture; text is measured from the anchor, 10 wide and 12 high. *)
Definition container : World := {|
  fs_exists := fun p =>
    String.eqb p "uploads/photo.png"
    || String.eqb p "/usr/share/fonts/truetype/liberation/LiberationSans-Regular.ttf";
  fd_exists := fun _ => Some false;
  truetype_ok := fun _ size => 0 <? size;
  draw_raises := fun _ => false;
  textbbox := fun bx by_ _ _ => Some (bx, by_, bx + 10, by_ + 12);
  open_image := fun p =>
    if String.eqb p "uploads/photo.png" then Some sample_raw else None;
  save_error := fun _ _ => None;
  upload_save_ok := fun _ => true;
  cwd := "/app";
  app_root := "/app";
  send_file_ok := fun _ => true;
  print_raises := fun _ => false;
  py_repr := fun _ => "";
  float_of_str := fun _ => None;
  nfkd_ascii := fun s => s;
  tesseract_available := true;
  image_to_data := fun _ => None;
  png_mode_ok := fun _ => false
|}.

Definition plain_block : pyval :=
  PDict [("x", PInt 10); ("y", PInt 20); ("width", PInt 30); ("height", PInt 8);
         ("text", PStr "Hi"); ("underline", PBool true)].

(** A block whose [x] is not a number. *)
Definition malformed_block : pyval :=
  PDict [("x", PStr "abc"); ("y", PInt 20); ("width", PInt 30); ("height", PInt 8);
         ("text", PStr "Hi")].

(** A block whose background colour parses and whose text colour does not. *)
Definition half_block : pyval :=
  PDict [("x", PInt 1); ("y", PInt 2); ("width", PInt 3); ("height", PInt 4);
         ("text", PStr "Hi"); ("backgroundTransparent", PBool false);
         ("backgroundColor", PStr "#00FF00"); ("textColor", PStr "red")].

Definition plain_block_vars : block_vars :=
  {| v_x := 10; v_y := 20; v_w := 30; v_h := 8;
     v_text := "Hi";
     v_font_size := 20;
     v_font_family := PStr "Arial";
     v_bold := PBool false;
     v_italic := PBool false;
     v_underline := PBool true;
     v_text_color := PStr "#000000";
     v_bg_color := PStr "#FFFFFF";
     v_bg_transparent := PBool true;
     v_font := TrueType "/usr/share/fonts/truetype/liberation/LiberationSans-Regular.ttf" 20 |}.

(** The container, with a font whose first glyph reaches 3 pixels to the
    left of the anchor: the measured box starts left of [x]. *)
Definition negative_bearing : World := {|
  fs_exists := fs_exists container;
  fd_exists := fd_exists container;
  truetype_ok := truetype_ok container;
  draw_raises := draw_raises container;
  textbbox := fun bx by_ _ _ => Some (bx - 3, by_, bx + 10, by_ + 12);
  open_image := open_image container;
  save_error := save_error container;
  upload_save_ok := upload_save_ok container;
  cwd := cwd container;
  app_root := app_root container;
  send_file_ok := send_file_ok container;
  print_raises := print_raises container;
  py_repr := py_repr container;
  float_of_str := float_of_str container;
  nfkd_ascii := nfkd_ascii container;
  tesseract_available := tesseract_available container;
  image_to_data := image_to_data container;
  png_mode_ok := png_mode_ok container
|}.

Definition half_block_vars : block_vars :=
  {| v_x := 1; v_y := 2; v_w := 3; v_h := 4;
     v_text := "Hi";
     v_font_size := 20;
     v_font_family := PStr "Arial";
     v_bold := PBool false;
     v_italic := PBool false;
     v_underline := PBool false;
     v_text_color := PStr "red";
     v_bg_color := PStr "#00FF00";
     v_bg_transparent := PBool false;
     v_font := TrueType "/usr/share/fonts/truetype/liberation/LiberationSans-Regular.ttf" 20 |}.

(** An engine that finds one word. *)
Definition word_table : ocr_data :=
  {| col_level := [PInt 5];
     col_left := [PInt 12];
     col_top := [PInt 7];
     col_width := [PInt 48];
     col_height := [PInt 9];
     col_conf := [PInt 91];
     col_text := [PStr "Hello"] |}.

Definition word_engine : World := {|
  fs_exists := fs_exists container;
  fd_exists := fd_exists container;
  truetype_ok := truetype_ok container;
  draw_raises := draw_raises container;
  textbbox := textbbox container;
  open_image := open_image container;
  save_error := save_error container;
  upload_save_ok := upload_save_ok container;
  cwd := cwd container;
  app_root := app_root container;
  send_file_ok := send_file_ok container;
  print_raises := print_raises container;
  py_repr := py_repr container;
  float_of_str := float_of_str container;
  nfkd_ascii := nfkd_ascii container;
  tesseract_available := true;
  image_to_data := fun _ => Some word_table;
  png_mode_ok := png_mode_ok container
|}.

Definition sample_upload : upload :=
  {| up_filename := "scan.png"; up_decoded := Some sample_raw |}.



(** The claim about the underline as the specification words it: a line
    of width 2 at [bottom + 1] that is at least as long as the measured box
    is wide. *)
Definition underline_spans_measured_width (w : World) (block : pyval) : Prop :=
  forall v bl bt br bb,
    read_block w block = Ok v ->
    Py.truthy (v_underline v) = true ->
    textbbox w (v_x v) (v_y v) (v_text v) (v_font v) = Some (bl, bt, br, bb) ->
    exists x0 x1 fill,
      In (Line x0 (bb + 1) x1 (bb + 1) fill 2) (snd (render_block w block []))
      /\ br - bl <= x1 - x0.


(* ================================================================== *)
(** ** The rest of [server.py] *)

(** *** [setup_tesseract] *)






(** *** The main block *)

(** The arguments of [app.run]. *)
Record run_args : Type := {
  run_debug : bool;
  run_host : string;
  run_port : Z
}.

(** [os.environ.get(k)] as a value: [None] or the string. *)
Definition environ_get (environ : list (string * string)) (k : string) : pyval :=
  match Py.assoc environ k with
  | Some s => PStr s
  | None => PNone
  end.

(** The main block, from the environment to the call of [app.run]. *)
Definition main (environ : list (string * string)) : result run_args :=
  (port <~ Py.int (match Py.assoc environ "PORT" with
                   | Some s => PStr s
                   | None => PInt 5000
                   end) ;;
   let is_production :=
     Py.truthy (environ_get environ "RENDER")
     || Py.truthy (environ_get environ "PORT") in
   Ok {| run_debug := negb is_production;
         run_host := if is_production then "0.0.0.0" else "127.0.0.1";
         run_port := port |})%py.

(** *** The blocks on the wire *)

(** A block as [jsonify] writes it into the response and as a client that
    edits nothing sends it back. *)
Definition block_json (b : TextBlock) : pyval :=
  PDict [ ("text", PStr (text b));
          ("x", PInt (x b));
          ("y", PInt (y b));
          ("width", PInt (width b));
          ("height", PInt (height b));
          ("confidence", PFloat (confidence b));
          ("fontSize", PInt (fontSize b));
          ("fontFamily", PStr (fontFamily b));
          ("bold", PBool (bold b));
          ("italic", PBool (italic b));
          ("underline", PBool (underline b));
          ("textColor", PStr (textColor b));
          ("backgroundColor", PStr (backgroundColor b));
          ("backgroundTransparent", PBool (backgroundTransparent b)) ].

(** *** Vocabulary *)

(** A hexadecimal digit and its value. *)
Definition hexdigit (c : ascii) : option Z :=
  match Py.digit_value c with
  | Some d => if d <? 16 then Some d else None
  | None => None
  end.

(** The 256 characters. *)
Definition all_ascii : list ascii := map ascii_of_nat (seq 0 256).

(** The 22 hexadecimal digits. *)
Definition hex_chars : list ascii := Str.chars "0123456789abcdefABCDEF".

(** Two hexadecimal digits are read as the number they write. *)
Definition reads_hex_pair (c1 c2 : ascii) : bool :=
  match hexdigit c1, hexdigit c2 with
  | Some d1, Some d2 =>
      match Py.int_of_str 16 (String c1 (String c2 EmptyString)) with
      | Ok z => z =? 16 * d1 + d2
      | Err _ => false
      end
  | _, _ => true
  end.

(** The characters [secure_filename] lets through. *)
Definition safe_name (s : string) : Prop :=
  forall c, In c (Str.chars s) -> Werkzeug.keep c = true.

(** The normalisation leaves a name of safe characters as it is, as NFKD
    does with every ASCII string. *)
Definition fixes_safe_names (w : World) : Prop :=
  forall s, safe_name s -> nfkd_ascii w s = s.

(** The row of the engine's table is kept by the extraction. *)
Definition kept (w : World) (cell : pyval) : bool :=
  Py.truthy cell && Str.nonempty (Str.strip (py_str w cell)).

(** What a block draws on an empty overlay, and how its body ends. *)
Definition block_cmds (w : World) (block : pyval) : list draw_cmd :=
  snd (render_block w block []).

Definition block_outcome (w : World) (block : pyval) : outcome :=
  outcome_of (fst (render_block w block [])).

(** The events of a trace that write a file. *)
Definition writes (t : list io) : list string :=
  flat_map (fun e => match e with
                     | StoredUpload p => [p]
                     | SavedImage p _ => [p]
                     | OpenedImage _ => []
                     end) t.

(** An engine whose table lost the text cell of its last row. *)
Definition ragged_table : ocr_data :=
  {| col_level := [PInt 5; PInt 5];
     col_left := [PInt 12; PInt 40];
     col_top := [PInt 7; PInt 7];
     col_width := [PInt 20; PInt 25];
     col_height := [PInt 9; PInt 9];
     col_conf := [PInt 91; PInt 88];
     col_text := [PStr "Hello"] |}.

Definition ragged_engine : World := {|
  fs_exists := fs_exists container;
  fd_exists := fd_exists container;
  truetype_ok := truetype_ok container;
  draw_raises := draw_raises container;
  textbbox := textbbox container;
  open_image := open_image container;
  save_error := save_error container;
  upload_save_ok := upload_save_ok container;
  cwd := cwd container;
  app_root := app_root container;
  send_file_ok := send_file_ok container;
  print_raises := print_raises container;
  py_repr := py_repr container;
  float_of_str := float_of_str container;
  nfkd_ascii := nfkd_ascii container;
  tesseract_available := true;
  image_to_data := fun _ => Some ragged_table;
  png_mode_ok := png_mode_ok container
|}.

(** The block the extraction makes of the one row of [word_table]. *)
Definition hello_block : TextBlock :=
  {| text := "Hello"; x := 12; y := 7; width := 48; height := 9;
     confidence := FFin (inject_Z 91);
     fontSize := 20; fontFamily := "Arial";
     bold := false; italic := false; underline := false;
     textColor := "#000000"; backgroundColor := "#FFFFFF";
     backgroundTransparent := true |}.

(** The items of [half_block]. *)
Definition half_items : list (string * pyval) :=
  [("x", PInt 1); ("y", PInt 2); ("width", PInt 3); ("height", PInt 4);
   ("text", PStr "Hi"); ("backgroundTransparent", PBool false);
   ("backgroundColor", PStr "#00FF00"); ("textColor", PStr "red")].

(** A block whose font family is a list. *)
Definition listed_family_block : pyval :=
  PDict [("x", PInt 1); ("y", PInt 2); ("width", PInt 3); ("height", PInt 4);
         ("text", PStr "Hi"); ("fontFamily", PList [PStr "Arial"])].

(** What [app.run] is called with on a host that sets [PORT] to 10000. *)
Definition hosted_args : run_args :=
  {| run_debug := false; run_host := "0.0.0.0"; run_port := 10000 |}.

(** The string JSON delivers for ["\ud800"], a lone surrogate.  The
    character has no place in an 8-bit string; the six characters of its
    escape stand for it. *)
Definition lone_surrogate : string := "\ud800".

(** A host on which no font file loads and whose standard output, a
    UTF-8 stream, has no encoding for the lone surrogate. *)
Definition fontless_host : World := {|
  fs_exists := fun p => String.eqb p "uploads/photo.png";
  fd_exists := fd_exists container;
  truetype_ok := fun _ _ => false;
  draw_raises := draw_raises container;
  textbbox := textbbox container;
  open_image := open_image container;
  save_error := save_error container;
  upload_save_ok := upload_save_ok container;
  cwd := cwd container;
  app_root := app_root container;
  send_file_ok := send_file_ok container;
  print_raises := fun m =>
    match m with
    | FontFallback (PStr family) => String.eqb family lone_surrogate
    | FontFallback _ => false
    | BlockDone text => String.eqb text lone_surrogate
    end;
  py_repr := py_repr container;
  float_of_str := float_of_str container;
  nfkd_ascii := nfkd_ascii container;
  tesseract_available := tesseract_available container;
  image_to_data := image_to_data container;
  png_mode_ok := png_mode_ok container
|}.

(** A block whose text is the lone surrogate. *)
Definition surrogate_block : pyval :=
  PDict [("x", PInt 10); ("y", PInt 20); ("width", PInt 30); ("height", PInt 8);
         ("text", PStr lone_surrogate)].

(* ################################################################## *)
(** * Properties *)

(* ================================================================== *)
(** ** Strings *)

Section Stripping.

Variable p : ascii -> bool.

Lemma chars_of_chars (l : list ascii) : Str.chars (Str.of_chars l) = l.
Proof. apply list_ascii_of_string_of_list_ascii. Qed.

Lemma of_chars_chars (s : string) : Str.of_chars (Str.chars s) = s.
Proof. apply string_of_list_ascii_of_string. Qed.

Lemma drop_while_suffix (l : list ascii) :
  exists dropped, l = dropped ++ Str.drop_while p l.
Proof.
  induction l as [| c r [dropped IH]]; cbn.
  - now exists [].
  - destruct (p c).
    + exists (c :: dropped). cbn. now rewrite <- IH.
    + now exists [].
Qed.

Lemma drop_while_head (l : list ascii) (c : ascii) (r : list ascii) :
  Str.drop_while p l = c :: r -> p c = false.
Proof.
  induction l as [| a l IH]; cbn; [discriminate |].
  destruct (p a) eqn:E; [exact IH |].
  intros H. injection H as <- _. exact E.
Qed.

Lemma drop_while_fixed (l : list ascii) :
  match l with [] => True | c :: _ => p c = false end ->
  Str.drop_while p l = l.
Proof.
  destruct l as [| c r]; cbn; [reflexivity |]. now intros ->.
Qed.

Lemma strip_by_chars (s : string) :
  Str.chars (Str.strip_by p s) = stripped p (Str.chars s).
Proof. unfold Str.strip_by. apply chars_of_chars. Qed.

Lemma stripped_incl (l : list ascii) (c : ascii) :
  In c (stripped p l) -> In c l.
Proof.
  unfold stripped. intros H. apply in_rev in H.
  destruct (drop_while_suffix (rev (Str.drop_while p l))) as [d1 H1].
  assert (In c (rev (Str.drop_while p l))) as H2
      by (rewrite H1; apply in_or_app; now right).
  apply in_rev in H2.
  destruct (drop_while_suffix l) as [d2 H3].
  rewrite H3. apply in_or_app. now right.
Qed.

Lemma stripped_head (l : list ascii) (c : ascii) (r : list ascii) :
  stripped p l = c :: r -> p c = false.
Proof.
  unfold stripped. intros H.
  destruct (drop_while_suffix (rev (Str.drop_while p l))) as [d H1].
  apply (f_equal (@rev ascii)) in H1.
  rewrite rev_involutive, rev_app_distr, H in H1. cbn in H1.
  now apply (drop_while_head l c (r ++ rev d)).
Qed.

Lemma stripped_last (l : list ascii) (c : ascii) (r : list ascii) :
  rev (stripped p l) = c :: r -> p c = false.
Proof.
  unfold stripped. rewrite rev_involutive. apply drop_while_head.
Qed.



End Stripping.

Lemma nonempty_true (s : string) : Str.nonempty s = true <-> s <> "".
Proof. destruct s; cbn; split; congruence. Qed.

(* ================================================================== *)
(** ** Sanitised file names *)

Lemma secure_filename_chars (w : World) (filename : string) (c : ascii) :
  In c (Str.chars (secure_filename w filename)) -> Werkzeug.keep c = true.
Proof.
  unfold secure_filename, Werkzeug.secure_filename.
  rewrite strip_by_chars, chars_of_chars. intros H.
  apply stripped_incl in H. apply filter_In in H. apply H.
Qed.

Lemma secure_filename_head (w : World) (filename : string) (c : ascii) (rest : string) :
  secure_filename w filename = String c rest ->
  Werkzeug.keep c = true /\ Werkzeug.dot_or_underscore c = false.
Proof.
  intros H. split.
  - apply (secure_filename_chars w filename). rewrite H. now left.
  - unfold secure_filename, Werkzeug.secure_filename in H.
    apply (f_equal Str.chars) in H. rewrite strip_by_chars in H.
    now apply stripped_head in H.
Qed.

Lemma secure_filename_no_leading (w : World) (filename : string) (a : ascii) :
  Werkzeug.keep a = false \/ Werkzeug.dot_or_underscore a = true ->
  Str.starts_with_char a (secure_filename w filename) = false.
Proof.
  intros Ha.
  destruct (secure_filename w filename) as [| c rest] eqn:E; [reflexivity |].
  destruct (secure_filename_head w filename c rest E) as [Hk Hd].
  cbn. destruct (Ascii.eqb c a) eqn:Heq; [| reflexivity].
  apply Ascii.eqb_eq in Heq. subst c. destruct Ha; congruence.
Qed.

Lemma join_upload_folder (name : string) :
  Str.starts_with_char "/" name = false ->
  OsPath.join UPLOAD_FOLDER name = ("uploads/" ++ name)%string.
Proof.
  intros H. unfold OsPath.join. rewrite H. reflexivity.
Qed.

Lemma output_path_in_upload_folder (w : World) (image_path : string) :
  OsPath.join UPLOAD_FOLDER (output_name w image_path)
  = ("uploads/edited_" ++ secure_filename w (OsPath.basename image_path))%string.
Proof. reflexivity. Qed.

(** C10: the download handler serves from the upload folder only.  For
    every requested name, the path probed and handed to [send_file] is
    [uploads/] followed by the sanitised name; the sanitised name has
    letters, digits, [_], [.] and [-] only, hence no separator, does not
    start with a dot and is neither [.] nor [..]; when nothing exists at
    that path the answer is 404, and a 200 answer has handed exactly that
    path to [send_file]. *)
Theorem download_file_stays_in_upload_folder :
  forall (w : World) (filename : string),
    let name := secure_filename w filename in
    let file_path := ("uploads/" ++ name)%string in
    OsPath.join UPLOAD_FOLDER name = file_path
    /\ (forall c, In c (Str.chars name) -> Werkzeug.keep c = true)
    /\ ~ In "/"%char (Str.chars name)
    /\ Str.starts_with_char "." name = false
    /\ name <> ".."
    /\ name <> "."
    /\ (fs_exists w file_path = false ->
        download_file w filename
        = {| status := 404; payload := JError "File not found" |})
    /\ (forall path download_name,
           download_file w filename
           = {| status := 200; payload := Attachment path download_name |} ->
           path = file_path /\ download_name = name
           /\ fs_exists w file_path = true).
Proof.
  intros w filename name file_path.
  assert (OsPath.join UPLOAD_FOLDER name = file_path) as Hjoin.
  { apply join_upload_folder. apply secure_filename_no_leading. now left. }
  assert (Str.starts_with_char "." name = false) as Hdot
      by (apply secure_filename_no_leading; now right).
  split; [exact Hjoin |].
  split; [apply secure_filename_chars |].
  split.
  { intros Hin. apply secure_filename_chars in Hin. discriminate Hin. }
  split; [exact Hdot |].
  split; [intros E; rewrite E in Hdot; discriminate Hdot |].
  split; [intros E; rewrite E in Hdot; discriminate Hdot |].
  unfold download_file. fold name. rewrite Hjoin.
  split.
  - intros ->. reflexivity.
  - intros path download_name.
    destruct (fs_exists w file_path); [| discriminate].
    destruct (send_file_ok w _); [| discriminate].
    intros H. injection H as <- <-. now repeat split.
Qed.

(* ================================================================== *)
(** ** Font resolution *)

Lemma try_paths_find (w : World) (font_size : Z) (paths : list (option string)) :
  try_paths w paths font_size
  = option_map (fun p => TrueType p font_size)
               (find (loadable w font_size) (set_paths paths)).
Proof.
  induction paths as [| [p |] rest IH]; cbn [try_paths set_paths find].
  - reflexivity.
  - unfold loadable at 1.
    destruct (Str.nonempty p && fs_exists w p); cbn [andb].
    + destruct (truetype_ok w p font_size); [reflexivity | exact IH].
    + exact IH.
  - exact IH.
Qed.

Lemma find_append {A} (p : A -> bool) (l1 l2 : list A) :
  find p (l1 ++ l2)
  = match find p l1 with
    | Some a => Some a
    | None => find p l2
    end.
Proof.
  induction l1 as [| a l1 IH]; cbn; [reflexivity |].
  now destruct (p a).
Qed.

Lemma font_paths_of_name (fonts : list (string * list (option string)))
      (family : string) :
  font_paths fonts (PStr family) = Ok (candidates fonts family).
Proof. reflexivity. Qed.

(** [get_font] on a family string, in every world.  The font is the
    first candidate that exists and loads, in the order: the candidates of
    the family in the Linux table, then those in the Windows table; a
    candidate that is absent or does not load is passed over; a family
    that a table does not list has Arial's candidates of that table.  When
    no candidate is left the function prints the family and then returns
    the default font: it returns exactly when that [print] does. *)
Lemma get_font_resolution :
  forall (w : World) (family : string) (font_size : Z) (bold italic : pyval),
    let lf := linux_fonts (Py.truthy bold) (Py.truthy italic) in
    let wf := windows_fonts (Py.truthy bold) (Py.truthy italic) in
    let tried := set_paths (candidates lf family) ++ set_paths (candidates wf family) in
    get_font w (PStr family) font_size bold italic
    = match find (loadable w font_size) tried with
      | Some path => Ok (TrueType path font_size)
      | None =>
          if print_raises w (FontFallback (PStr family))
          then Err UnicodeEncodeError
          else Ok DefaultFont
      end
    /\ (forall path,
           find (loadable w font_size) tried = Some path ->
           In path tried
           /\ fs_exists w path = true
           /\ truetype_ok w path font_size = true)
    /\ (Py.assoc lf family = None -> candidates lf family = candidates lf "Arial")
    /\ (Py.assoc wf family = None -> candidates wf family = candidates wf "Arial").
Proof.
  intros w family font_size bold italic lf wf tried.
  split; [| split; [| split]].
  - unfold get_font. fold lf wf.
    rewrite !font_paths_of_name. cbn [rbind].
    rewrite !try_paths_find. unfold tried. rewrite find_append.
    destruct (find (loadable w font_size) (set_paths (candidates lf family)));
      cbn [option_map]; [reflexivity |].
    destruct (find (loadable w font_size) (set_paths (candidates wf family)));
      reflexivity.
  - intros path Hfind. apply find_some in Hfind. destruct Hfind as [Hin Hload].
    unfold loadable in Hload.
    apply andb_true_iff in Hload. destruct Hload as [Hload Htt].
    apply andb_true_iff in Hload. destruct Hload as [_ Hex].
    now repeat split.
  - intros Hnone. unfold candidates. rewrite Hnone. reflexivity.
  - intros Hnone. unfold candidates. rewrite Hnone. reflexivity.
Qed.

(** C2 fails on the code: [get_font] raises.  On a host where no
    candidate of either table loads, asked for the family that JSON
    delivers for ["\ud800"], the function reaches the [print] of line 146;
    standard output cannot encode the family, [print] raises
    [UnicodeEncodeError], and no [try] of [get_font] is around it.  On the
    same host every family that can be printed gets the default font. *)
Theorem get_font_raises_at_the_fallback :
  get_font fontless_host (PStr lone_surrogate) 20 (PBool false) (PBool false)
  = Err UnicodeEncodeError
  /\ (forall family,
        family <> lone_surrogate ->
        get_font fontless_host (PStr family) 20 (PBool false) (PBool false)
        = Ok DefaultFont).
Proof.
  split; [reflexivity |].
  intros family Hfamily.
  assert (forall paths, try_paths fontless_host paths 20 = None) as Hnone.
  { induction paths as [| [p |] rest IH]; cbn [try_paths]; [reflexivity | | exact IH].
    destruct (Str.nonempty p && fs_exists fontless_host p); exact IH. }
  unfold get_font. rewrite !font_paths_of_name. cbn [rbind].
  rewrite !Hnone. cbn [print_raises fontless_host].
  destruct (String.eqb family lone_surrogate) eqn:E; [| reflexivity].
  apply String.eqb_eq in E. contradiction.
Qed.

(* ================================================================== *)
(** ** Extraction *)

Lemma extract_row_block (w : World) (data : ocr_data) (i : nat) (b : TextBlock) :
  extract_row w data i = Ok (Some b) ->
  exists cell,
    column (col_text data) i = Ok cell
    /\ text b = Str.strip (py_str w cell)
    /\ Str.nonempty (text b) = true
    /\ int_at (col_left data) i = Ok (x b)
    /\ int_at (col_top data) i = Ok (y b)
    /\ int_at (col_width data) i = Ok (width b)
    /\ int_at (col_height data) i = Ok (height b).
Proof.
  unfold extract_row, rbind at 1. intros H.
  destruct (column (col_text data) i) as [cell | e]; [| discriminate H].
  destruct (Py.truthy cell && Str.nonempty (Str.strip (py_str w cell))) eqn:Hkeep;
    [| discriminate H].
  apply andb_true_iff in Hkeep. destruct Hkeep as [_ Hne].
  unfold rbind at 1 2 3 4 5 in H.
  destruct (int_at (col_left data) i); [| discriminate H].
  destruct (int_at (col_top data) i); [| discriminate H].
  destruct (int_at (col_width data) i); [| discriminate H].
  destruct (int_at (col_height data) i); [| discriminate H].
  destruct (rbind (column (col_conf data) i) _); [| discriminate H].
  injection H as <-. exists cell. cbn. now repeat split.
Qed.

Lemma extract_rows_block (w : World) (data : ocr_data) (rows : list nat) :
  forall blocks b,
    extract_rows w data rows = Ok blocks ->
    In b blocks ->
    exists i, In i rows /\ extract_row w data i = Ok (Some b).
Proof.
  induction rows as [| i rest IH]; intros blocks b H Hin; cbn in H.
  - injection H as <-. destruct Hin.
  - unfold rbind in H.
    destruct (extract_row w data i) as [ob | e] eqn:Hrow; [| discriminate H].
    destruct (extract_rows w data rest) as [bs | e]; [| discriminate H].
    injection H as <-.
    destruct ob as [b' |].
    + destruct Hin as [<- | Hin].
      * exists i. split; [now left | exact Hrow].
      * destruct (IH bs b eq_refl Hin) as (j & Hj & Hrowj).
        exists j. split; [now right | exact Hrowj].
    + destruct (IH bs b eq_refl Hin) as (j & Hj & Hrowj).
      exists j. split; [now right | exact Hrowj].
Qed.

(** A 200 answer of the extraction carries the blocks of the table the
    engine returned. *)
Lemma extract_text_blocks (w : World) (files_image : option upload)
      (blocks : list TextBlock) (full_text : string) (img : data_url)
      (path : string) (t : list io) :
  extract_text w files_image
  = ({| status := 200; payload := JExtracted blocks full_text img path |}, t) ->
  exists gray data,
    image_to_data w gray = Some data
    /\ extract_blocks w data = Ok blocks.
Proof.
  unfold extract_text, at_boundary. intros H.
  destruct (tesseract_available w); cbn [negb] in H; [| discriminate H].
  destruct files_image as [file |]; [| discriminate H].
  destruct (Str.nonempty (up_filename file)); cbn [negb] in H; [| discriminate H].
  unfold bind, lift, ret, raise, record, emit in H.
  destruct (upload_save_ok w _); [| discriminate H].
  destruct (up_decoded file) as [raw |]; cbn [of_option] in H; [| discriminate H].
  match type of H with
  | context [image_to_data w ?g] =>
      destruct (image_to_data w g) as [data |] eqn:Hdata; cbn [of_option] in H;
        [exists g, data | discriminate H]
  end.
  destruct (extract_blocks w data) as [bs | e]; [| discriminate H].
  destruct (png_writable w (Decoded raw)); [| discriminate H].
  injection H as <- _ _ _ _. now split.
Qed.





(* ================================================================== *)
(** ** One block *)

Section OneBlock.

Variable w : World.

Lemma draw_background_run (v : block_vars) (drawn : list draw_cmd) :
  draw_background w v drawn =
  match cover_fill v with
  | Err e => (Err e, drawn)
  | Ok fill =>
      if draw_raises w (Rectangle (cover_box v) fill)
      then (Err PillowError, drawn)
      else (Ok tt, drawn ++ [Rectangle (cover_box v) fill])
  end.
Proof.
  unfold draw_background, cover_fill.
  destruct (Py.truthy (v_bg_transparent v)); cbn [negb].
  - reflexivity.
  - unfold bind, lift, rbind.
    destruct (hex_to_rgb (v_bg_color v)); reflexivity.
Qed.

Lemma draw_underline_run (v : block_vars) (c : rgb) (drawn : list draw_cmd) :
  draw_underline w v c drawn = (Ok tt, drawn ++ underline_cmds w v c).
Proof.
  unfold draw_underline, underline_cmds.
  destruct (Py.truthy (v_underline v)).
  - unfold try_except, bind, lift, ret, draw.
    destruct (textbbox w (v_x v) (v_y v) (v_text v) (v_font v))
      as [[[[bl bt] br] bb] |]; cbn [of_option].
    + destruct (draw_raises w _);
        [now rewrite app_nil_r | reflexivity].
    + now rewrite app_nil_r.
  - unfold ret. now rewrite app_nil_r.
Qed.

(** The body of the inner [try], stage by stage. *)
Lemma render_block_run (block : pyval) (v : block_vars) (drawn : list draw_cmd) :
  read_block w block = Ok v ->
  render_block w block drawn =
  match cover_fill v with
  | Err e => (Err e, drawn)
  | Ok fill =>
      let cover := Rectangle (cover_box v) fill in
      if draw_raises w cover then (Err PillowError, drawn)
      else
        match hex_to_rgb (v_text_color v) with
        | Err e => (Err e, drawn ++ [cover])
        | Ok c =>
            let glyphs := Text (v_x v) (v_y v) (v_text v)
                               (with_alpha c 255) (v_font v) in
            if draw_raises w glyphs then (Err PillowError, drawn ++ [cover])
            else (block_printed w v,
                  drawn ++ cover :: glyphs :: underline_cmds w v c)
        end
  end.
Proof.
  intros Hread. unfold render_block.
  unfold bind at 1. unfold lift at 1. rewrite Hread.
  unfold bind at 1. rewrite draw_background_run.
  destruct (cover_fill v) as [fill | e]; [| reflexivity].
  cbn zeta. destruct (draw_raises w (Rectangle (cover_box v) fill)); [reflexivity |].
  unfold bind at 1. unfold draw_text. unfold bind at 1. unfold lift at 1.
  destruct (hex_to_rgb (v_text_color v)) as [c | e]; [| reflexivity].
  unfold bind at 1. unfold draw at 1.
  destruct (draw_raises w (Text _ _ _ _ _)); [reflexivity |].
  unfold ret. unfold bind at 1. rewrite draw_underline_run.
  unfold print, block_printed, raise, ret.
  rewrite <- !app_assoc.
  destruct (print_raises w _); reflexivity.
Qed.

Lemma render_block_unread (block : pyval) (e : exn) (drawn : list draw_cmd) :
  read_block w block = Err e ->
  render_block w block drawn = (Err e, drawn).
Proof.
  intros Hread. unfold render_block, bind, lift. now rewrite Hread.
Qed.

(** A block only adds to the overlay. *)
Lemma render_block_extends (block : pyval) (drawn : list draw_cmd) :
  exists added, snd (render_block w block drawn) = drawn ++ added.
Proof.
  destruct (read_block w block) as [v | e] eqn:Hread.
  - rewrite (render_block_run _ _ _ Hread).
    destruct (cover_fill v) as [fill | e]; [| exists []; cbn; now rewrite app_nil_r].
    cbn zeta. destruct (draw_raises w (Rectangle _ _));
      [exists []; cbn; now rewrite app_nil_r |].
    destruct (hex_to_rgb (v_text_color v)) as [c | e]; [| eexists; reflexivity].
    destruct (draw_raises w (Text _ _ _ _ _)); eexists; reflexivity.
  - rewrite (render_block_unread _ _ _ Hread). exists []. cbn. now rewrite app_nil_r.
Qed.

End OneBlock.

Ltac split_result H :=
  repeat match type of H with
         | context [match ?r with Ok _ => _ | Err _ => _ end] =>
             let E := fresh "E" in destruct r eqn:E; try discriminate H
         end.

(** The variables of a block that was read are the items of the block,
    converted as the handler converts them. *)
Lemma read_block_items (w : World) (block : pyval) (v : block_vars) :
  read_block w block = Ok v ->
  int_item block "x" = Ok (v_x v)
  /\ int_item block "y" = Ok (v_y v)
  /\ int_item block "width" = Ok (v_w v)
  /\ int_item block "height" = Ok (v_h v)
  /\ Py.get block "underline" (PBool false) = Ok (v_underline v)
  /\ Py.get block "textColor" (PStr "#000000") = Ok (v_text_color v)
  /\ Py.get block "backgroundColor" (PStr "#FFFFFF") = Ok (v_bg_color v)
  /\ Py.get block "backgroundTransparent" (PBool true) = Ok (v_bg_transparent v).
Proof.
  intros H. unfold read_block, rbind in H.
  split_result H. injection H as <-. cbn.
  repeat split; assumption || reflexivity.
Qed.

Lemma underline_cmds_lines (w : World) (v : block_vars) (c : rgb) (cmd : draw_cmd) :
  In cmd (underline_cmds w v c) ->
  exists bl bt br bb,
    textbbox w (v_x v) (v_y v) (v_text v) (v_font v) = Some (bl, bt, br, bb)
    /\ cmd = Line (v_x v) (bb + 1) br (bb + 1) (with_alpha c 255) 2.
Proof.
  unfold underline_cmds.
  destruct (Py.truthy (v_underline v)); [| intros []].
  destruct (textbbox w (v_x v) (v_y v) (v_text v) (v_font v))
    as [[[[bl bt] br] bb] |]; [| intros []].
  destruct (draw_raises w _); [intros [] |].
  intros [<- | []]. now exists bl, bt, br, bb.
Qed.

Lemma cover_fill_cases (v : block_vars) (fill : rgba) :
  cover_fill v = Ok fill ->
  (Py.truthy (v_bg_transparent v) = true -> fill = (255, 255, 255, 200))
  /\ (Py.truthy (v_bg_transparent v) = false ->
      exists r g b, hex_to_rgb (v_bg_color v) = Ok (r, g, b) /\ fill = (r, g, b, 255)).
Proof.
  unfold cover_fill. destruct (Py.truthy (v_bg_transparent v)); intros H.
  - injection H as <-. split; [reflexivity | discriminate].
  - split; [discriminate |]. intros _.
    unfold rbind in H. destruct (hex_to_rgb (v_bg_color v)) as [[[r g] b] | e];
      [| discriminate].
    injection H as <-. now exists r, g, b.
Qed.

(** What a block whose items were read adds to the overlay: nothing, or
    its covering rectangle followed by no other rectangle; a block that is
    rendered has added the rectangle. *)
Lemma render_block_added (w : World) (block : pyval) (v : block_vars)
      (drawn : list draw_cmd) :
  read_block w block = Ok v ->
  exists added,
    snd (render_block w block drawn) = drawn ++ added
    /\ (added = []
        \/ exists fill rest,
            cover_fill v = Ok fill
            /\ added = Rectangle (cover_box v) fill :: rest
            /\ forall xy f, ~ In (Rectangle xy f) rest)
    /\ (fst (render_block w block drawn) = Ok tt -> added <> []).
Proof.
  intros Hread. rewrite (render_block_run w block v drawn Hread).
  destruct (cover_fill v) as [fill | e];
    [| exists []; cbn; rewrite app_nil_r; repeat split; (now left) || discriminate].
  cbn zeta. destruct (draw_raises w (Rectangle (cover_box v) fill));
    [exists []; cbn; rewrite app_nil_r; repeat split; (now left) || discriminate |].
  assert (forall rest,
             (forall xy f, ~ In (Rectangle xy f) rest) ->
             Rectangle (cover_box v) fill :: rest = []
             \/ exists fill' rest',
                 Ok fill = Ok fill'
                 /\ Rectangle (cover_box v) fill :: rest
                    = Rectangle (cover_box v) fill' :: rest'
                 /\ forall xy f, ~ In (Rectangle xy f) rest') as Hcover.
  { intros rest Hrest. right. now exists fill, rest. }
  destruct (hex_to_rgb (v_text_color v)) as [c | e].
  - destruct (draw_raises w (Text _ _ _ _ _)); cbn [fst snd].
    + exists [Rectangle (cover_box v) fill].
      repeat split; [apply Hcover; intros xy f [] | discriminate].
    + eexists. split; [reflexivity |]. split; [| discriminate].
      apply Hcover. intros xy f [Hin | Hin]; [discriminate Hin |].
      apply underline_cmds_lines in Hin.
      destruct Hin as (bl & bt & br & bb & _ & Hin). discriminate Hin.
  - cbn [fst snd]. exists [Rectangle (cover_box v) fill].
    repeat split; [apply Hcover; intros xy f [] | discriminate].
Qed.

(** A block whose cover is determined and accepted has put it on the
    overlay, first and as its only rectangle, however the block ends. *)
Lemma render_block_covers (w : World) (block : pyval) (v : block_vars)
      (drawn : list draw_cmd) (fill : rgba) :
  read_block w block = Ok v ->
  cover_fill v = Ok fill ->
  draw_raises w (Rectangle (cover_box v) fill) = false ->
  exists rest,
    snd (render_block w block drawn) = drawn ++ Rectangle (cover_box v) fill :: rest
    /\ forall xy f, ~ In (Rectangle xy f) rest.
Proof.
  intros Hread Hfill Hcover.
  rewrite (render_block_run w block v drawn Hread), Hfill. cbn zeta. rewrite Hcover.
  destruct (hex_to_rgb (v_text_color v)) as [c | e];
    [| exists []; split; [reflexivity | intros xy f []]].
  destruct (draw_raises w (Text _ _ _ _ _));
    [exists []; split; [reflexivity | intros xy f []] |].
  eexists. split; [reflexivity |].
  intros xy f [Hin | Hin]; [discriminate Hin |].
  apply underline_cmds_lines in Hin.
  destruct Hin as (bl & bt & br & bb & _ & Hin). discriminate Hin.
Qed.

(** C4: the covering rectangle of a block.  For a block whose items were
    read, the body of the loop first draws one rectangle: it spans the box
    [x, y, x + width, y + height] widened by 2 on each side, and its fill is
    the fixed white of alpha 200 when [backgroundTransparent] is true and
    the parsed [backgroundColor] with alpha 255 when it is false.  The
    rectangle is on the overlay, ahead of everything else the block draws,
    whenever the drawing surface accepts the call, whatever happens to the
    block afterwards; the block draws no other rectangle; and a block that
    is rendered has drawn it. *)
Theorem cover_rectangle_of_a_block :
  forall (w : World) (block : pyval) (v : block_vars) (drawn : list draw_cmd),
    read_block w block = Ok v ->
    exists bx by_ bw bh bg_color bg_transparent added,
      int_item block "x" = Ok bx
      /\ int_item block "y" = Ok by_
      /\ int_item block "width" = Ok bw
      /\ int_item block "height" = Ok bh
      /\ Py.get block "backgroundColor" (PStr "#FFFFFF") = Ok bg_color
      /\ Py.get block "backgroundTransparent" (PBool true) = Ok bg_transparent
      /\ snd (render_block w block drawn) = drawn ++ added
      /\ (forall xy fill,
             In (Rectangle xy fill) added ->
             xy = (bx - 2, by_ - 2, bx + bw + 2, by_ + bh + 2)
             /\ (Py.truthy bg_transparent = true -> fill = (255, 255, 255, 200))
             /\ (Py.truthy bg_transparent = false ->
                 exists r g b,
                   hex_to_rgb bg_color = Ok (r, g, b) /\ fill = (r, g, b, 255)))
      /\ (Py.truthy bg_transparent = true ->
          draw_raises w (Rectangle (bx - 2, by_ - 2, bx + bw + 2, by_ + bh + 2)
                                   (255, 255, 255, 200)) = false ->
          exists rest,
            added = Rectangle (bx - 2, by_ - 2, bx + bw + 2, by_ + bh + 2)
                              (255, 255, 255, 200) :: rest
            /\ forall xy f, ~ In (Rectangle xy f) rest)
      /\ (Py.truthy bg_transparent = false ->
          forall r g b,
            hex_to_rgb bg_color = Ok (r, g, b) ->
            draw_raises w (Rectangle (bx - 2, by_ - 2, bx + bw + 2, by_ + bh + 2)
                                     (r, g, b, 255)) = false ->
            exists rest,
              added = Rectangle (bx - 2, by_ - 2, bx + bw + 2, by_ + bh + 2)
                                (r, g, b, 255) :: rest
              /\ forall xy f, ~ In (Rectangle xy f) rest)
      /\ (fst (render_block w block drawn) = Ok tt ->
          exists fill rest,
            added = Rectangle (bx - 2, by_ - 2, bx + bw + 2, by_ + bh + 2) fill :: rest).
Proof.
  intros w block v drawn Hread.
  destruct (read_block_items _ _ _ Hread)
    as (Hx & Hy & Hw & Hh & _ & _ & Hbg & Hbt).
  destruct (render_block_added w block v drawn Hread)
    as (added & Hadded & Hshape & Hrendered).
  exists (v_x v), (v_y v), (v_w v), (v_h v), (v_bg_color v), (v_bg_transparent v),
         added.
  change (v_x v - 2, v_y v - 2, v_x v + v_w v + 2, v_y v + v_h v + 2)
    with (cover_box v).
  assert (forall fill,
             cover_fill v = Ok fill ->
             draw_raises w (Rectangle (cover_box v) fill) = false ->
             exists rest,
               added = Rectangle (cover_box v) fill :: rest
               /\ forall xy f, ~ In (Rectangle xy f) rest) as Hdrawn.
  { intros fill Hfill Hcover.
    destruct (render_block_covers w block v drawn fill Hread Hfill Hcover)
      as (rest & Hrest & Hone).
    exists rest. split; [| exact Hone].
    rewrite Hadded in Hrest. now apply app_inv_head in Hrest. }
  do 7 (split; [assumption |]).
  split; [| split; [| split]].
  - intros xy fill Hin.
    destruct Hshape as [-> | (fill' & rest & Hfill & -> & Hrest)]; [destruct Hin |].
    destruct Hin as [Heq | Hin]; [| now elim (Hrest xy fill)].
    injection Heq as <- <-.
    split; [reflexivity | now apply cover_fill_cases].
  - intros Htransparent. apply Hdrawn.
    unfold cover_fill. now rewrite Htransparent.
  - intros Hopaque r g b Hcolor. apply Hdrawn.
    unfold cover_fill. rewrite Hopaque, Hcolor. reflexivity.
  - intros Hok.
    destruct Hshape as [-> | (fill' & rest & _ & -> & _)];
      [now elim (Hrendered Hok) | now exists fill', rest].
Qed.

Lemma cover_rectangle_of_a_block_witness :
  exists bx by_ bw bh bg_color bg_transparent added,
    int_item plain_block "x" = Ok bx
    /\ int_item plain_block "y" = Ok by_
    /\ int_item plain_block "width" = Ok bw
    /\ int_item plain_block "height" = Ok bh
    /\ Py.get plain_block "backgroundColor" (PStr "#FFFFFF") = Ok bg_color
    /\ Py.get plain_block "backgroundTransparent" (PBool true) = Ok bg_transparent
    /\ snd (render_block container plain_block []) = [] ++ added
    /\ (forall xy fill,
           In (Rectangle xy fill) added ->
           xy = (bx - 2, by_ - 2, bx + bw + 2, by_ + bh + 2)
           /\ (Py.truthy bg_transparent = true -> fill = (255, 255, 255, 200))
           /\ (Py.truthy bg_transparent = false ->
               exists r g b,
                 hex_to_rgb bg_color = Ok (r, g, b) /\ fill = (r, g, b, 255)))
    /\ (Py.truthy bg_transparent = true ->
        draw_raises container
                    (Rectangle (bx - 2, by_ - 2, bx + bw + 2, by_ + bh + 2)
                               (255, 255, 255, 200)) = false ->
        exists rest,
          added = Rectangle (bx - 2, by_ - 2, bx + bw + 2, by_ + bh + 2)
                            (255, 255, 255, 200) :: rest
          /\ forall xy f, ~ In (Rectangle xy f) rest)
    /\ (Py.truthy bg_transparent = false ->
        forall r g b,
          hex_to_rgb bg_color = Ok (r, g, b) ->
          draw_raises container
                      (Rectangle (bx - 2, by_ - 2, bx + bw + 2, by_ + bh + 2)
                                 (r, g, b, 255)) = false ->
          exists rest,
            added = Rectangle (bx - 2, by_ - 2, bx + bw + 2, by_ + bh + 2)
                              (r, g, b, 255) :: rest
            /\ forall xy f, ~ In (Rectangle xy f) rest)
    /\ (fst (render_block container plain_block []) = Ok tt ->
        exists fill rest,
          added = Rectangle (bx - 2, by_ - 2, bx + bw + 2, by_ + bh + 2) fill :: rest).
Proof.
  apply (cover_rectangle_of_a_block container plain_block plain_block_vars []).
  reflexivity.
Defined.

(** The block of the sample request in the container: the translucent
    cover is the first call on the overlay. *)
Example cover_of_the_plain_block :
  snd (render_block container plain_block [])
  = [Rectangle (8, 18, 42, 30) (255, 255, 255, 200);
     Text 10 20 "Hi" (0, 0, 0, 255) (v_font plain_block_vars);
     Line 10 33 20 33 (0, 0, 0, 255) 2].
Proof. reflexivity. Qed.

(** C5, as amended: the underline of a rendered block.  For a block that
    is rendered, asks for an underline, whose text is measured and whose
    line the drawing surface accepts, the block ends the overlay with its
    only line: of width 2, in the text colour at full opacity, horizontal
    at [bottom + 1], running from the block's [x] to the right edge of the
    measured box.  The line is at least as long as the measured box is wide
    when the box does not start left of [x].  Measuring and drawing the
    line sit in one [try] whose [except] passes: a line the surface refuses
    is dropped like a measurement that fails. *)
Theorem underline_of_a_rendered_block :
  forall (w : World) (block : pyval) (v : block_vars) (c : rgb)
         (bl bt br bb : Z) (drawn : list draw_cmd),
    read_block w block = Ok v ->
    Py.truthy (v_underline v) = true ->
    fst (render_block w block drawn) = Ok tt ->
    hex_to_rgb (v_text_color v) = Ok c ->
    textbbox w (v_x v) (v_y v) (v_text v) (v_font v) = Some (bl, bt, br, bb) ->
    draw_raises w (Line (v_x v) (bb + 1) br (bb + 1) (with_alpha c 255) 2) = false ->
    exists bx before,
      int_item block "x" = Ok bx
      /\ snd (render_block w block drawn)
         = before ++ [Line bx (bb + 1) br (bb + 1) (with_alpha c 255) 2]
      /\ (forall x0 y0 x1 y1 fill width,
             ~ In (Line x0 y0 x1 y1 fill width) (skipn (List.length drawn) before))
      /\ bb < bb + 1
      /\ (bx <= bl -> br - bl <= br - bx).
Proof.
  intros w block v c bl bt br bb drawn Hread Hunder Hok Hcolor Hbbox Hline.
  destruct (read_block_items _ _ _ Hread) as (Hx & _).
  exists (v_x v).
  rewrite (render_block_run w block v drawn Hread) in *.
  destruct (cover_fill v) as [fill | e]; [| discriminate Hok].
  cbn zeta in *.
  destruct (draw_raises w (Rectangle (cover_box v) fill)); [discriminate Hok |].
  rewrite Hcolor in *.
  destruct (draw_raises w (Text _ _ _ _ _)); [discriminate Hok |].
  unfold underline_cmds. rewrite Hunder, Hbbox. cbn zeta. rewrite Hline.
  cbn [snd].
  exists (drawn ++ [Rectangle (cover_box v) fill;
                    Text (v_x v) (v_y v) (v_text v) (with_alpha c 255) (v_font v)]).
  split; [exact Hx |].
  split; [now rewrite <- app_assoc |].
  split.
  { intros x0 y0 x1 y1 f wd.
    rewrite skipn_app, skipn_all, Nat.sub_diag. cbn.
    intros [H | [H | []]]; discriminate H. }
  split; lia.
Qed.

Lemma underline_of_a_rendered_block_witness :
  exists bx before,
    int_item plain_block "x" = Ok bx
    /\ snd (render_block container plain_block [])
       = before ++ [Line bx (32 + 1) 20 (32 + 1) (with_alpha (0, 0, 0) 255) 2]
    /\ (forall x0 y0 x1 y1 fill width,
           ~ In (Line x0 y0 x1 y1 fill width)
                (skipn (List.length (@nil draw_cmd)) before))
    /\ 32 < 32 + 1
    /\ (bx <= 10 -> 20 - 10 <= 20 - bx).
Proof.
  apply (underline_of_a_rendered_block
           container plain_block plain_block_vars (0, 0, 0) 10 20 20 32 []);
    reflexivity.
Defined.

(** C5, as stated, fails: with a font whose first glyph starts 3 pixels
    left of the anchor the text measures 13 pixels, from 7 to 20, and the
    one line the block draws runs from 10 to 20. *)
Lemma underline_narrower_than_measured_text :
  read_block negative_bearing plain_block = Ok plain_block_vars
  /\ Py.truthy (v_underline plain_block_vars) = true
  /\ textbbox negative_bearing 10 20 "Hi" (v_font plain_block_vars)
     = Some (7, 20, 20, 32)
  /\ render_block negative_bearing plain_block []
     = (Ok tt,
        [Rectangle (8, 18, 42, 30) (255, 255, 255, 200);
         Text 10 20 "Hi" (0, 0, 0, 255) (v_font plain_block_vars);
         Line 10 33 20 33 (0, 0, 0, 255) 2])
  /\ 20 - 10 < 20 - 7.
Proof. repeat split. Qed.

Lemma underline_claim_fails_with_negative_bearing :
  ~ underline_spans_measured_width negative_bearing plain_block.
Proof.
  intros Hclaim.
  destruct (Hclaim plain_block_vars 7 20 20 32) as (x0 & x1 & fill & Hin & Hspan);
    try reflexivity.
  cbn in Hin.
  destruct Hin as [H | [H | [H | []]]]; try discriminate H.
  injection H as <- <- _. lia.
Qed.

(* ================================================================== *)
(** ** The loop over the blocks *)

Section BlockLoop.

Variable w : World.

Lemma try_block_run (idx : nat) (block : pyval) (drawn : list draw_cmd) :
  try_block w idx block drawn =
  (Ok (outcome_of (fst (render_block w block drawn))),
   snd (render_block w block drawn)).
Proof.
  unfold try_block, try_except, bind, ret.
  destruct (render_block w block drawn) as [[u | e] d]; reflexivity.
Qed.

Lemma loop_cons (idx : nat) (block : pyval) (rest : list pyval)
      (drawn : list draw_cmd) :
  for_enumerate idx (block :: rest) (try_block w) drawn =
  match for_enumerate (S idx) rest (try_block w) (snd (render_block w block drawn)) with
  | (Ok outs, d) => (Ok (outcome_of (fst (render_block w block drawn)) :: outs), d)
  | (Err e, d) => (Err e, d)
  end.
Proof.
  cbn [for_enumerate]. unfold bind at 1. rewrite try_block_run.
  unfold bind, ret.
  destruct (for_enumerate (S idx) rest (try_block w) _) as [[outs | e] d]; reflexivity.
Qed.

(** The loop returns, with one printed line per block, wherever it is
    started. *)
Lemma loop_returns (blocks : list pyval) :
  forall idx drawn,
    exists outs drawn',
      for_enumerate idx blocks (try_block w) drawn = (Ok outs, drawn')
      /\ List.length outs = List.length blocks.
Proof.
  induction blocks as [| block rest IH]; intros idx drawn.
  - exists [], drawn. split; reflexivity.
  - rewrite loop_cons.
    destruct (IH (S idx) (snd (render_block w block drawn)))
      as (outs & d & Hrun & Hlen).
    rewrite Hrun. eexists _, d. split; [reflexivity |].
    cbn. now rewrite Hlen.
Qed.

(** The index only numbers the printed lines. *)
Lemma loop_index_irrelevant (blocks : list pyval) :
  forall i j drawn,
    for_enumerate i blocks (try_block w) drawn = for_enumerate j blocks (try_block w) drawn.
Proof.
  induction blocks as [| block rest IH]; intros i j drawn.
  - reflexivity.
  - rewrite !loop_cons.
    now rewrite (IH (S i) (S j)).
Qed.

Lemma process_blocks_nil (drawn : list draw_cmd) :
  process_blocks w [] drawn = (Ok [], drawn).
Proof. reflexivity. Qed.

Lemma process_blocks_cons (block : pyval) (rest : list pyval)
      (drawn : list draw_cmd) :
  process_blocks w (block :: rest) drawn =
  match process_blocks w rest (snd (render_block w block drawn)) with
  | (Ok outs, d) => (Ok (outcome_of (fst (render_block w block drawn)) :: outs), d)
  | (Err e, d) => (Err e, d)
  end.
Proof.
  unfold process_blocks.
  rewrite loop_cons.
  now rewrite (loop_index_irrelevant rest 1%nat 0%nat).
Qed.

Lemma process_blocks_returns (blocks : list pyval) (drawn : list draw_cmd) :
  exists outs drawn',
    process_blocks w blocks drawn = (Ok outs, drawn')
    /\ List.length outs = List.length blocks.
Proof. apply loop_returns. Qed.

(** The loop over [pre ++ post] is the loop over [pre] followed by the
    loop over [post] on the overlay the first one left. *)
Lemma process_blocks_app (pre post : list pyval) :
  forall drawn outs1 d1 outs2 d2,
    process_blocks w pre drawn = (Ok outs1, d1) ->
    process_blocks w post d1 = (Ok outs2, d2) ->
    process_blocks w (pre ++ post) drawn = (Ok (outs1 ++ outs2), d2).
Proof.
  induction pre as [| block rest IH]; intros drawn outs1 d1 outs2 d2 Hpre Hpost.
  - rewrite process_blocks_nil in Hpre. injection Hpre as <- <-. exact Hpost.
  - cbn [app]. rewrite process_blocks_cons in *.
    destruct (process_blocks w rest (snd (render_block w block drawn)))
      as [[outs | e] d] eqn:Hrest; [| discriminate].
    injection Hpre as <- <-.
    rewrite (IH _ _ _ _ _ Hrest Hpost). reflexivity.
Qed.

(** The loop only adds to the overlay. *)
Lemma process_blocks_extends (blocks : list pyval) :
  forall drawn, exists added,
    snd (process_blocks w blocks drawn) = drawn ++ added.
Proof.
  induction blocks as [| block rest IH]; intros drawn.
  - exists []. cbn. now rewrite app_nil_r.
  - rewrite process_blocks_cons.
    destruct (render_block_extends w block drawn) as [a1 H1].
    destruct (IH (snd (render_block w block drawn))) as [a2 H2].
    exists (a1 ++ a2).
    destruct (process_blocks w rest (snd (render_block w block drawn)))
      as [[outs | e] d]; cbn [snd] in *; subst d; rewrite H1;
      now rewrite app_assoc.
Qed.

End BlockLoop.

(* ================================================================== *)
(** ** The edit handler *)

Lemma mode_eqb_eq (a b : mode) : mode_eqb a b = true <-> a = b.
Proof.
  destruct a, b; cbn; split; intros H; try discriminate; try reflexivity.
  - apply String.eqb_eq in H. now subst.
  - injection H as ->. apply String.eqb_refl.
Qed.

Lemma rgba_base_mode (raw : raw_image) : mode_of (rgba_base raw) = RGBA.
Proof.
  unfold rgba_base.
  destruct (mode_eqb (raw_mode raw) RGBA) eqn:E; [| reflexivity].
  now apply mode_eqb_eq in E.
Qed.

Lemma rgba_base_size (raw : raw_image) : size_of (rgba_base raw) = raw_size raw.
Proof.
  unfold rgba_base. now destruct (mode_eqb (raw_mode raw) RGBA).
Qed.

Lemma size_eqb_refl (s : Z * Z) : size_eqb s s = true.
Proof. unfold size_eqb. now rewrite !Z.eqb_refl. Qed.

(** Base and overlay always meet the precondition of the compositing. *)
Lemma composite_defined (raw : raw_image) (drawn : list draw_cmd) :
  alpha_composite (rgba_base raw)
                  (Canvas RGBA (size_of (rgba_base raw)) (255, 255, 255, 0) drawn)
  = Ok (Composite (rgba_base raw)
                  (Canvas RGBA (raw_size raw) (255, 255, 255, 0) drawn)).
Proof.
  unfold alpha_composite. rewrite rgba_base_mode. cbn [mode_of size_of mode_eqb andb].
  rewrite rgba_base_size, size_eqb_refl. reflexivity.
Qed.

Lemma save_ok_true (w : World) (path : string) (img : image) :
  save_ok w path img = true -> save_error w path img = None.
Proof. unfold save_ok. now destruct (save_error w path img). Qed.

Lemma update_image_existing (w : World) (d : list (string * pyval))
      (path : string) :
  Py.dict_get d "image_path" PNone = PStr path ->
  path <> "" ->
  Py.truthy (Py.dict_get d "text_blocks" PNone) = true ->
  fs_exists w path = true ->
  update_image w (PDict d)
  = edit_existing w path (Py.dict_get d "text_blocks" PNone).
Proof.
  intros Hpath Hne Htb Hex.
  assert (Py.truthy (PStr path) = true) as Htruthy
      by (destruct path; [contradiction | reflexivity]).
  unfold update_image, edit_existing, at_boundary.
  unfold bind, lift, ret, raise, record, emit. cbn [Py.get].
  rewrite Hpath, Htb, Htruthy. cbn [negb orb path_exists]. rewrite Hex. cbn [negb].
  destruct (open_image w path) as [raw |]; cbn [of_option]; [| reflexivity].
  destruct (py_iter (Py.dict_get d "text_blocks" PNone)) as [blocks | e]; [| reflexivity].
  destruct (process_blocks_returns w blocks []) as (outs & drawn & Hrun & _).
  rewrite Hrun. cbn [snd app].
  change (if mode_eqb (mode_of (Decoded raw)) RGBA then Decoded raw
          else Converted RGBA (Decoded raw)) with (rgba_base raw).
  rewrite composite_defined.
  fold (composed raw drawn).
  destruct (save_error w _ _); reflexivity.
Qed.

Lemma edit_request_existing (w : World) (path : string) (blocks : list pyval) :
  path <> "" ->
  blocks <> [] ->
  fs_exists w path = true ->
  update_image w (edit_request path blocks) = edit_existing w path (PList blocks).
Proof.
  intros Hne Hblocks Hex.
  unfold edit_request.
  rewrite (update_image_existing w _ path); try assumption; try reflexivity.
  cbn. destruct blocks; [contradiction | reflexivity].
Qed.

(** An edit request on a picture that exists, opens and can be saved
    succeeds, with the overlay the loop over the blocks left. *)
Lemma edit_request_succeeds (w : World) (path : string) (raw : raw_image)
      (blocks : list pyval) :
  path <> "" ->
  blocks <> [] ->
  fs_exists w path = true ->
  open_image w path = Some raw ->
  (forall img, save_ok w (OsPath.join UPLOAD_FOLDER (output_name w path)) img = true) ->
  update_image w (edit_request path blocks)
  = ({| status := 200;
        payload := JEdited true
                     (PngDataUrl (composed raw (snd (process_blocks w blocks []))))
                     (output_name w path) |},
     [OpenedImage path;
      SavedImage (OsPath.join UPLOAD_FOLDER (output_name w path))
                 (composed raw (snd (process_blocks w blocks [])))]).
Proof.
  intros Hne Hblocks Hex Hopen Hsave.
  rewrite edit_request_existing by assumption.
  unfold edit_existing. rewrite Hopen. cbn [py_iter].
  now rewrite (save_ok_true _ _ _ (Hsave _)).
Qed.

(** C9: an edit request that carries both fields, one of them empty (the
    empty string as [image_path] or the empty list as [text_blocks]), is
    answered with status 400 and "Missing required data"; nothing was
    opened and nothing was saved. *)
Theorem update_image_empty_field_is_400 :
  forall (w : World) (d : list (string * pyval)) (image_path text_blocks : pyval),
    Py.assoc d "image_path" = Some image_path ->
    Py.assoc d "text_blocks" = Some text_blocks ->
    image_path = PStr "" \/ text_blocks = PList [] ->
    update_image w (PDict d)
    = ({| status := 400; payload := JError "Missing required data" |}, []).
Proof.
  intros w d image_path text_blocks Hpath Hblocks Hempty.
  unfold update_image, at_boundary, bind, lift, ret. cbn [Py.get].
  unfold Py.dict_get. rewrite Hpath, Hblocks.
  destruct Hempty as [-> | ->]; cbn [Py.truthy Str.nonempty negb orb].
  - reflexivity.
  - now rewrite orb_true_r.
Qed.

Lemma update_image_empty_field_is_400_witness :
  update_image container (edit_request "uploads/photo.png" [])
  = ({| status := 400; payload := JError "Missing required data" |}, [])
  /\ update_image container (edit_request "" [plain_block])
     = ({| status := 400; payload := JError "Missing required data" |}, []).
Proof.
  split.
  - apply (update_image_empty_field_is_400
             container _ (PStr "uploads/photo.png") (PList []));
      [reflexivity | reflexivity | now right].
  - apply (update_image_empty_field_is_400
             container _ (PStr "") (PList [plain_block]));
      [reflexivity | reflexivity | now left].
Defined.

(** C6: an edit request with a non-empty [image_path] and a non-empty
    list of blocks, naming a file that does not exist, is answered with
    status 404 and the message of the missing original; nothing was opened
    and nothing was saved. *)
Theorem update_image_missing_file_is_404 :
  forall (w : World) (d : list (string * pyval)) (path : string)
         (blocks : list pyval),
    Py.assoc d "image_path" = Some (PStr path) ->
    path <> "" ->
    Py.assoc d "text_blocks" = Some (PList blocks) ->
    blocks <> [] ->
    fs_exists w path = false ->
    update_image w (PDict d)
    = ({| status := 404; payload := JError "Original image not found" |}, []).
Proof.
  intros w d path blocks Hpath Hne Hblocks Hnonempty Hmissing.
  unfold update_image, at_boundary, bind, lift, ret. cbn [Py.get].
  unfold Py.dict_get. rewrite Hpath, Hblocks.
  destruct path; [contradiction |]. destruct blocks; [contradiction |].
  cbn [Py.truthy Str.nonempty negb orb path_exists].
  rewrite Hmissing. reflexivity.
Qed.

Lemma update_image_missing_file_is_404_witness :
  update_image container (edit_request "uploads/gone.png" [plain_block])
  = ({| status := 404; payload := JError "Original image not found" |}, []).
Proof.
  apply (update_image_missing_file_is_404
           container _ "uploads/gone.png" [plain_block]).
  - reflexivity.
  - discriminate.
  - reflexivity.
  - discriminate.
  - reflexivity.
Defined.

(** C1: a block that fails does not end the edit.  For every list of
    blocks, split at any block, the loop runs the blocks before it, runs
    the block, whose body may raise, and then still runs the blocks after
    it on the overlay the block left; it prints one line per block, the
    line of a failed block being the skip; a block whose items cannot be
    read (a coordinate that is no number, a font family that cannot be
    looked up) leaves the overlay as it found it; a failure to measure the
    text never leaves the underline step; and the response is the success
    response with the image composed from the final overlay. *)
Theorem update_image_isolates_block_failures :
  forall (w : World) (path : string) (raw : raw_image)
         (pre post : list pyval) (block : pyval),
    path <> "" ->
    fs_exists w path = true ->
    open_image w path = Some raw ->
    (forall img,
        save_ok w (OsPath.join UPLOAD_FOLDER (output_name w path)) img = true) ->
    exists outs1 d1 outs2 d3,
      process_blocks w pre [] = (Ok outs1, d1)
      /\ process_blocks w post (snd (render_block w block d1)) = (Ok outs2, d3)
      /\ process_blocks w (pre ++ block :: post) []
         = (Ok (outs1 ++ outcome_of (fst (render_block w block d1)) :: outs2), d3)
      /\ List.length (outs1 ++ outcome_of (fst (render_block w block d1)) :: outs2)
         = List.length (pre ++ block :: post)
      /\ (forall e, fst (render_block w block d1) = Err e ->
                    outcome_of (fst (render_block w block d1)) = Skipped e)
      /\ (forall e, read_block w block = Err e ->
                    render_block w block d1 = (Err e, d1))
      /\ (forall v text_rgb d, fst (draw_underline w v text_rgb d) = Ok tt)
      /\ update_image w (edit_request path (pre ++ block :: post))
         = ({| status := 200;
               payload := JEdited true (PngDataUrl (composed raw d3))
                                  (output_name w path) |},
            [OpenedImage path;
             SavedImage (OsPath.join UPLOAD_FOLDER (output_name w path))
                        (composed raw d3)]).
Proof.
  intros w path raw pre post block Hne Hex Hopen Hsave.
  destruct (process_blocks_returns w pre []) as (outs1 & d1 & Hpre & Hlen1).
  destruct (process_blocks_returns w post (snd (render_block w block d1)))
    as (outs2 & d3 & Hpost & Hlen2).
  assert (process_blocks w (pre ++ block :: post) []
          = (Ok (outs1 ++ outcome_of (fst (render_block w block d1)) :: outs2), d3))
    as Hall.
  { apply (process_blocks_app w pre (block :: post) [] outs1 d1); [exact Hpre |].
    rewrite process_blocks_cons, Hpost. reflexivity. }
  exists outs1, d1, outs2, d3.
  split; [exact Hpre |]. split; [exact Hpost |]. split; [exact Hall |].
  split; [rewrite !length_app; cbn; now rewrite Hlen1, Hlen2 |].
  split; [intros e ->; reflexivity |].
  split; [intros e He; now apply render_block_unread |].
  split; [intros v text_rgb d; now rewrite draw_underline_run |].
  rewrite (edit_request_succeeds w path raw) by
      (try assumption; now destruct pre).
  now rewrite Hall.
Qed.

Lemma update_image_isolates_block_failures_witness :
  exists outs1 d1 outs2 d3,
    process_blocks container [plain_block] [] = (Ok outs1, d1)
    /\ process_blocks container [half_block]
                      (snd (render_block container malformed_block d1))
       = (Ok outs2, d3)
    /\ process_blocks container ([plain_block] ++ malformed_block :: [half_block]) []
       = (Ok (outs1 ++ outcome_of (fst (render_block container malformed_block d1))
                    :: outs2), d3)
    /\ List.length (outs1 ++ outcome_of (fst (render_block container malformed_block d1))
                          :: outs2)
       = List.length ([plain_block] ++ malformed_block :: [half_block])
    /\ (forall e, fst (render_block container malformed_block d1) = Err e ->
                  outcome_of (fst (render_block container malformed_block d1))
                  = Skipped e)
    /\ (forall e, read_block container malformed_block = Err e ->
                  render_block container malformed_block d1 = (Err e, d1))
    /\ (forall v text_rgb d, fst (draw_underline container v text_rgb d) = Ok tt)
    /\ update_image container
         (edit_request "uploads/photo.png"
                       ([plain_block] ++ malformed_block :: [half_block]))
       = ({| status := 200;
             payload := JEdited true (PngDataUrl (composed sample_raw d3))
                                (output_name container "uploads/photo.png") |},
          [OpenedImage "uploads/photo.png";
           SavedImage (OsPath.join UPLOAD_FOLDER
                                   (output_name container "uploads/photo.png"))
                      (composed sample_raw d3)]).
Proof.
  apply (update_image_isolates_block_failures
           container "uploads/photo.png" sample_raw
           [plain_block] [half_block] malformed_block).
  - discriminate.
  - reflexivity.
  - reflexivity.
  - intros img. reflexivity.
Defined.

(** C8: a block is not rendered atomically.  When the items of a block
    are read, its covering rectangle is accepted by the drawing surface and
    its text colour then fails to parse, the block is printed as skipped,
    with the error of the colour, yet its rectangle is on the final overlay
    and so in the image the success response carries. *)
Theorem failed_block_keeps_its_cover :
  forall (w : World) (path : string) (raw : raw_image)
         (pre post : list pyval) (block : pyval) (v : block_vars)
         (fill : rgba) (e : exn),
    path <> "" ->
    fs_exists w path = true ->
    open_image w path = Some raw ->
    (forall img,
        save_ok w (OsPath.join UPLOAD_FOLDER (output_name w path)) img = true) ->
    read_block w block = Ok v ->
    cover_fill v = Ok fill ->
    draw_raises w (Rectangle (cover_box v) fill) = false ->
    hex_to_rgb (v_text_color v) = Err e ->
    exists outs drawn,
      process_blocks w (pre ++ block :: post) [] = (Ok outs, drawn)
      /\ nth_error outs (List.length pre) = Some (Skipped e)
      /\ In (Rectangle (cover_box v) fill) drawn
      /\ (forall d, render_block w block d
                    = (Err e, d ++ [Rectangle (cover_box v) fill]))
      /\ update_image w (edit_request path (pre ++ block :: post))
         = ({| status := 200;
               payload := JEdited true (PngDataUrl (composed raw drawn))
                                  (output_name w path) |},
            [OpenedImage path;
             SavedImage (OsPath.join UPLOAD_FOLDER (output_name w path))
                        (composed raw drawn)]).
Proof.
  intros w path raw pre post block v fill e Hne Hex Hopen Hsave
         Hread Hfill Hcover Hcolor.
  assert (forall d, render_block w block d
                    = (Err e, d ++ [Rectangle (cover_box v) fill])) as Hblock.
  { intros d. rewrite (render_block_run w block v d Hread), Hfill.
    cbn zeta. now rewrite Hcover, Hcolor. }
  destruct (process_blocks_returns w pre []) as (outs1 & d1 & Hpre & Hlen1).
  destruct (process_blocks_returns w post (d1 ++ [Rectangle (cover_box v) fill]))
    as (outs2 & d3 & Hpost & _).
  assert (process_blocks w (pre ++ block :: post) []
          = (Ok (outs1 ++ Skipped e :: outs2), d3)) as Hall.
  { apply (process_blocks_app w pre (block :: post) [] outs1 d1); [exact Hpre |].
    rewrite process_blocks_cons, Hblock. cbn [fst snd]. now rewrite Hpost. }
  exists (outs1 ++ Skipped e :: outs2), d3.
  split; [exact Hall |].
  split.
  { rewrite <- Hlen1, nth_error_app2 by lia. now rewrite Nat.sub_diag. }
  split.
  { destruct (process_blocks_extends w post (d1 ++ [Rectangle (cover_box v) fill]))
      as [added Hadded].
    rewrite Hpost in Hadded. cbn [snd] in Hadded. subst d3.
    apply in_or_app. left. apply in_or_app. right. now left. }
  split; [exact Hblock |].
  rewrite (edit_request_succeeds w path raw) by (try assumption; now destruct pre).
  now rewrite Hall.
Qed.

Lemma failed_block_keeps_its_cover_witness :
  exists outs drawn,
    process_blocks container ([plain_block] ++ half_block :: [plain_block]) []
    = (Ok outs, drawn)
    /\ nth_error outs (List.length [plain_block]) = Some (Skipped ValueError)
    /\ In (Rectangle (-1, 0, 6, 8) (0, 255, 0, 255)) drawn
    /\ (forall d, render_block container half_block d
                  = (Err ValueError, d ++ [Rectangle (-1, 0, 6, 8) (0, 255, 0, 255)]))
    /\ update_image container
         (edit_request "uploads/photo.png"
                       ([plain_block] ++ half_block :: [plain_block]))
       = ({| status := 200;
             payload := JEdited true (PngDataUrl (composed sample_raw drawn))
                                (output_name container "uploads/photo.png") |},
          [OpenedImage "uploads/photo.png";
           SavedImage (OsPath.join UPLOAD_FOLDER
                                   (output_name container "uploads/photo.png"))
                      (composed sample_raw drawn)]).
Proof.
  apply (failed_block_keeps_its_cover
           container "uploads/photo.png" sample_raw
           [plain_block] [plain_block] half_block half_block_vars
           (0, 255, 0, 255) ValueError).
  - discriminate.
  - reflexivity.
  - reflexivity.
  - intros img. reflexivity.
  - reflexivity.
  - reflexivity.
  - reflexivity.
  - reflexivity.
Defined.

(** C7: the output of a successful edit.  When the handler answers 200,
    the request named a string path that opened; the output image is the
    base (in RGBA) with the overlay composited on it, converted to RGB, so
    it has no alpha channel; it was saved as
    [uploads/edited_<sanitised basename of the path>]; and the payload
    carries the PNG of the very same image and that file name. *)
Theorem update_image_output :
  forall (w : World) (request_json : pyval) (r : response) (t : list io),
    update_image w request_json = (r, t) ->
    status r = 200 ->
    exists path text_blocks blocks raw outs drawn,
      Py.get request_json "image_path" PNone = Ok (PStr path)
      /\ Py.get request_json "text_blocks" PNone = Ok text_blocks
      /\ py_iter text_blocks = Ok blocks
      /\ open_image w path = Some raw
      /\ process_blocks w blocks [] = (Ok outs, drawn)
      /\ let base := if mode_eqb (raw_mode raw) RGBA then Decoded raw
                     else Converted RGBA (Decoded raw) in
         let overlay := Canvas RGBA (raw_size raw) (255, 255, 255, 0) drawn in
         let output := Converted RGB (Composite base overlay) in
         let name := ("edited_" ++ secure_filename w (OsPath.basename path))%string in
         mode_of base = RGBA
         /\ mode_of output = RGB
         /\ has_alpha output = false
         /\ r = {| status := 200; payload := JEdited true (PngDataUrl output) name |}
         /\ t = [OpenedImage path; SavedImage ("uploads/" ++ name)%string output].
Proof.
  intros w request_json r t Hrun Hstatus.
  destruct request_json as [| | | | | | d];
    try (injection Hrun as <- _; discriminate Hstatus).
  destruct (Py.truthy (Py.dict_get d "image_path" PNone)) eqn:Hip;
    [| unfold update_image, at_boundary, bind, lift, ret in Hrun;
       cbn [Py.get] in Hrun; rewrite Hip in Hrun;
       injection Hrun as <- _; discriminate Hstatus].
  destruct (Py.truthy (Py.dict_get d "text_blocks" PNone)) eqn:Htb;
    [| unfold update_image, at_boundary, bind, lift, ret in Hrun;
       cbn [Py.get] in Hrun; rewrite Hip, Htb in Hrun;
       injection Hrun as <- _; discriminate Hstatus].
  destruct (Py.dict_get d "image_path" PNone) as [| b | z | f | path | l | d'] eqn:Hget.
  - discriminate Hip.
  - cbn [Py.truthy] in Hip. subst b.
    unfold update_image, at_boundary, bind, lift, ret in Hrun.
    cbn [Py.get] in Hrun. rewrite Hget, Htb in Hrun.
    cbn [Py.truthy negb orb path_exists] in Hrun.
    destruct (fd_exists w _) as [[|] |]; cbn in Hrun;
      injection Hrun as <- _; discriminate Hstatus.
  - unfold update_image, at_boundary, bind, lift, ret in Hrun.
    cbn [Py.get] in Hrun. rewrite Hget, Htb in Hrun.
    cbn [Py.truthy] in Hip. cbn [Py.truthy] in Hrun. rewrite Hip in Hrun.
    cbn [negb orb path_exists] in Hrun.
    destruct (fd_exists w _) as [[|] |]; cbn in Hrun;
      injection Hrun as <- _; discriminate Hstatus.
  - unfold update_image, at_boundary, bind, lift, ret in Hrun.
    cbn [Py.get] in Hrun. rewrite Hget, Htb in Hrun. rewrite Hip in Hrun.
    cbn in Hrun. injection Hrun as <- _; discriminate Hstatus.
  - assert (path <> "") as Hne by (intros ->; discriminate Hip).
    destruct (fs_exists w path) eqn:Hex.
    + rewrite (update_image_existing w d path Hget Hne Htb Hex) in Hrun.
      unfold edit_existing in Hrun.
      destruct (open_image w path) as [raw |] eqn:Hopen;
        [| injection Hrun as <- _; discriminate Hstatus].
      destruct (py_iter (Py.dict_get d "text_blocks" PNone)) as [blocks | e] eqn:Hiter;
        [| injection Hrun as <- _; discriminate Hstatus].
      destruct (process_blocks_returns w blocks []) as (outs & drawn & Hloop & _).
      rewrite Hloop in Hrun. cbn [snd] in Hrun.
      destruct (save_error w _ _);
        [injection Hrun as <- _; discriminate Hstatus |].
      injection Hrun as <- <-.
      exists path, (Py.dict_get d "text_blocks" PNone), blocks, raw, outs, drawn.
      cbn [Py.get]. rewrite Hget.
      repeat split; try assumption; try reflexivity.
      apply (rgba_base_mode raw).
    + unfold update_image, at_boundary, bind, lift, ret in Hrun.
      cbn [Py.get] in Hrun. rewrite Hget, Htb, Hip in Hrun.
      cbn [negb orb path_exists] in Hrun. rewrite Hex in Hrun. cbn in Hrun.
      injection Hrun as <- _; discriminate Hstatus.
  - unfold update_image, at_boundary, bind, lift, ret in Hrun.
    cbn [Py.get] in Hrun. rewrite Hget, Htb in Hrun. rewrite Hip in Hrun.
    cbn in Hrun. injection Hrun as <- _; discriminate Hstatus.
  - unfold update_image, at_boundary, bind, lift, ret in Hrun.
    cbn [Py.get] in Hrun. rewrite Hget, Htb in Hrun. rewrite Hip in Hrun.
    cbn in Hrun. injection Hrun as <- _; discriminate Hstatus.
Qed.

Lemma update_image_output_witness :
  exists path text_blocks blocks raw outs drawn,
    Py.get (edit_request "uploads/photo.png" [plain_block]) "image_path" PNone
    = Ok (PStr path)
    /\ Py.get (edit_request "uploads/photo.png" [plain_block]) "text_blocks" PNone
       = Ok text_blocks
    /\ py_iter text_blocks = Ok blocks
    /\ open_image container path = Some raw
    /\ process_blocks container blocks [] = (Ok outs, drawn)
    /\ let base := if mode_eqb (raw_mode raw) RGBA then Decoded raw
                   else Converted RGBA (Decoded raw) in
       let overlay := Canvas RGBA (raw_size raw) (255, 255, 255, 0) drawn in
       let output := Converted RGB (Composite base overlay) in
       let name :=
         ("edited_" ++ secure_filename container (OsPath.basename path))%string in
       mode_of base = RGBA
       /\ mode_of output = RGB
       /\ has_alpha output = false
       /\ fst (update_image container (edit_request "uploads/photo.png" [plain_block]))
          = {| status := 200; payload := JEdited true (PngDataUrl output) name |}
       /\ snd (update_image container (edit_request "uploads/photo.png" [plain_block]))
          = [OpenedImage path; SavedImage ("uploads/" ++ name)%string output].
Proof.
  apply (update_image_output
           container (edit_request "uploads/photo.png" [plain_block])).
  - apply surjective_pairing.
  - reflexivity.
Defined.

(* ================================================================== *)
(** ** Worked examples *)

Example hex_to_rgb_mixed_case : hex_to_rgb (PStr "#FF00aa") = Ok (255, 0, 170).
Proof. reflexivity. Qed.

Example hex_to_rgb_short : hex_to_rgb (PStr "#FFF") = Err ValueError.
Proof. reflexivity. Qed.

Example hex_to_rgb_not_a_string : hex_to_rgb (PInt 255) = Err AttributeError.
Proof. reflexivity. Qed.

Example int_truncates_floats : Py.int (PFloat (FFin (-7 # 2))) = Ok (-3).
Proof. reflexivity. Qed.

Example int_rejects_words : Py.int (PStr "abc") = Err ValueError.
Proof. reflexivity. Qed.

(** [int] skips a no-break space and stops at the separator U+001C, which
    [strip] removes. *)
Example int_skips_blanks_only :
  Py.int (PStr (String (ascii_of_nat 160) "80")) = Ok 80
  /\ Py.int (PStr (String (ascii_of_nat 28) "80")) = Err ValueError
  /\ Str.strip (String (ascii_of_nat 28) "80") = "80".
Proof. repeat split. Qed.

Example strip_removes_a_no_break_space :
  Str.strip ("Hello" ++ String (ascii_of_nat 160) "") = "Hello".
Proof. reflexivity. Qed.

(** A decimal literal of 4301 digits is refused. *)
Example int_refuses_long_literals :
  Py.int (PStr (Str.of_chars (repeat "7"%char 4301))) = Err ValueError.
Proof. vm_compute. reflexivity. Qed.

Example secure_filename_drops_parents :
  secure_filename container "../../etc/passwd" = "etc_passwd".
Proof. reflexivity. Qed.

Example secure_filename_of_dots : secure_filename container ".." = "".
Proof. reflexivity. Qed.

Example get_font_in_container :
  get_font container (PStr "Verdana") 20 (PBool true) (PBool false)
  = Ok (TrueType "/usr/share/fonts/truetype/liberation/LiberationSans-Regular.ttf" 20).
Proof. reflexivity. Qed.

Example get_font_falls_back_to_default :
  get_font container (PStr "Arial") 0 (PBool false) (PBool false) = Ok DefaultFont.
Proof. reflexivity. Qed.

Example get_font_unhashable_family :
  get_font container (PList []) 20 (PBool false) (PBool false) = Err TypeError.
Proof. reflexivity. Qed.

(** "Hello" edited to a red "World" on opaque green. *)
Example green_world :
  process_blocks container
    [PDict [("x", PInt 5); ("y", PInt 6); ("width", PInt 40); ("height", PInt 10);
            ("text", PStr "World"); ("textColor", PStr "#FF0000");
            ("backgroundTransparent", PBool false);
            ("backgroundColor", PStr "#00FF00")]] []
  = (Ok [Rendered],
     [Rectangle (3, 4, 47, 18) (0, 255, 0, 255);
      Text 5 6 "World" (255, 0, 0, 255)
           (TrueType "/usr/share/fonts/truetype/liberation/LiberationSans-Regular.ttf" 20)]).
Proof. reflexivity. Qed.

(** One malformed block among good ones. *)
Example one_bad_block :
  process_blocks container [plain_block; malformed_block; half_block] []
  = (Ok [Rendered; Skipped ValueError; Skipped ValueError],
     [Rectangle (8, 18, 42, 30) (255, 255, 255, 200);
      Text 10 20 "Hi" (0, 0, 0, 255)
           (TrueType "/usr/share/fonts/truetype/liberation/LiberationSans-Regular.ttf" 20);
      Line 10 33 20 33 (0, 0, 0, 255) 2;
      Rectangle (-1, 0, 6, 8) (0, 255, 0, 255)]).
Proof. reflexivity. Qed.

Example download_of_a_parent_path :
  download_file container "../uploads/photo.png"
  = {| status := 404; payload := JError "File not found" |}.
Proof. reflexivity. Qed.

Example download_of_the_picture :
  download_file container "photo.png"
  = {| status := 200; payload := Attachment "uploads/photo.png" "photo.png" |}.
Proof. reflexivity. Qed.

(* ################################################################## *)
(** * Further properties *)

(* ================================================================== *)
(** ** Colours *)

Lemma all_ascii_complete (c : ascii) : In c all_ascii.
Proof.
  unfold all_ascii. rewrite <- (ascii_nat_embedding c).
  apply in_map. apply in_seq. split; [lia |].
  cbn [Nat.add]. apply nat_ascii_bounded.
Qed.

Lemma for_all_ascii (P : ascii -> bool) :
  forallb P all_ascii = true -> forall c, P c = true.
Proof.
  intros H c. rewrite forallb_forall in H. apply H, all_ascii_complete.
Qed.

Lemma hexdigit_range (c : ascii) (d : Z) : hexdigit c = Some d -> 0 <= d <= 15.
Proof.
  unfold hexdigit, Py.digit_value.
  destruct (Str.between 48 57 c) eqn:E1;
    [| destruct (Str.between 97 122 c) eqn:E2;
       [| destruct (Str.between 65 90 c) eqn:E3; [| discriminate]]].
  all: destruct (_ <? 16) eqn:E; [| discriminate].
  all: intros H; injection H as <-.
  all: unfold Str.between in *.
  - apply andb_true_iff in E1. lia.
  - apply andb_true_iff in E2. lia.
  - apply andb_true_iff in E3. lia.
Qed.

Lemma hexdigit_listed (c : ascii) (d : Z) : hexdigit c = Some d -> In c hex_chars.
Proof.
  intros H.
  pose proof (for_all_ascii
                (fun a => match hexdigit a with
                          | Some _ => existsb (Ascii.eqb a) hex_chars
                          | None => true
                          end)
                ltac:(vm_compute; reflexivity) c) as Hc.
  cbn beta in Hc. rewrite H in Hc.
  apply existsb_exists in Hc. destruct Hc as (a & Ha & Heq).
  apply Ascii.eqb_eq in Heq. now subst.
Qed.

(** Two hexadecimal digits are read as the number they write. *)
Lemma int16_hex_pair (c1 c2 : ascii) (d1 d2 : Z) :
  hexdigit c1 = Some d1 ->
  hexdigit c2 = Some d2 ->
  Py.int_of_str 16 (String c1 (String c2 EmptyString)) = Ok (16 * d1 + d2).
Proof.
  intros H1 H2.
  assert (forallb (fun a => forallb (reads_hex_pair a) hex_chars) hex_chars = true)
    as Hall by (vm_compute; reflexivity).
  rewrite forallb_forall in Hall.
  specialize (Hall c1 (hexdigit_listed c1 d1 H1)). cbn beta in Hall.
  rewrite forallb_forall in Hall.
  specialize (Hall c2 (hexdigit_listed c2 d2 H2)).
  unfold reads_hex_pair in Hall. rewrite H1, H2 in Hall.
  destruct (Py.int_of_str 16 _) as [z | e]; [| discriminate Hall].
  apply Z.eqb_eq in Hall. now subst.
Qed.

Lemma digit_value_nonneg (c : ascii) (d : Z) : Py.digit_value c = Some d -> 0 <= d.
Proof.
  unfold Py.digit_value.
  destruct (Str.between 48 57 c) eqn:E1;
    [| destruct (Str.between 97 122 c) eqn:E2;
       [| destruct (Str.between 65 90 c) eqn:E3; [| discriminate]]].
  all: intros H; injection H as <-.
  all: unfold Str.between in *.
  - apply andb_true_iff in E1. lia.
  - apply andb_true_iff in E2. lia.
  - apply andb_true_iff in E3. lia.
Qed.

(** What the digits of a literal are read as is bounded by their number. *)
Lemma scan_digits_bound (base : Z) (l : list ascii) :
  1 <= base ->
  forall prev_us seen acc v seen' rest,
    0 <= acc ->
    Py.scan_digits base prev_us seen acc l = Some (v, seen', rest) ->
    0 <= v /\ v + 1 <= (acc + 1) * base ^ Z.of_nat (List.length l).
Proof.
  intros Hbase. induction l as [| c r IH]; intros prev_us seen acc v seen' rest Hacc H.
  - cbn in H. destruct prev_us; [discriminate H |].
    injection H as <- _ _. cbn. lia.
  - assert (0 < base ^ Z.of_nat (List.length r)) as Hpow
        by (apply Z.pow_pos_nonneg; lia).
    assert (base ^ Z.of_nat (List.length (c :: r))
            = base * base ^ Z.of_nat (List.length r)) as ->.
    { cbn [List.length]. rewrite Nat2Z.inj_succ. apply Z.pow_succ_r. lia. }
    assert (0 <= acc -> 0 <= acc /\
            acc + 1 <= (acc + 1) * (base * base ^ Z.of_nat (List.length r)))
      as Hfinish by (intros _; split; nia).
    cbn [Py.scan_digits] in H.
    destruct (Str.is_char "_" c).
    + destruct prev_us; [discriminate H |].
      destruct (IH _ _ _ _ _ _ Hacc H) as [Hv Hbound]. split; [exact Hv | nia].
    + destruct (Py.digit_value c) as [d |] eqn:Hd.
      * apply digit_value_nonneg in Hd.
        destruct (d <? base) eqn:Hlt.
        -- apply Z.ltb_lt in Hlt.
           assert (0 <= acc * base + d) as Hacc' by nia.
           destruct (IH _ _ _ _ _ _ Hacc' H) as [Hv Hbound].
           split; [exact Hv | nia].
        -- destruct prev_us; [discriminate H |].
           injection H as <- _ _. now apply Hfinish.
      * destruct prev_us; [discriminate H |].
        injection H as <- _ _. now apply Hfinish.
Qed.

Lemma chars_length (s : string) :
  List.length (Str.chars s) = String.length s.
Proof.
  induction s as [| c s IH]; cbn; [reflexivity | now rewrite <- IH].
Qed.

Lemma drop_while_length (p : ascii -> bool) (l : list ascii) :
  (List.length (Str.drop_while p l) <= List.length l)%nat.
Proof.
  destruct (drop_while_suffix p l) as [d Hd].
  rewrite Hd at 2. rewrite length_app. lia.
Qed.

Lemma skip_prefix16_length (l : list ascii) :
  (List.length (Py.skip_prefix16 l) <= List.length l)%nat.
Proof.
  unfold Py.skip_prefix16.
  destruct l as [| c l']; [cbn [List.length]; lia |].
  destruct c as [[] [] [] [] [] [] [] []]; cbv iota; try lia.
  destruct l' as [| x r]; [lia |].
  destruct (Str.is_char "x" x || Str.is_char "X" x); [| lia].
  destruct r as [| u r']; [cbn [List.length]; lia |].
  destruct u as [[] [] [] [] [] [] [] []]; cbv iota; cbn [List.length]; lia.
Qed.

(** The sign of a literal costs a character. *)
Lemma sign_split (l0 : list ascii) :
  let sl := match l0 with
            | "+"%char :: r => (1, r)
            | "-"%char :: r => (-1, r)
            | _ => (1, l0)
            end in
  (fst sl = 1 /\ (List.length (snd sl) <= List.length l0)%nat)
  \/ (fst sl = -1 /\ (List.length (snd sl) + 1 <= List.length l0)%nat).
Proof.
  destruct l0 as [| c r]; cbn; [left; split; [reflexivity | lia] |].
  destruct c as [[] [] [] [] [] [] [] []]; cbn;
    (left; split; [reflexivity | lia]) || (right; split; [reflexivity | lia]).
Qed.

Lemma leading_underscore_guard {A} (l : list ascii) (e : exn) (X : result A) (a : A) :
  match l with
  | "_"%char :: _ => Err e
  | _ => X
  end = Ok a ->
  X = Ok a.
Proof.
  destruct l as [| c r]; [trivial |].
  destruct c as [[] [] [] [] [] [] [] []]; trivial; discriminate.
Qed.

(** A literal in base 16 of [n] characters is read as a number below
    [16 ^ n] and above [- 16 ^ (n - 1)]. *)
Lemma int16_bound (s : string) (z : Z) :
  Py.int_of_str 16 s = Ok z ->
  - 16 ^ Z.of_nat (String.length s - 1) < z < 16 ^ Z.of_nat (String.length s).
Proof.
  unfold Py.int_of_str. intros H.
  pose proof (drop_while_length Py.isblank (Str.chars s)) as Hl0.
  rewrite chars_length in Hl0.
  set (l0 := Str.drop_while Py.isblank (Str.chars s)) in *. clearbody l0.
  pose proof (sign_split l0) as Hsign. cbv zeta in Hsign.
  destruct (match l0 with
            | "+"%char :: r => (1, r)
            | "-"%char :: r => (-1, r)
            | _ => (1, l0)
            end) as [sign l]. cbn [fst snd] in Hsign.
  change (16 =? 16) with true in H. cbv iota in H.
  pose proof (skip_prefix16_length l) as Hl2.
  set (l2 := Py.skip_prefix16 l) in *. clearbody l2.
  apply leading_underscore_guard in H.
  destruct (Py.scan_digits 16 false false 0 l2) as [[[v seen] rest] |] eqn:Hscan;
    [| discriminate H].
  destruct seen; [| discriminate H].
  destruct (Str.drop_while Py.isblank rest); [| discriminate H].
  cbn [negb andb] in H. injection H as <-.
  destruct (scan_digits_bound 16 l2 ltac:(lia) false false 0 v true rest
                              ltac:(lia) Hscan)
    as [Hv Hbound].
  assert (forall a b : nat, (a <= b)%nat -> 16 ^ Z.of_nat a <= 16 ^ Z.of_nat b) as Hmono
      by (intros a b Hab; apply Z.pow_le_mono_r; lia).
  assert (0 < 16 ^ Z.of_nat (String.length s - 1)) as Hpos
      by (apply Z.pow_pos_nonneg; lia).
  destruct Hsign as [[-> Hlen] | [-> Hlen]].
  - pose proof (Hmono (List.length l2) (String.length s) ltac:(lia)). lia.
  - pose proof (Hmono (List.length l2) (String.length s - 1)%nat ltac:(lia)).
    pose proof (Hmono (String.length s - 1)%nat (String.length s) ltac:(lia)).
    lia.
Qed.

Lemma int_of_str_error (base : Z) (s : string) (e : exn) :
  Py.int_of_str base s = Err e -> e = ValueError.
Proof.
  unfold Py.int_of_str. intros H.
  repeat match type of H with
         | context [match ?x with _ => _ end] => destruct x
         end;
    congruence.
Qed.

Lemma slice_length (i j : nat) (s : string) :
  (String.length (Str.slice i j s) <= j - i)%nat.
Proof.
  rewrite <- chars_length. unfold Str.slice. rewrite chars_of_chars.
  apply firstn_le_length.
Qed.

(** Whatever a slice of two characters is read as lies between -15 and
    255. *)
Lemma int16_slice_range (i : nat) (s : string) (z : Z) :
  Py.int_of_str 16 (Str.slice i (i + 2) s) = Ok z -> -15 <= z <= 255.
Proof.
  intros H. apply int16_bound in H.
  pose proof (slice_length i (i + 2) s) as Hlen.
  replace (i + 2 - i)%nat with 2%nat in Hlen by lia.
  destruct (String.length (Str.slice i (i + 2) s)) as [| [| [| n]]];
    cbn in H; lia.
Qed.

Lemma hexdigit_not_hash (c : ascii) (d : Z) :
  hexdigit c = Some d -> Str.is_char "#" c = false.
Proof.
  intros H.
  pose proof (for_all_ascii
                (fun a => match hexdigit a with
                          | Some _ => negb (Str.is_char "#" a)
                          | None => true
                          end)
                ltac:(vm_compute; reflexivity) c) as Hc.
  cbn beta in Hc. rewrite H in Hc. now apply negb_true_iff in Hc.
Qed.

Lemma drop_hashes (n : nat) (l : list ascii) :
  match l with [] => True | c :: _ => Str.is_char "#" c = false end ->
  Str.drop_while (Str.is_char "#") (repeat "#"%char n ++ l) = l.
Proof.
  intros Hl. induction n as [| n IH]; cbn.
  - now apply drop_while_fixed.
  - exact IH.
Qed.

(** X1: a colour of six hexadecimal digits, behind any number of [#] and
    before any trailing characters, is read digit pair by digit pair, and
    each channel is between 0 and 255. *)
Theorem hex_to_rgb_reads_six_digits :
  forall (n : nat) (c1 c2 c3 c4 c5 c6 : ascii) (d1 d2 d3 d4 d5 d6 : Z)
         (tail : list ascii),
    hexdigit c1 = Some d1 -> hexdigit c2 = Some d2 ->
    hexdigit c3 = Some d3 -> hexdigit c4 = Some d4 ->
    hexdigit c5 = Some d5 -> hexdigit c6 = Some d6 ->
    hex_to_rgb (PStr (Str.of_chars
                        (repeat "#"%char n ++ c1 :: c2 :: c3 :: c4 :: c5 :: c6 :: tail)))
    = Ok (16 * d1 + d2, 16 * d3 + d4, 16 * d5 + d6)
    /\ 0 <= 16 * d1 + d2 <= 255
    /\ 0 <= 16 * d3 + d4 <= 255
    /\ 0 <= 16 * d5 + d6 <= 255.
Proof.
  intros n c1 c2 c3 c4 c5 c6 d1 d2 d3 d4 d5 d6 tail H1 H2 H3 H4 H5 H6.
  split.
  - unfold hex_to_rgb, Str.lstrip_hash, Str.lstrip_by.
    rewrite chars_of_chars, drop_hashes by (now apply (hexdigit_not_hash c1 d1)).
    unfold Str.slice. rewrite !chars_of_chars. cbn [skipn firstn Nat.sub].
    cbn [Str.of_chars string_of_list_ascii].
    rewrite (int16_hex_pair c1 c2 d1 d2 H1 H2),
            (int16_hex_pair c3 c4 d3 d4 H3 H4),
            (int16_hex_pair c5 c6 d5 d6 H5 H6).
    reflexivity.
  - apply hexdigit_range in H1, H2, H3, H4, H5, H6. lia.
Qed.

Lemma hex_to_rgb_reads_six_digits_witness :
  hex_to_rgb (PStr (Str.of_chars
                      (repeat "#"%char 2
                       ++ "f"%char :: "F"%char :: "0"%char :: "9"%char
                          :: "a"%char :: "B"%char :: ["z"%char])))
  = Ok (16 * 15 + 15, 16 * 0 + 9, 16 * 10 + 11)
  /\ 0 <= 16 * 15 + 15 <= 255
  /\ 0 <= 16 * 0 + 9 <= 255
  /\ 0 <= 16 * 10 + 11 <= 255.
Proof.
  apply (hex_to_rgb_reads_six_digits
           2 "f" "F" "0" "9" "a" "B" 15 15 0 9 10 11 ["z"%char]);
    reflexivity.
Defined.

(** X2: how [hex_to_rgb] fails.  On a string it raises [ValueError] and
    nothing else, and it always does when fewer than five characters are
    left behind the [#]s; on anything that is no string it raises
    [AttributeError]. *)
Theorem hex_to_rgb_failures :
  forall (v : pyval),
    (forall e, hex_to_rgb v = Err e ->
               match v with
               | PStr _ => e = ValueError
               | _ => e = AttributeError
               end)
    /\ (forall s, v = PStr s ->
                  (String.length (Str.lstrip_hash s) < 5)%nat ->
                  hex_to_rgb v = Err ValueError)
    /\ (match v with PStr _ => True | _ => hex_to_rgb v = Err AttributeError end).
Proof.
  intros v.
  assert (forall s e, hex_to_rgb (PStr s) = Err e -> e = ValueError) as Hval.
  { intros s e. unfold hex_to_rgb, rbind.
    destruct (Py.int_of_str 16 (Str.slice 0 2 _)) eqn:E1;
      [| intros H; injection H as <-; now apply int_of_str_error in E1].
    destruct (Py.int_of_str 16 (Str.slice 2 4 _)) eqn:E2;
      [| intros H; injection H as <-; now apply int_of_str_error in E2].
    destruct (Py.int_of_str 16 (Str.slice 4 6 _)) eqn:E3;
      [discriminate | intros H; injection H as <-; now apply int_of_str_error in E3]. }
  split; [| split].
  - intros e H. destruct v; try (cbn in H; congruence). now apply (Hval s).
  - intros s -> Hshort.
    destruct (hex_to_rgb (PStr s)) as [[[r g] b] | e] eqn:E;
      [| now rewrite (Hval s e E)].
    exfalso. unfold hex_to_rgb, rbind in E.
    destruct (Py.int_of_str 16 (Str.slice 0 2 _)); [| discriminate E].
    destruct (Py.int_of_str 16 (Str.slice 2 4 _)); [| discriminate E].
    assert (Str.slice 4 6 (Str.lstrip_hash s) = "") as Hempty.
    { unfold Str.slice. rewrite skipn_all2; [reflexivity |].
      rewrite chars_length. lia. }
    rewrite Hempty in E. discriminate E.
  - destruct v; try exact I; reflexivity.
Qed.

(** X3: a colour that is read has every channel between -15 and 255,
    whatever the string was: nothing larger than two hexadecimal digits
    fits a slice, and a sign costs a digit. *)
Theorem hex_to_rgb_channel_range :
  forall (v : pyval) (r g b : Z),
    hex_to_rgb v = Ok (r, g, b) ->
    -15 <= r <= 255 /\ -15 <= g <= 255 /\ -15 <= b <= 255.
Proof.
  intros v r g b H.
  destruct v as [| | | | s | |]; try discriminate H.
  unfold hex_to_rgb, rbind in H.
  destruct (Py.int_of_str 16 (Str.slice 0 2 _)) as [r' |] eqn:E1; [| discriminate H].
  destruct (Py.int_of_str 16 (Str.slice 2 4 _)) as [g' |] eqn:E2; [| discriminate H].
  destruct (Py.int_of_str 16 (Str.slice 4 6 _)) as [b' |] eqn:E3; [| discriminate H].
  injection H as <- <- <-.
  apply (int16_slice_range 0) in E1.
  apply (int16_slice_range 2) in E2.
  apply (int16_slice_range 4) in E3.
  now repeat split.
Qed.

Lemma hex_to_rgb_channel_range_witness :
  -15 <= -1 <= 255 /\ -15 <= 2 <= 255 /\ -15 <= 3 <= 255.
Proof.
  apply (hex_to_rgb_channel_range (PStr "#-1+2 3")). reflexivity.
Defined.

(* ================================================================== *)
(** ** More on font resolution *)

(** The first candidate of a family in the Linux table does not depend
    on the style flags: it is the regular face. *)
Lemma linux_regular_first (family : string) (b i : bool) :
  exists regular rest,
    candidates (linux_fonts b i) family = Some regular :: rest
    /\ forall b' i', exists rest',
        candidates (linux_fonts b' i') family = Some regular :: rest'.
Proof.
  unfold candidates, linux_fonts. cbn [Py.assoc Py.dict_get].
  destruct (String.eqb "Arial" family);
    [| destruct (String.eqb "Times New Roman" family);
       [| destruct (String.eqb "Courier New" family)]];
    cbn [String.eqb Ascii.eqb Bool.eqb];
    eexists _, _; (split; [reflexivity |]); intros b' i'; eexists; reflexivity.
Qed.

(** X4: the style flags do not matter once the regular face loads.  When
    the first candidate of the family in the Linux table exists and loads,
    [get_font] returns it whatever [bold] and [italic] are: the bold and
    italic files are only reached when the regular one is missing. *)
Theorem get_font_regular_face_wins :
  forall (w : World) (family : string) (font_size : Z) (regular : string)
         (rest : list (option string)),
    candidates (linux_fonts false false) family = Some regular :: rest ->
    loadable w font_size regular = true ->
    forall bold italic,
      get_font w (PStr family) font_size bold italic
      = Ok (TrueType regular font_size).
Proof.
  intros w family font_size regular rest Hcand Hload bold italic.
  destruct (linux_regular_first family false false)
    as (regular' & rest0 & Hfirst & Hany).
  rewrite Hcand in Hfirst. injection Hfirst as <- _.
  destruct (Hany (Py.truthy bold) (Py.truthy italic)) as [rest' Hrest].
  unfold get_font. rewrite font_paths_of_name. cbn [rbind].
  rewrite Hrest. cbn [try_paths].
  unfold loadable in Hload.
  apply andb_true_iff in Hload. destruct Hload as [Hload ->].
  now rewrite Hload.
Qed.

Lemma get_font_regular_face_wins_witness :
  get_font container (PStr "Georgia") 18 (PBool true) (PBool true)
  = Ok (TrueType "/usr/share/fonts/truetype/liberation/LiberationSans-Regular.ttf" 18).
Proof.
  apply (get_font_regular_face_wins
           container "Georgia" 18
           "/usr/share/fonts/truetype/liberation/LiberationSans-Regular.ttf"
           [None; None]);
    reflexivity.
Defined.

(** A family that is no string: a list or an object makes [get_font]
    raise, every other value has Arial's candidates. *)
Lemma get_font_family_not_a_string (w : World) (font_family : pyval)
      (font_size : Z) (bold italic : pyval) :
  (forall s, font_family <> PStr s) ->
  let lf := linux_fonts (Py.truthy bold) (Py.truthy italic) in
  let wf := windows_fonts (Py.truthy bold) (Py.truthy italic) in
  get_font w font_family font_size bold italic
  = if Py.hashable font_family
    then match find (loadable w font_size)
                    (set_paths (Py.dict_get lf "Arial" [])
                     ++ set_paths (Py.dict_get wf "Arial" [])) with
         | Some path => Ok (TrueType path font_size)
         | None =>
             if print_raises w (FontFallback font_family)
             then Err UnicodeEncodeError
             else Ok DefaultFont
         end
    else Err TypeError.
Proof.
  intros Hns lf wf.
  destruct font_family as [| b | z | f | s | l | d];
    try reflexivity; try (now elim (Hns s));
    unfold get_font; fold lf wf; cbn [font_paths Py.hashable rbind];
    rewrite !try_paths_find, find_append;
    (destruct (find _ _); cbn [option_map]; [reflexivity |]);
    destruct (find _ _); reflexivity.
Qed.

(* ================================================================== *)
(** ** More on file names *)

Lemma keep_not_space (c : ascii) : Werkzeug.keep c = true -> Str.isspace c = false.
Proof.
  intros H.
  pose proof (for_all_ascii
                (fun a => negb (Werkzeug.keep a && Str.isspace a))
                ltac:(vm_compute; reflexivity) c) as Hc.
  cbn beta in Hc. rewrite H in Hc. now apply negb_true_iff in Hc.
Qed.

Lemma keep_not_slash (c : ascii) : Werkzeug.keep c = true -> Ascii.eqb c "/" = false.
Proof.
  intros H. destruct (Ascii.eqb c "/") eqn:E; [| reflexivity].
  apply Ascii.eqb_eq in E. subst c. discriminate H.
Qed.

Lemma replace_slash_safe (l : list ascii) :
  (forall c, In c l -> Werkzeug.keep c = true) ->
  Str.replace_char "/" " " l = l.
Proof.
  induction l as [| c l IH]; intros H; cbn; [reflexivity |].
  rewrite (keep_not_slash c) by (apply H; now left).
  f_equal. apply IH. intros a Ha. apply H. now right.
Qed.

Lemma split_ws_aux_safe (l : list ascii) :
  (forall c, In c l -> Werkzeug.keep c = true) ->
  forall cur,
    Str.split_ws_aux cur l
    = match rev cur ++ l with
      | [] => []
      | word => [word]
      end.
Proof.
  induction l as [| c l IH]; intros H cur; cbn [Str.split_ws_aux].
  - rewrite app_nil_r. destruct cur as [| a cur]; [reflexivity |].
    cbn [rev]. destruct (rev cur ++ [a]) eqn:E; [| reflexivity].
    now apply app_eq_nil in E.
  - rewrite (keep_not_space c) by (apply H; now left).
    rewrite IH by (intros a Ha; apply H; now right).
    cbn [rev]. now rewrite <- app_assoc.
Qed.

Lemma join_split_safe (l : list ascii) :
  (forall c, In c l -> Werkzeug.keep c = true) ->
  Str.join ["_"%char] (Str.split_ws l) = l.
Proof.
  intros H. unfold Str.split_ws. rewrite split_ws_aux_safe by exact H.
  cbn [rev app]. now destruct l.
Qed.

Lemma filter_keep_safe (l : list ascii) :
  (forall c, In c l -> Werkzeug.keep c = true) ->
  filter Werkzeug.keep l = l.
Proof.
  induction l as [| c l IH]; intros H; cbn; [reflexivity |].
  rewrite (H c) by now left. f_equal. apply IH. intros a Ha. apply H. now right.
Qed.

Lemma stripped_fixed (p : ascii -> bool) (l : list ascii) :
  match l with [] => True | c :: _ => p c = false end ->
  match rev l with [] => True | c :: _ => p c = false end ->
  stripped p l = l.
Proof.
  intros Hhead Hlast. unfold stripped.
  rewrite (drop_while_fixed p l Hhead), (drop_while_fixed p (rev l) Hlast).
  apply rev_involutive.
Qed.

(** A name of safe characters that neither starts nor ends with a dot or
    an underscore is what [secure_filename] makes of it. *)
Lemma secure_filename_fixed (w : World) (name : string) :
  fixes_safe_names w ->
  safe_name name ->
  match Str.chars name with
  | [] => True
  | c :: _ => Werkzeug.dot_or_underscore c = false
  end ->
  match rev (Str.chars name) with
  | [] => True
  | c :: _ => Werkzeug.dot_or_underscore c = false
  end ->
  secure_filename w name = name.
Proof.
  intros Hfix Hsafe Hhead Hlast.
  unfold secure_filename, Werkzeug.secure_filename.
  rewrite (Hfix name Hsafe).
  rewrite replace_slash_safe, join_split_safe, filter_keep_safe by exact Hsafe.
  unfold Str.strip_by. rewrite chars_of_chars.
  fold (stripped Werkzeug.dot_or_underscore (Str.chars name)).
  rewrite stripped_fixed by assumption.
  apply of_chars_chars.
Qed.

Lemma secure_filename_safe (w : World) (filename : string) :
  safe_name (secure_filename w filename).
Proof. intros c. apply secure_filename_chars. Qed.

Lemma secure_filename_ends (w : World) (filename : string) :
  match Str.chars (secure_filename w filename) with
  | [] => True
  | c :: _ => Werkzeug.dot_or_underscore c = false
  end
  /\ match rev (Str.chars (secure_filename w filename)) with
     | [] => True
     | c :: _ => Werkzeug.dot_or_underscore c = false
     end.
Proof.
  unfold secure_filename, Werkzeug.secure_filename.
  rewrite strip_by_chars. split.
  - destruct (stripped _ _) as [| c r] eqn:E; [exact I |].
    now apply stripped_head in E.
  - destruct (rev (stripped _ _)) as [| c r] eqn:E; [exact I |].
    now apply stripped_last in E.
Qed.

Lemma secure_filename_idempotent_aux (w : World) (filename : string) :
  fixes_safe_names w ->
  secure_filename w (secure_filename w filename) = secure_filename w filename.
Proof.
  intros Hfix.
  destruct (secure_filename_ends w filename) as [Hhead Hlast].
  apply secure_filename_fixed; try assumption.
  apply secure_filename_safe.
Qed.

(** X5: sanitising is idempotent.  Where the normalisation leaves safe
    names alone, a name that [secure_filename] returned is returned
    unchanged when it is sanitised again. *)
Theorem secure_filename_idempotent :
  forall (w : World) (filename : string),
    fixes_safe_names w ->
    secure_filename w (secure_filename w filename) = secure_filename w filename.
Proof.
  intros w filename Hfix. now apply secure_filename_idempotent_aux.
Qed.

Lemma container_fixes_safe_names : fixes_safe_names container.
Proof. intros s _. reflexivity. Qed.

Lemma secure_filename_idempotent_witness :
  secure_filename container (secure_filename container "../My holiday  photo_.png")
  = secure_filename container "../My holiday  photo_.png".
Proof.
  apply (secure_filename_idempotent container "../My holiday  photo_.png").
  exact container_fixes_safe_names.
Defined.

Lemma chars_app (a b : string) :
  Str.chars (a ++ b)%string = Str.chars a ++ Str.chars b.
Proof.
  unfold Str.chars.
  induction a as [| c a IH]; cbn; [reflexivity | now rewrite IH].
Qed.

Lemma after_last_none (sep : ascii) (l : list ascii) :
  ~ In sep l ->
  forall cur, OsPath.after_last sep cur l = rev cur ++ l.
Proof.
  induction l as [| c l IH]; intros Hno cur; cbn.
  - now rewrite app_nil_r.
  - destruct (Ascii.eqb c sep) eqn:E.
    + apply Ascii.eqb_eq in E. subst c. elim Hno. now left.
    + rewrite IH by (intros Hin; apply Hno; now right).
      cbn. now rewrite <- app_assoc.
Qed.

Lemma safe_name_no_slash (name : string) :
  safe_name name -> ~ In "/"%char (Str.chars name).
Proof. intros Hsafe Hin. apply Hsafe in Hin. discriminate Hin. Qed.

(** The base name of a safe name joined under the upload folder is the
    name. *)
Lemma basename_in_upload_folder (name : string) :
  safe_name name ->
  OsPath.basename ("uploads/" ++ name)%string = name.
Proof.
  intros Hsafe. unfold OsPath.basename.
  rewrite chars_app. cbn [Str.chars list_ascii_of_string app].
  cbn [OsPath.after_last Ascii.eqb Bool.eqb].
  rewrite after_last_none by (now apply safe_name_no_slash).
  cbn [rev app]. apply of_chars_chars.
Qed.

Lemma edited_name_safe (name : string) :
  safe_name name -> safe_name ("edited_" ++ name)%string.
Proof.
  intros Hsafe c. rewrite chars_app. intros Hin.
  apply in_app_or in Hin. destruct Hin as [Hin | Hin]; [| now apply Hsafe].
  cbn in Hin.
  repeat (destruct Hin as [<- | Hin]; [reflexivity |]). destruct Hin.
Qed.

(** An output name made from a non-empty sanitised name is sanitised. *)
Lemma edited_name_fixed (w : World) (filename : string) :
  fixes_safe_names w ->
  secure_filename w filename <> "" ->
  secure_filename w ("edited_" ++ secure_filename w filename)
  = ("edited_" ++ secure_filename w filename)%string.
Proof.
  intros Hfix Hne.
  destruct (secure_filename_ends w filename) as [_ Hlast].
  apply secure_filename_fixed.
  - exact Hfix.
  - apply edited_name_safe, secure_filename_safe.
  - reflexivity.
  - rewrite chars_app, rev_app_distr.
    destruct (rev (Str.chars (secure_filename w filename))) as [| c r] eqn:E.
    + apply (f_equal (@rev ascii)) in E. rewrite rev_involutive in E. cbn in E.
      apply (f_equal Str.of_chars) in E. rewrite of_chars_chars in E.
      now elim Hne.
    + exact Hlast.
Qed.

Lemma edited_of_nothing (w : World) :
  fixes_safe_names w -> secure_filename w "edited_" = "edited".
Proof.
  intros Hfix. unfold secure_filename, Werkzeug.secure_filename.
  rewrite (Hfix "edited_"); [reflexivity |].
  intros c Hin. cbn in Hin.
  repeat (destruct Hin as [<- | Hin]; [reflexivity |]). destruct Hin.
Qed.

Lemma append_longer (a s : string) : a <> "" -> s <> (a ++ s)%string.
Proof.
  intros Ha E. apply (f_equal Str.chars) in E. rewrite chars_app in E.
  apply (f_equal (@List.length ascii)) in E. rewrite length_app in E.
  destruct a as [| c a]; [now elim Ha |]. cbn in E. lia.
Qed.

(** X6: the edit never overwrites the picture it reads.  Where the
    normalisation leaves safe names alone, the path the output is saved to
    differs from the path of the input, whatever that path is. *)
Theorem update_image_output_is_another_file :
  forall (w : World) (image_path : string),
    fixes_safe_names w ->
    OsPath.join UPLOAD_FOLDER (output_name w image_path) <> image_path.
Proof.
  intros w image_path Hfix E.
  rewrite output_path_in_upload_folder in E.
  set (s := secure_filename w (OsPath.basename image_path)) in *.
  assert (OsPath.basename image_path = ("edited_" ++ s)%string) as Hbase.
  { rewrite <- E at 1.
    change ("uploads/edited_" ++ s)%string
      with ("uploads/" ++ ("edited_" ++ s))%string.
    apply basename_in_upload_folder, edited_name_safe, secure_filename_safe. }
  assert (s = secure_filename w ("edited_" ++ s)) as Hs
      by (unfold s at 1; now rewrite Hbase).
  destruct (string_dec s "") as [Hempty | Hne].
  - rewrite Hempty in Hs. cbn [append] in Hs.
    rewrite (edited_of_nothing w Hfix) in Hs. discriminate Hs.
  - unfold s in Hs at 2. rewrite edited_name_fixed in Hs by assumption.
    fold s in Hs. revert Hs. apply append_longer. discriminate.
Qed.

Lemma update_image_output_is_another_file_witness :
  OsPath.join UPLOAD_FOLDER (output_name container "uploads/edited_photo.png")
  <> "uploads/edited_photo.png".
Proof.
  apply (update_image_output_is_another_file container "uploads/edited_photo.png").
  exact container_fixes_safe_names.
Defined.

(** X7: what an edit saved can be asked for under the name the edit
    returned.  Where the normalisation leaves safe names alone and the base
    name of the input does not sanitise to nothing, the download handler,
    given the returned file name, probes the very path the edit saved to
    and hands that path to [send_file].  The edit saved under the working
    directory and [send_file] looks under the root path of the application:
    the file served is the file saved when the two directories are one. *)
Theorem edited_file_is_downloadable :
  forall (w : World) (image_path : string),
    fixes_safe_names w ->
    secure_filename w (OsPath.basename image_path) <> "" ->
    app_root w = cwd w ->
    let saved := OsPath.join UPLOAD_FOLDER (output_name w image_path) in
    download_file w (output_name w image_path)
    = (if fs_exists w saved
       then if send_file_ok w (served_file w saved)
            then {| status := 200;
                    payload := Attachment saved (output_name w image_path) |}
            else {| status := 500; payload := JErrorOf OSError |}
       else {| status := 404; payload := JError "File not found" |})
    /\ served_file w saved = in_cwd w saved.
Proof.
  intros w image_path Hfix Hne Hroot saved.
  split.
  - unfold download_file. unfold output_name at 1 2 3 4.
    rewrite edited_name_fixed by assumption. reflexivity.
  - unfold served_file, in_cwd. now rewrite Hroot.
Qed.

Lemma edited_file_is_downloadable_witness :
  download_file container (output_name container "uploads/photo.png")
  = (if fs_exists container
          (OsPath.join UPLOAD_FOLDER (output_name container "uploads/photo.png"))
     then if send_file_ok container
               (served_file container
                  (OsPath.join UPLOAD_FOLDER
                               (output_name container "uploads/photo.png")))
          then {| status := 200;
                  payload :=
                    Attachment
                      (OsPath.join UPLOAD_FOLDER
                                   (output_name container "uploads/photo.png"))
                      (output_name container "uploads/photo.png") |}
          else {| status := 500; payload := JErrorOf OSError |}
     else {| status := 404; payload := JError "File not found" |})
  /\ served_file container
       (OsPath.join UPLOAD_FOLDER (output_name container "uploads/photo.png"))
     = in_cwd container
         (OsPath.join UPLOAD_FOLDER (output_name container "uploads/photo.png")).
Proof.
  apply (edited_file_is_downloadable container "uploads/photo.png").
  - exact container_fixes_safe_names.
  - discriminate.
  - reflexivity.
Defined.

(** The exception to X7: an input whose base name sanitises to nothing is
    saved as [uploads/edited_], and the returned name [edited_] leads the
    download handler to [uploads/edited]. *)
Lemma edited_file_of_nothing (w : World) (image_path : string) :
  fixes_safe_names w ->
  secure_filename w (OsPath.basename image_path) = "" ->
  OsPath.join UPLOAD_FOLDER (output_name w image_path) = "uploads/edited_"
  /\ OsPath.join UPLOAD_FOLDER (secure_filename w (output_name w image_path))
     = "uploads/edited".
Proof.
  intros Hfix Hempty. unfold output_name. rewrite Hempty. cbn [append].
  rewrite (edited_of_nothing w Hfix). split; reflexivity.
Qed.

(* ================================================================== *)
(** ** More on extraction *)

(** The default styling of a freshly extracted block. *)
Lemma extract_row_defaults (w : World) (data : ocr_data) (i : nat) (b : TextBlock) :
  extract_row w data i = Ok (Some b) ->
  fontSize b = 20 /\ fontFamily b = "Arial"
  /\ bold b = false /\ italic b = false /\ underline b = false
  /\ textColor b = "#000000" /\ backgroundColor b = "#FFFFFF"
  /\ backgroundTransparent b = true.
Proof.
  unfold extract_row, rbind at 1. intros H.
  destruct (column (col_text data) i) as [cell | e]; [| discriminate H].
  destruct (Py.truthy cell && Str.nonempty (Str.strip (py_str w cell)));
    [| discriminate H].
  unfold rbind at 1 2 3 4 5 in H.
  destruct (int_at (col_left data) i); [| discriminate H].
  destruct (int_at (col_top data) i); [| discriminate H].
  destruct (int_at (col_width data) i); [| discriminate H].
  destruct (int_at (col_height data) i); [| discriminate H].
  destruct (rbind (column (col_conf data) i) _); [| discriminate H].
  injection H as <-. cbn. now repeat split.
Qed.

(** Every way [extract_text] ends. *)
Lemma extract_text_outcomes (w : World) (files_image : option upload) :
  let r := fst (extract_text w files_image) in
  let t := snd (extract_text w files_image) in
  (status r <> 200 /\ t = [])
  \/ exists file path,
      files_image = Some file
      /\ Str.nonempty (up_filename file) = true
      /\ tesseract_available w = true
      /\ path = ("uploads/" ++ secure_filename w (up_filename file))%string
      /\ ((status r = 500
           /\ (t = [StoredUpload path]
               \/ t = [StoredUpload path; OpenedImage path]
               \/ t = [StoredUpload path; OpenedImage path; OpenedImage path]))
          \/ exists raw gray data blocks,
              up_decoded file = Some raw
              /\ image_to_data w gray = Some data
              /\ extract_blocks w data = Ok blocks
              /\ r = {| status := 200;
                        payload := JExtracted blocks
                                     (String.concat " " (map text blocks))
                                     (PngDataUrl (Decoded raw)) path |}
              /\ t = [StoredUpload path; OpenedImage path; OpenedImage path]).
Proof.
  unfold extract_text, at_boundary.
  destruct (tesseract_available w); cbn [negb];
    [| left; split; [discriminate | reflexivity]].
  destruct files_image as [file |];
    [| left; split; [discriminate | reflexivity]].
  destruct (Str.nonempty (up_filename file)) eqn:Hname; cbn [negb];
    [| left; split; [discriminate | reflexivity]].
  unfold bind, lift, ret, raise, record, emit.
  rewrite (join_upload_folder (secure_filename w (up_filename file)))
    by (apply secure_filename_no_leading; now left).
  set (path := ("uploads/" ++ secure_filename w (up_filename file))%string).
  destruct (upload_save_ok w path);
    [| left; split; [discriminate | reflexivity]].
  right. exists file, path. do 4 (split; [first [reflexivity | exact Hname] |]).
  destruct (up_decoded file) as [raw |]; cbn [of_option];
    [| left; split; [reflexivity | now left]].
  match goal with
  | |- context [image_to_data w ?g] =>
      destruct (image_to_data w g) as [data |] eqn:Hdata; cbn [of_option];
        [| left; split; [reflexivity | right; now left]]
  end.
  destruct (extract_blocks w data) as [blocks | e] eqn:Hblocks;
    [| left; split; [reflexivity | right; now left]].
  destruct (png_writable w (Decoded raw));
    [| left; split; [reflexivity | right; now right]].
  right. exists raw. eexists. exists data, blocks.
  split; [reflexivity |]. split; [exact Hdata |]. split; [exact Hblocks |].
  split; reflexivity.
Qed.

(** X8: what an extraction writes.  Whatever the request and the world,
    [extract_text] writes at most one file, the upload, at [uploads/]
    followed by the sanitised client name, a name without separator; a 400
    answer and the answer to a missing OCR engine write nothing; a 200
    answer has written the upload and returns its path. *)
Theorem extract_text_stores_only_the_upload :
  forall (w : World) (files_image : option upload),
    let r := fst (extract_text w files_image) in
    let t := snd (extract_text w files_image) in
    (writes t = []
     \/ exists file,
         files_image = Some file
         /\ safe_name (secure_filename w (up_filename file))
         /\ writes t = [("uploads/" ++ secure_filename w (up_filename file))%string])
    /\ (status r = 400 -> t = [])
    /\ (tesseract_available w = false -> status r = 500 /\ t = [])
    /\ (status r = 200 ->
        exists file blocks full_text img,
          files_image = Some file
          /\ payload r
             = JExtracted blocks full_text img
                 ("uploads/" ++ secure_filename w (up_filename file))%string
          /\ writes t = [("uploads/" ++ secure_filename w (up_filename file))%string]).
Proof.
  intros w files_image. cbv zeta.
  pose proof (extract_text_outcomes w files_image) as Hout. cbv zeta in Hout.
  assert (tesseract_available w = false ->
          status (fst (extract_text w files_image)) = 500) as Hmissing.
  { intros Hoff. unfold extract_text, at_boundary. now rewrite Hoff. }
  set (r := fst (extract_text w files_image)) in *.
  set (t := snd (extract_text w files_image)) in *.
  clearbody r t.
  destruct Hout
    as [[Hstatus Ht] | (file & path & -> & Hname & Havail & -> & Hrest)].
  - rewrite Ht. split; [now left |]. split; [reflexivity |].
    split; [| intros H; now elim Hstatus].
    intros Hoff. split; [now apply Hmissing | reflexivity].
  - destruct Hrest
      as [[Hstatus Ht] | (raw & gray & data & blocks & _ & _ & _ & Hr & Ht)].
    + split.
      { right. exists file. split; [reflexivity |].
        split; [apply secure_filename_safe |].
        destruct Ht as [-> | [-> | ->]]; reflexivity. }
      split; [intros H; rewrite Hstatus in H; discriminate H |].
      split; [intros H; rewrite Havail in H; discriminate H |].
      intros H; rewrite Hstatus in H; discriminate H.
    + split.
      { right. exists file. split; [reflexivity |].
        split; [apply secure_filename_safe |]. now rewrite Ht. }
      split; [intros H; rewrite Hr in H; discriminate H |].
      split; [intros H; rewrite Havail in H; discriminate H |].
      intros _. eexists file, _, _, _. split; [reflexivity |].
      rewrite Hr, Ht. split; reflexivity.
Qed.

Lemma extracted_blocks_have_default_style_aux
      (w : World) (files_image : option upload) (blocks : list TextBlock)
      (full_text : string) (img : data_url) (path : string) (t : list io) :
  extract_text w files_image
  = ({| status := 200; payload := JExtracted blocks full_text img path |}, t) ->
  forall b,
    In b blocks ->
    fontSize b = 20 /\ fontFamily b = "Arial"
    /\ bold b = false /\ italic b = false /\ underline b = false
    /\ textColor b = "#000000" /\ backgroundColor b = "#FFFFFF"
    /\ backgroundTransparent b = true.
Proof.
  intros H b Hin.
  destruct (extract_text_blocks _ _ _ _ _ _ _ H) as (gray & data & _ & Hblocks).
  destruct (extract_rows_block _ _ _ _ _ Hblocks Hin) as (i & _ & Hrow).
  now apply (extract_row_defaults w data i).
Qed.

(** X9: every block of a 200 answer of the extraction carries the
    default styling: size 20, Arial, no bold, italic or underline, black
    text, white background marked transparent. *)
Theorem extracted_blocks_have_default_style :
  forall (w : World) (files_image : option upload) (blocks : list TextBlock)
         (full_text : string) (img : data_url) (path : string) (t : list io),
    extract_text w files_image
    = ({| status := 200; payload := JExtracted blocks full_text img path |}, t) ->
    forall b,
      In b blocks ->
      fontSize b = 20 /\ fontFamily b = "Arial"
      /\ bold b = false /\ italic b = false /\ underline b = false
      /\ textColor b = "#000000" /\ backgroundColor b = "#FFFFFF"
      /\ backgroundTransparent b = true.
Proof.
  intros w files_image blocks full_text img path t H b Hin.
  now apply (extracted_blocks_have_default_style_aux
               w files_image blocks full_text img path t).
Qed.

Lemma extracted_blocks_have_default_style_witness :
  fontSize hello_block = 20 /\ fontFamily hello_block = "Arial"
  /\ bold hello_block = false /\ italic hello_block = false
  /\ underline hello_block = false
  /\ textColor hello_block = "#000000" /\ backgroundColor hello_block = "#FFFFFF"
  /\ backgroundTransparent hello_block = true.
Proof.
  apply (extracted_blocks_have_default_style
           word_engine (Some sample_upload) [hello_block]
           "Hello" (PngDataUrl (Decoded sample_raw)) "uploads/scan.png"
           [StoredUpload "uploads/scan.png"; OpenedImage "uploads/scan.png";
            OpenedImage "uploads/scan.png"]
           eq_refl hello_block).
  now left.
Defined.

Lemma extract_rows_texts (w : World) (data : ocr_data) (rows : list nat) :
  forall blocks,
    extract_rows w data rows = Ok blocks ->
    map text blocks
    = map (fun i => Str.strip (py_str w (nth i (col_text data) PNone)))
          (filter (fun i => kept w (nth i (col_text data) PNone)) rows).
Proof.
  induction rows as [| i rest IH]; intros blocks H; cbn in H.
  - injection H as <-. reflexivity.
  - unfold rbind in H.
    destruct (extract_row w data i) as [ob | e] eqn:Hrow; [| discriminate H].
    destruct (extract_rows w data rest) as [bs | e]; [| discriminate H].
    injection H as <-. specialize (IH bs eq_refl).
    cbn [filter].
    destruct ob as [b |].
    + destruct (extract_row_block _ _ _ _ Hrow) as (cell & Hcell & Htext & Hne & _).
      unfold column in Hcell.
      destruct (nth_error (col_text data) i) as [c |] eqn:Hnth; [| discriminate Hcell].
      injection Hcell as ->.
      rewrite (nth_error_nth _ _ PNone Hnth).
      assert (kept w cell = true) as Hkept.
      { unfold extract_row, rbind at 1, column in Hrow. rewrite Hnth in Hrow.
        cbn [of_option] in Hrow. unfold kept.
        destruct (Py.truthy cell && _); [reflexivity | discriminate Hrow]. }
      rewrite Hkept. cbn [map]. rewrite ?(nth_error_nth _ _ PNone Hnth).
      now rewrite Htext, IH.
    + unfold extract_row, rbind at 1, column in Hrow.
      destruct (nth_error (col_text data) i) as [c |] eqn:Hnth;
        [| discriminate Hrow].
      cbn [of_option] in Hrow. rewrite (nth_error_nth _ _ PNone Hnth).
      fold (kept w c) in Hrow.
      destruct (kept w c).
      * unfold rbind in Hrow.
        repeat match type of Hrow with
               | context [match ?r with Ok _ => _ | Err _ => _ end] =>
                   destruct r; try discriminate Hrow
               end.
      * exact IH.
Qed.

(** X10: the blocks follow the rows.  The texts of the extracted blocks
    are, in the order of the rows of the engine's table, the stripped texts
    of the rows whose text is truthy and not blank; a row with an empty or
    blank text gives no block. *)
Theorem extracted_blocks_follow_the_rows :
  forall (w : World) (data : ocr_data) (blocks : list TextBlock),
    extract_blocks w data = Ok blocks ->
    map text blocks
    = map (fun i => Str.strip (py_str w (nth i (col_text data) PNone)))
          (filter (fun i => kept w (nth i (col_text data) PNone))
                  (seq 0 (List.length (col_level data))))
    /\ (List.length blocks <= List.length (col_level data))%nat.
Proof.
  intros w data blocks H. unfold extract_blocks in H.
  pose proof (extract_rows_texts w data _ blocks H) as Htexts.
  split; [exact Htexts |].
  rewrite <- (length_map text blocks), Htexts, length_map.
  etransitivity; [apply filter_length_le |]. now rewrite length_seq.
Qed.

Lemma extracted_blocks_follow_the_rows_witness :
  map text [hello_block]
  = map (fun i => Str.strip (py_str container (nth i (col_text word_table) PNone)))
        (filter (fun i => kept container (nth i (col_text word_table) PNone))
                (seq 0 (List.length (col_level word_table))))
  /\ (List.length
        [hello_block]
      <= List.length (col_level word_table))%nat.
Proof.
  apply (extracted_blocks_follow_the_rows container word_table).
  reflexivity.
Defined.

Lemma extract_rows_missing_text (w : World) (data : ocr_data) (rows : list nat) :
  (exists i, In i rows /\ nth_error (col_text data) i = None) ->
  exists e, extract_rows w data rows = Err e.
Proof.
  induction rows as [| i rest IH]; intros (j & Hin & Hnone); [destruct Hin |].
  cbn [extract_rows]. unfold rbind at 1.
  destruct (extract_row w data i) as [ob | e] eqn:Hrow; [| now exists e].
  assert (exists e, extract_rows w data rest = Err e) as [e He].
  { apply IH. destruct Hin as [<- | Hin]; [| now exists j].
    unfold extract_row, rbind at 1, column in Hrow. rewrite Hnone in Hrow.
    discriminate Hrow. }
  exists e. unfold rbind. now rewrite He.
Qed.

(** X11: a ragged table.  When the engine's table has fewer text cells
    than level cells, the answer is 500 with the error of the failing row,
    and the upload, stored before the engine ran, is left in the upload
    folder. *)
Theorem extract_text_ragged_table :
  forall (w : World) (file : upload) (raw : raw_image) (data : ocr_data),
    tesseract_available w = true ->
    up_filename file <> "" ->
    upload_save_ok w ("uploads/" ++ secure_filename w (up_filename file))%string
    = true ->
    up_decoded file = Some raw ->
    (forall img, image_to_data w img = Some data) ->
    (List.length (col_text data) < List.length (col_level data))%nat ->
    exists e,
      extract_text w (Some file)
      = ({| status := 500; payload := JTraceback e |},
         [StoredUpload ("uploads/" ++ secure_filename w (up_filename file))%string;
          OpenedImage ("uploads/" ++ secure_filename w (up_filename file))%string]).
Proof.
  intros w file raw data Havail Hname Hsave Hraw Hdata Hragged.
  destruct (extract_rows_missing_text w data (seq 0 (List.length (col_level data))))
    as [e He].
  { exists (List.length (col_text data)). split.
    - apply in_seq. lia.
    - apply nth_error_None. lia. }
  exists e. unfold extract_text, at_boundary.
  rewrite Havail. cbn [negb].
  apply nonempty_true in Hname. rewrite Hname. cbn [negb].
  unfold bind, lift, ret, raise, record, emit.
  rewrite (join_upload_folder (secure_filename w (up_filename file)))
    by (apply secure_filename_no_leading; now left).
  rewrite Hsave, Hraw. cbn [of_option]. rewrite Hdata. cbn [of_option].
  unfold extract_blocks. rewrite He. reflexivity.
Qed.

Lemma extract_text_ragged_table_witness :
  exists e,
    extract_text ragged_engine (Some sample_upload)
    = ({| status := 500; payload := JTraceback e |},
       [StoredUpload ("uploads/" ++ secure_filename ragged_engine
                                                    (up_filename sample_upload))%string;
        OpenedImage ("uploads/" ++ secure_filename ragged_engine
                                                   (up_filename sample_upload))%string]).
Proof.
  apply (extract_text_ragged_table ragged_engine sample_upload sample_raw ragged_table).
  - reflexivity.
  - discriminate.
  - reflexivity.
  - reflexivity.
  - intros img. reflexivity.
  - cbn. lia.
Defined.

(** X12: an extraction can be edited back unchanged.  A block of a 200
    answer of the extraction, sent back as it was received, is drawn by the
    edit handler in the same world: it puts on the overlay the translucent
    white cover [x-2, y-2, x+width+2, y+height+2] and then the block's text
    in opaque black at [(x, y)] in the font resolved for Arial at size 20,
    and nothing else, as long as the drawing surface accepts the two calls.
    The block is then printed as rendered, unless the first 30 characters
    of its text cannot be printed. *)
Theorem extracted_block_is_rendered :
  forall (w : World) (files_image : option upload) (blocks : list TextBlock)
         (full_text : string) (img : data_url) (path : string) (t : list io)
         (b : TextBlock) (f : font) (drawn : list draw_cmd),
    extract_text w files_image
    = ({| status := 200; payload := JExtracted blocks full_text img path |}, t) ->
    In b blocks ->
    get_font w (PStr "Arial") 20 (PBool false) (PBool false) = Ok f ->
    draw_raises w (Rectangle (x b - 2, y b - 2, x b + width b + 2, y b + height b + 2)
                             (255, 255, 255, 200)) = false ->
    draw_raises w (Text (x b) (y b) (text b) (0, 0, 0, 255) f) = false ->
    render_block w (block_json b) drawn
    = (if print_raises w (BlockDone (Str.slice 0 30 (text b)))
       then Err UnicodeEncodeError
       else Ok tt,
       drawn ++ [Rectangle (x b - 2, y b - 2, x b + width b + 2, y b + height b + 2)
                           (255, 255, 255, 200);
                 Text (x b) (y b) (text b) (0, 0, 0, 255) f]).
Proof.
  intros w files_image blocks full_text img path t b f drawn
         Hrun Hin Hfont Hrect Htext.
  destruct (extracted_blocks_have_default_style_aux _ _ _ _ _ _ _ Hrun b Hin)
    as (Hsize & Hfamily & Hbold & Hitalic & Hunder & Hcolor & Hbg & Htransp).
  assert (read_block w (block_json b)
          = Ok {| v_x := x b; v_y := y b; v_w := width b; v_h := height b;
                  v_text := text b;
                  v_font_size := 20;
                  v_font_family := PStr "Arial";
                  v_bold := PBool false;
                  v_italic := PBool false;
                  v_underline := PBool false;
                  v_text_color := PStr "#000000";
                  v_bg_color := PStr "#FFFFFF";
                  v_bg_transparent := PBool true;
                  v_font := f |}) as Hread.
  { unfold read_block, block_json, int_item.
    cbn [Py.subscript Py.get Py.assoc Py.dict_get String.eqb Ascii.eqb Bool.eqb
         of_option rbind Py.int py_str].
    rewrite Hsize, Hfamily, Hbold, Hitalic, Hunder, Hcolor, Hbg, Htransp, Hfont.
    reflexivity. }
  rewrite (render_block_run w _ _ drawn Hread).
  unfold cover_fill, cover_box, underline_cmds, block_printed.
  cbn [v_x v_y v_w v_h v_text v_font v_underline v_text_color v_bg_color
       v_bg_transparent Py.truthy].
  cbn zeta. rewrite Hrect.
  change (hex_to_rgb (PStr "#000000")) with (@Ok rgb (0, 0, 0)).
  cbn [with_alpha]. now rewrite Htext.
Qed.

Lemma extracted_block_is_rendered_witness :
  render_block word_engine (block_json hello_block) []
  = (if print_raises word_engine (BlockDone (Str.slice 0 30 (text hello_block)))
     then Err UnicodeEncodeError
     else Ok tt,
     [] ++ [Rectangle (x hello_block - 2, y hello_block - 2,
                       x hello_block + width hello_block + 2,
                       y hello_block + height hello_block + 2)
                      (255, 255, 255, 200);
            Text (x hello_block) (y hello_block) (text hello_block) (0, 0, 0, 255)
                 (TrueType "/usr/share/fonts/truetype/liberation/LiberationSans-Regular.ttf" 20)]).
Proof.
  apply (extracted_block_is_rendered
           word_engine (Some sample_upload) [hello_block]
           "Hello" (PngDataUrl (Decoded sample_raw)) "uploads/scan.png"
           [StoredUpload "uploads/scan.png"; OpenedImage "uploads/scan.png";
            OpenedImage "uploads/scan.png"]);
    try reflexivity.
  now left.
Defined.

(** X13: the path an extraction returns names the edit's output.  Where
    the normalisation leaves safe names alone, the edit of the path that
    [extract_text] returns for an upload is saved as [uploads/edited_]
    followed by the sanitised client name of the upload. *)
Theorem extracted_path_names_the_edit :
  forall (w : World) (filename : string),
    fixes_safe_names w ->
    let image_path := OsPath.join UPLOAD_FOLDER (secure_filename w filename) in
    OsPath.basename image_path = secure_filename w filename
    /\ output_name w image_path = ("edited_" ++ secure_filename w filename)%string
    /\ OsPath.join UPLOAD_FOLDER (output_name w image_path)
       = ("uploads/edited_" ++ secure_filename w filename)%string.
Proof.
  intros w filename Hfix image_path.
  assert (OsPath.basename image_path = secure_filename w filename) as Hbase.
  { unfold image_path.
    rewrite join_upload_folder by (apply secure_filename_no_leading; now left).
    apply basename_in_upload_folder, secure_filename_safe. }
  assert (output_name w image_path
          = ("edited_" ++ secure_filename w filename)%string) as Hname.
  { unfold output_name. rewrite Hbase.
    now rewrite (secure_filename_idempotent_aux w filename Hfix). }
  split; [exact Hbase |]. split; [exact Hname |].
  rewrite output_path_in_upload_folder, Hbase.
  now rewrite (secure_filename_idempotent_aux w filename Hfix).
Qed.

Lemma extracted_path_names_the_edit_witness :
  OsPath.basename (OsPath.join UPLOAD_FOLDER (secure_filename container "my scan.png"))
  = secure_filename container "my scan.png"
  /\ output_name container
       (OsPath.join UPLOAD_FOLDER (secure_filename container "my scan.png"))
     = ("edited_" ++ secure_filename container "my scan.png")%string
  /\ OsPath.join UPLOAD_FOLDER
       (output_name container
          (OsPath.join UPLOAD_FOLDER (secure_filename container "my scan.png")))
     = ("uploads/edited_" ++ secure_filename container "my scan.png")%string.
Proof.
  apply (extracted_path_names_the_edit container "my scan.png").
  exact container_fixes_safe_names.
Defined.

(* ================================================================== *)
(** ** More on the edit handler *)

(** Every way [update_image] ends. *)
Lemma update_image_outcomes (w : World) (request_json : pyval) :
  let r := fst (update_image w request_json) in
  let t := snd (update_image w request_json) in
  (status r <> 200 /\ t = [])
  \/ exists path,
      Py.get request_json "image_path" PNone = Ok (PStr path)
      /\ path <> ""
      /\ fs_exists w path = true
      /\ ((status r = 500 /\ (t = [] \/ t = [OpenedImage path]))
          \/ exists raw blocks,
              open_image w path = Some raw
              /\ r = {| status := 200;
                        payload := JEdited true
                                     (PngDataUrl
                                        (composed raw (snd (process_blocks w blocks []))))
                                     (output_name w path) |}
              /\ t = [OpenedImage path;
                      SavedImage (OsPath.join UPLOAD_FOLDER (output_name w path))
                                 (composed raw (snd (process_blocks w blocks [])))]).
Proof.
  cbv zeta.
  destruct request_json as [| | | | | | d];
    try (left; split; [discriminate | reflexivity]).
  destruct (Py.truthy (Py.dict_get d "image_path" PNone)) eqn:Hip;
    [| left; unfold update_image, at_boundary, bind, lift, ret;
       cbn [Py.get]; rewrite Hip; split; [discriminate | reflexivity]].
  destruct (Py.truthy (Py.dict_get d "text_blocks" PNone)) eqn:Htb;
    [| left; unfold update_image, at_boundary, bind, lift, ret;
       cbn [Py.get]; rewrite Hip, Htb; split; [discriminate | reflexivity]].
  destruct (Py.dict_get d "image_path" PNone) as [| b | z | f | path | l | d'] eqn:Hget;
    try discriminate Hip.
  - left. cbn [Py.truthy] in Hip. subst b.
    unfold update_image, at_boundary, bind, lift, ret.
    cbn [Py.get]. rewrite Hget, Htb. cbn [Py.truthy negb orb path_exists].
    destruct (fd_exists w _) as [[|] |]; cbn; split; (discriminate || reflexivity).
  - left. unfold update_image, at_boundary, bind, lift, ret.
    cbn [Py.get]. rewrite Hget, Htb, Hip. cbn [negb orb path_exists].
    destruct (fd_exists w _) as [[|] |]; cbn; split; (discriminate || reflexivity).
  - left. unfold update_image, at_boundary, bind, lift, ret.
    cbn [Py.get]. rewrite Hget, Htb, Hip. cbn. split; (discriminate || reflexivity).
  - assert (path <> "") as Hne by (intros ->; discriminate Hip).
    destruct (fs_exists w path) eqn:Hex.
    + right. exists path. cbn [Py.get]. rewrite Hget.
      split; [reflexivity |]. split; [exact Hne |]. split; [exact Hex |].
      rewrite (update_image_existing w d path Hget Hne Htb Hex).
      unfold edit_existing.
      destruct (open_image w path) as [raw |];
        [| left; split; [reflexivity | now left]].
      destruct (py_iter (Py.dict_get d "text_blocks" PNone)) as [blocks | e];
        [| left; split; [reflexivity | now right]].
      destruct (save_error w _ _);
        [left; split; [reflexivity | now right] |].
      right. exists raw, blocks. now repeat split.
    + left. unfold update_image, at_boundary, bind, lift, ret.
      cbn [Py.get]. rewrite Hget, Htb, Hip. cbn [negb orb path_exists].
      rewrite Hex. cbn. split; (discriminate || reflexivity).
  - left. unfold update_image, at_boundary, bind, lift, ret.
    cbn [Py.get]. rewrite Hget, Htb, Hip. cbn. split; (discriminate || reflexivity).
  - left. unfold update_image, at_boundary, bind, lift, ret.
    cbn [Py.get]. rewrite Hget, Htb, Hip. cbn. split; (discriminate || reflexivity).
Qed.

(** X14: what an edit writes.  Whatever the request and the world,
    [update_image] writes a file exactly when it answers 200; the file is
    then the one output image, at [uploads/edited_] followed by a name
    without separator; no error answer leaves a file behind. *)
Theorem update_image_writes_only_on_success :
  forall (w : World) (request_json : pyval),
    let r := fst (update_image w request_json) in
    let t := snd (update_image w request_json) in
    (status r <> 200 -> writes t = [])
    /\ (status r = 200 ->
        exists path,
          Py.get request_json "image_path" PNone = Ok (PStr path)
          /\ safe_name (secure_filename w (OsPath.basename path))
          /\ writes t
             = [("uploads/edited_" ++ secure_filename w (OsPath.basename path))%string]).
Proof.
  intros w request_json. cbv zeta.
  pose proof (update_image_outcomes w request_json) as Hout. cbv zeta in Hout.
  set (r := fst (update_image w request_json)) in *.
  set (t := snd (update_image w request_json)) in *.
  clearbody r t.
  destruct Hout as [[Hstatus ->] | (path & Hpath & _ & _ & Hrest)].
  - split; [reflexivity | intros H; now elim Hstatus].
  - destruct Hrest as [[Hstatus Ht] | (raw & blocks & _ & -> & ->)].
    + split.
      * intros _. destruct Ht as [-> | ->]; reflexivity.
      * intros H. rewrite Hstatus in H. discriminate H.
    + split; [intros H; now elim H |].
      intros _. exists path. split; [exact Hpath |].
      split; [apply secure_filename_safe | reflexivity].
Qed.

(** X15: the shape of the request.  A JSON body that is no object is
    answered 500 (the [.get] on it raises), an object that lacks
    [image_path] or [text_blocks] is answered 400; in both cases nothing is
    opened or written. *)
Theorem update_image_request_shape :
  forall (w : World) (request_json : pyval),
    match request_json with
    | PDict d =>
        Py.assoc d "image_path" = None \/ Py.assoc d "text_blocks" = None ->
        update_image w request_json
        = ({| status := 400; payload := JError "Missing required data" |}, [])
    | _ =>
        update_image w request_json
        = ({| status := 500; payload := JTraceback AttributeError |}, [])
    end.
Proof.
  intros w request_json. destruct request_json as [| | | | | | d]; try reflexivity.
  intros Hmissing.
  unfold update_image, at_boundary, bind, lift, ret. cbn [Py.get].
  unfold Py.dict_get.
  destruct Hmissing as [-> | ->]; cbn [Py.truthy negb orb]; [reflexivity |].
  now rewrite orb_true_r.
Qed.

Lemma render_block_not_an_object (w : World) (block : pyval) (drawn : list draw_cmd) :
  (forall d, block <> PDict d) ->
  render_block w block drawn = (Err TypeError, drawn).
Proof.
  intros Hno. apply render_block_unread.
  destruct block; try reflexivity. now elim (Hno items).
Qed.

Lemma process_blocks_not_objects (w : World) (blocks : list pyval) :
  (forall b, In b blocks -> forall d, b <> PDict d) ->
  forall drawn,
    process_blocks w blocks drawn
    = (Ok (map (fun _ => Skipped TypeError) blocks), drawn).
Proof.
  induction blocks as [| b rest IH]; intros Hno drawn.
  - reflexivity.
  - rewrite process_blocks_cons.
    rewrite render_block_not_an_object by (apply Hno; now left).
    cbn [fst snd]. rewrite IH by (intros b' Hb'; apply Hno; now right).
    reflexivity.
Qed.

Lemma py_iter_of_text (tb : pyval) (items : list pyval) :
  py_iter tb = Ok items ->
  (forall l, tb <> PList l) ->
  forall b, In b items -> forall d, b <> PDict d.
Proof.
  intros Hiter Hnolist b Hin d ->.
  destruct tb; try discriminate Hiter.
  - injection Hiter as <-. apply in_map_iff in Hin.
    destruct Hin as (c & Hc & _). discriminate Hc.
  - now elim (Hnolist items0).
  - injection Hiter as <-. apply in_map_iff in Hin.
    destruct Hin as (kv & Hkv & _). discriminate Hkv.
Qed.

(** X16: [text_blocks] that is no list.  A non-empty string or object as
    [text_blocks] is iterated, character by character or key by key; every
    item is skipped with [TypeError], nothing is drawn, and the handler
    answers 200 with the base image under an empty overlay (for a picture
    that exists, opens and can be saved).  The same holds for a list none
    of whose items is an object. *)
Theorem update_image_items_that_are_no_objects :
  forall (w : World) (path : string) (raw : raw_image)
         (text_blocks : pyval) (items : list pyval),
    path <> "" ->
    fs_exists w path = true ->
    open_image w path = Some raw ->
    (forall img,
        save_ok w (OsPath.join UPLOAD_FOLDER (output_name w path)) img = true) ->
    Py.truthy text_blocks = true ->
    py_iter text_blocks = Ok items ->
    ((forall l, text_blocks <> PList l)
     \/ (forall b, In b items -> forall d, b <> PDict d)) ->
    process_blocks w items [] = (Ok (map (fun _ => Skipped TypeError) items), [])
    /\ update_image w (PDict [("image_path", PStr path); ("text_blocks", text_blocks)])
       = ({| status := 200;
             payload := JEdited true (PngDataUrl (composed raw []))
                                (output_name w path) |},
          [OpenedImage path;
           SavedImage (OsPath.join UPLOAD_FOLDER (output_name w path))
                      (composed raw [])]).
Proof.
  intros w path raw text_blocks items Hne Hex Hopen Hsave Htruthy Hiter Hitems.
  assert (forall b, In b items -> forall d, b <> PDict d) as Hno.
  { destruct Hitems as [Hnolist | Hno]; [| exact Hno].
    now apply (py_iter_of_text text_blocks). }
  pose proof (process_blocks_not_objects w items Hno []) as Hloop.
  split; [exact Hloop |].
  rewrite (update_image_existing w _ path); try assumption; try reflexivity.
  unfold edit_existing. cbn [Py.dict_get Py.assoc String.eqb Ascii.eqb Bool.eqb].
  rewrite Hopen, Hiter, Hloop. cbn [snd].
  now rewrite (save_ok_true _ _ _ (Hsave _)).
Qed.

Lemma update_image_items_that_are_no_objects_witness :
  process_blocks container
    (map (fun c => PStr (String c EmptyString)) (Str.chars "abc")) []
  = (Ok (map (fun _ => Skipped TypeError)
             (map (fun c => PStr (String c EmptyString)) (Str.chars "abc"))), [])
  /\ update_image container
       (PDict [("image_path", PStr "uploads/photo.png"); ("text_blocks", PStr "abc")])
     = ({| status := 200;
           payload := JEdited true (PngDataUrl (composed sample_raw []))
                              (output_name container "uploads/photo.png") |},
        [OpenedImage "uploads/photo.png";
         SavedImage (OsPath.join UPLOAD_FOLDER
                                 (output_name container "uploads/photo.png"))
                    (composed sample_raw [])]).
Proof.
  apply (update_image_items_that_are_no_objects
           container "uploads/photo.png" sample_raw (PStr "abc")).
  - discriminate.
  - reflexivity.
  - reflexivity.
  - intros img. reflexivity.
  - reflexivity.
  - reflexivity.
  - left. discriminate.
Defined.

(** What a block does to an overlay is what it does to the empty one,
    appended. *)
Lemma render_block_anywhere (w : World) (block : pyval) (drawn : list draw_cmd) :
  render_block w block drawn
  = (fst (render_block w block []), drawn ++ snd (render_block w block [])).
Proof.
  destruct (read_block w block) as [v | e] eqn:Hread.
  - rewrite (render_block_run w block v drawn Hread),
            (render_block_run w block v [] Hread).
    destruct (cover_fill v) as [fill | e]; [| cbn; now rewrite app_nil_r].
    cbn zeta. destruct (draw_raises w (Rectangle _ _));
      [cbn; now rewrite app_nil_r |].
    destruct (hex_to_rgb (v_text_color v)) as [c | e]; [| reflexivity].
    destruct (draw_raises w (Text _ _ _ _ _)); reflexivity.
  - rewrite !(render_block_unread w block e _ Hread). cbn. now rewrite app_nil_r.
Qed.

(** X17: the loop is a map.  The lines printed and the calls drawn by the
    loop over the blocks are, block by block and in the order of the list,
    what each block prints and draws on its own: no block changes what
    another block draws, and the overlay only grows. *)
Theorem process_blocks_block_by_block :
  forall (w : World) (blocks : list pyval) (drawn : list draw_cmd),
    process_blocks w blocks drawn
    = (Ok (map (block_outcome w) blocks),
       drawn ++ flat_map (block_cmds w) blocks).
Proof.
  intros w blocks. induction blocks as [| b rest IH]; intros drawn.
  - cbn. now rewrite app_nil_r.
  - rewrite process_blocks_cons, render_block_anywhere. cbn [fst snd].
    rewrite IH. cbn [map flat_map]. unfold block_outcome at 1, block_cmds at 1.
    now rewrite app_assoc.
Qed.

(** X18: what one block draws.  A block puts at most three calls on the
    overlay, in this order: its covering rectangle, its text, its
    underline.  A block that drew its text is printed as rendered, unless
    that very line cannot be printed: then it is printed as skipped, with
    all its calls on the overlay.  A block skipped for any other reason has
    drawn nothing or the rectangle alone. *)
Theorem block_draws_cover_text_underline :
  forall (w : World) (block : pyval),
    (exists e, block_outcome w block = Skipped e
               /\ (block_cmds w block = []
                   \/ exists xy fill, block_cmds w block = [Rectangle xy fill]))
    \/ (exists xy fill bx by_ txt color f,
          block_outcome w block
          = (if print_raises w (BlockDone (Str.slice 0 30 txt))
             then Skipped UnicodeEncodeError
             else Rendered)
          /\ (block_cmds w block = [Rectangle xy fill; Text bx by_ txt color f]
              \/ exists x0 y0 x1 y1 fill' width,
                  block_cmds w block
                  = [Rectangle xy fill; Text bx by_ txt color f;
                     Line x0 y0 x1 y1 fill' width])).
Proof.
  intros w block. unfold block_outcome, block_cmds.
  destruct (read_block w block) as [v | e] eqn:Hread.
  - rewrite (render_block_run w block v [] Hread).
    destruct (cover_fill v) as [fill | e];
      [| left; exists e; split; [reflexivity | now left]].
    cbn zeta. destruct (draw_raises w (Rectangle _ _));
      [left; exists PillowError; split; [reflexivity | now left] |].
    destruct (hex_to_rgb (v_text_color v)) as [c | e];
      [| left; exists e; split; [reflexivity | right; now eexists _, _]].
    destruct (draw_raises w (Text _ _ _ _ _));
      [left; exists PillowError; split; [reflexivity | right; now eexists _, _] |].
    right. cbn [fst snd app].
    eexists _, _, _, _, (v_text v), _, _.
    split.
    { unfold block_printed. now destruct (print_raises w _). }
    unfold underline_cmds.
    destruct (Py.truthy (v_underline v)); [| left; reflexivity].
    destruct (textbbox w _ _ _ _) as [[[[bl bt] br] bb] |]; [| left; reflexivity].
    destruct (draw_raises w _); [left; reflexivity |].
    right. eexists _, _, _, _, _, _. reflexivity.
  - rewrite (render_block_unread w block e [] Hread).
    left. exists e. split; [reflexivity | now left].
Qed.

(** A block that is drawn and printed as skipped: its text is the lone
    surrogate, which the host draws in the default font and cannot
    print. *)
Example drawn_block_printed_as_skipped :
  process_blocks fontless_host [surrogate_block] []
  = (Ok [Skipped UnicodeEncodeError],
     [Rectangle (8, 18, 42, 30) (255, 255, 255, 200);
      Text 10 20 lone_surrogate (0, 0, 0, 255) DefaultFont]).
Proof. reflexivity. Qed.

(* ================================================================== *)
(** ** Start-up *)





(** X20: the main block.  When it reaches [app.run], debug mode is on
    exactly when the server binds to 127.0.0.1 and off exactly when it
    binds to 0.0.0.0; a [PORT] in the environment is the port, binds to
    0.0.0.0 and turns debug off; without [PORT] the port is 5000, and
    without [RENDER] as well the server binds to 127.0.0.1. *)
Theorem main_never_debugs_in_public :
  forall (environ : list (string * string)) (args : run_args),
    main environ = Ok args ->
    (run_debug args = true <-> run_host args = "127.0.0.1")
    /\ (run_debug args = false <-> run_host args = "0.0.0.0")
    /\ (forall s, Py.assoc environ "PORT" = Some s ->
                  Py.int_of_str 10 s = Ok (run_port args)
                  /\ run_host args = "0.0.0.0"
                  /\ run_debug args = false)
    /\ (Py.assoc environ "PORT" = None ->
        run_port args = 5000
        /\ (Py.assoc environ "RENDER" = None -> run_host args = "127.0.0.1")).
Proof.
  intros environ args H. unfold main, rbind, environ_get in H.
  destruct (Py.assoc environ "PORT") as [s |] eqn:Hport.
  - cbn [Py.int] in H.
    destruct (Py.int_of_str 10 s) as [port |] eqn:Hint; [| discriminate H].
    assert (Str.nonempty s = true) as Hs
        by (destruct s; [discriminate Hint | reflexivity]).
    cbn [Py.truthy] in H. rewrite Hs, orb_true_r in H.
    injection H as <-. cbn [run_debug run_host run_port negb].
    split; [split; discriminate |].
    split; [split; reflexivity |].
    split; [| discriminate].
    intros q Hq. injection Hq as <-. now repeat split.
  - cbn [Py.int Py.truthy] in H. rewrite orb_false_r in H.
    injection H as <-. cbn [run_debug run_host run_port].
    destruct (Py.assoc environ "RENDER") as [r |] eqn:Hrender.
    + cbn [Py.truthy]. destruct (Str.nonempty r); cbn [negb].
      * split; [split; discriminate |]. split; [split; reflexivity |].
        split; [discriminate |]. intros _. split; [reflexivity | discriminate].
      * split; [split; reflexivity |]. split; [split; discriminate |].
        split; [discriminate |]. intros _. split; [reflexivity | discriminate].
    + cbn [Py.truthy negb].
      split; [split; reflexivity |]. split; [split; discriminate |].
      split; [discriminate |]. intros _. split; reflexivity.
Qed.

Lemma main_never_debugs_in_public_witness :
  (run_debug hosted_args = true <-> run_host hosted_args = "127.0.0.1")
  /\ (run_debug hosted_args = false <-> run_host hosted_args = "0.0.0.0")
  /\ (forall s, Py.assoc [("PORT", "10000")] "PORT" = Some s ->
                Py.int_of_str 10 s = Ok (run_port hosted_args)
                /\ run_host hosted_args = "0.0.0.0"
                /\ run_debug hosted_args = false)
  /\ (Py.assoc [("PORT", "10000")] "PORT" = None ->
      run_port hosted_args = 5000
      /\ (Py.assoc [("PORT", "10000")] "RENDER" = None ->
          run_host hosted_args = "127.0.0.1")).
Proof.
  apply (main_never_debugs_in_public [("PORT", "10000")] hosted_args). reflexivity.
Defined.

(** X21: a [PORT] that is no number stops the start-up.  When [PORT] is
    set and [int] does not read it (the empty string included), the main
    block raises [ValueError] before [app.run] is called, whatever else the
    environment holds. *)
Theorem main_rejects_a_bad_port :
  forall (environ : list (string * string)) (s : string) (e : exn),
    Py.assoc environ "PORT" = Some s ->
    Py.int_of_str 10 s = Err e ->
    main environ = Err ValueError.
Proof.
  intros environ s e Hport Hint. unfold main, rbind. rewrite Hport.
  cbn [Py.int]. rewrite Hint. now rewrite (int_of_str_error _ _ _ Hint).
Qed.

Lemma main_rejects_a_bad_port_witness :
  main [("RENDER", "true"); ("PORT", "")] = Err ValueError.
Proof.
  apply (main_rejects_a_bad_port [("RENDER", "true"); ("PORT", "")] "" ValueError);
    reflexivity.
Defined.

(* ================================================================== *)
(** ** More on one block *)

Lemma get_font_unhashable (w : World) (font_family : pyval) (font_size : Z)
      (bold italic : pyval) :
  Py.hashable font_family = false ->
  get_font w font_family font_size bold italic = Err TypeError.
Proof.
  intros H. destruct font_family; try discriminate H; reflexivity.
Qed.

(** The items [read_block] insists on. *)
Lemma read_block_required (w : World) (d : list (string * pyval)) (v : block_vars) :
  read_block w (PDict d) = Ok v ->
  forall k, In k ["x"; "y"; "width"; "height"; "text"] -> Py.assoc d k <> None.
Proof.
  intros H k Hk Hnone. unfold read_block, rbind in H.
  split_result H. clear H.
  unfold int_item, rbind in *. cbn [Py.subscript] in *.
  cbn [In] in Hk.
  destruct Hk as [<- | [<- | [<- | [<- | [<- | []]]]]];
    rewrite Hnone in *; cbn [of_option] in *; congruence.
Qed.

(** The style of a block that was read, key by key. *)
Lemma read_block_style (w : World) (d : list (string * pyval)) (v : block_vars) :
  read_block w (PDict d) = Ok v ->
  Py.int (Py.dict_get d "fontSize" (PInt 20)) = Ok (v_font_size v)
  /\ v_font_family v = Py.dict_get d "fontFamily" (PStr "Arial")
  /\ v_bold v = Py.dict_get d "bold" (PBool false)
  /\ v_italic v = Py.dict_get d "italic" (PBool false)
  /\ v_underline v = Py.dict_get d "underline" (PBool false)
  /\ v_text_color v = Py.dict_get d "textColor" (PStr "#000000")
  /\ v_bg_color v = Py.dict_get d "backgroundColor" (PStr "#FFFFFF")
  /\ v_bg_transparent v = Py.dict_get d "backgroundTransparent" (PBool true)
  /\ get_font w (v_font_family v) (v_font_size v) (v_bold v) (v_italic v)
     = Ok (v_font v).
Proof.
  intros H. unfold read_block, rbind in H. cbn [Py.get] in H.
  split_result H. injection H as <-. cbn. now repeat split.
Qed.

(** X22: a block that cannot be read draws nothing.  A block that is no
    object, that lacks one of [x], [y], [width], [height], [text], or whose
    [fontFamily] is a list or an object is skipped, and the overlay is left
    as it was. *)
Theorem unreadable_block_draws_nothing :
  forall (w : World) (block : pyval) (drawn : list draw_cmd),
    (forall d, block <> PDict d)
    \/ (exists d k, block = PDict d
                    /\ In k ["x"; "y"; "width"; "height"; "text"]
                    /\ Py.assoc d k = None)
    \/ (exists d, block = PDict d
                  /\ Py.hashable (Py.dict_get d "fontFamily" (PStr "Arial")) = false) ->
    exists e,
      render_block w block drawn = (Err e, drawn)
      /\ block_outcome w block = Skipped e.
Proof.
  intros w block drawn Hbad.
  assert (exists e, read_block w block = Err e) as [e He].
  { destruct (read_block w block) as [v | e] eqn:Hread; [| now exists e].
    exfalso. destruct Hbad as [Hno | [(d & k & -> & Hk & Hnone) | (d & -> & Hfam)]].
    - destruct block; try discriminate Hread. now elim (Hno items).
    - now apply (read_block_required w d v Hread k Hk).
    - destruct (read_block_style w d v Hread)
        as (_ & Hfamily & _ & _ & _ & _ & _ & _ & Hfont).
      rewrite Hfamily, get_font_unhashable in Hfont by exact Hfam.
      discriminate Hfont. }
  exists e. split; [now apply render_block_unread |].
  unfold block_outcome. now rewrite (render_block_unread w block e [] He).
Qed.

Lemma unreadable_block_draws_nothing_witness :
  exists e,
    render_block container listed_family_block [] = (Err e, [])
    /\ block_outcome container listed_family_block = Skipped e.
Proof.
  apply (unreadable_block_draws_nothing container listed_family_block []).
  right. right. eexists. split; reflexivity.
Defined.

(** X23: the style keys are optional.  For a block that was read, a style
    key that is absent stands for its default: size 20, family Arial, no
    bold, italic or underline, black text, white background, and a
    transparent background; the font is the one resolved for the family,
    size and flags so obtained. *)
Theorem absent_style_keys_mean_defaults :
  forall (w : World) (d : list (string * pyval)) (v : block_vars),
    read_block w (PDict d) = Ok v ->
    (Py.assoc d "fontSize" = None -> v_font_size v = 20)
    /\ (Py.assoc d "fontFamily" = None -> v_font_family v = PStr "Arial")
    /\ (Py.assoc d "bold" = None -> v_bold v = PBool false)
    /\ (Py.assoc d "italic" = None -> v_italic v = PBool false)
    /\ (Py.assoc d "underline" = None -> v_underline v = PBool false)
    /\ (Py.assoc d "textColor" = None -> v_text_color v = PStr "#000000")
    /\ (Py.assoc d "backgroundColor" = None -> v_bg_color v = PStr "#FFFFFF")
    /\ (Py.assoc d "backgroundTransparent" = None -> v_bg_transparent v = PBool true)
    /\ get_font w (v_font_family v) (v_font_size v) (v_bold v) (v_italic v)
       = Ok (v_font v).
Proof.
  intros w d v Hread.
  destruct (read_block_style w d v Hread)
    as (Hsize & Hfamily & Hbold & Hitalic & Hunder & Hcolor & Hbg & Htransp & Hfont).
  unfold Py.dict_get in *.
  repeat split; try exact Hfont; intros Hnone; rewrite Hnone in *;
    try assumption.
  cbn in Hsize. now injection Hsize as <-.
Qed.

Lemma absent_style_keys_mean_defaults_witness :
  (Py.assoc half_items "fontSize" = None -> v_font_size half_block_vars = 20)
  /\ (Py.assoc half_items "fontFamily" = None ->
      v_font_family half_block_vars = PStr "Arial")
  /\ (Py.assoc half_items "bold" = None -> v_bold half_block_vars = PBool false)
  /\ (Py.assoc half_items "italic" = None -> v_italic half_block_vars = PBool false)
  /\ (Py.assoc half_items "underline" = None ->
      v_underline half_block_vars = PBool false)
  /\ (Py.assoc half_items "textColor" = None ->
      v_text_color half_block_vars = PStr "#000000")
  /\ (Py.assoc half_items "backgroundColor" = None ->
      v_bg_color half_block_vars = PStr "#FFFFFF")
  /\ (Py.assoc half_items "backgroundTransparent" = None ->
      v_bg_transparent half_block_vars = PBool true)
  /\ get_font container (v_font_family half_block_vars) (v_font_size half_block_vars)
                (v_bold half_block_vars) (v_italic half_block_vars)
     = Ok (v_font half_block_vars).
Proof.
  apply (absent_style_keys_mean_defaults container half_items half_block_vars).
  reflexivity.
Defined.
